(** * CSV_Gen: the row stream engine of r-subjectify

    A shallow embedding of [src/CSV_Gen.py] and the properties of its
    configuration resolution and row production.

    Conventions of the embedding.
    - Python values that can be field names, dictionary keys, set elements
      and cell values are [pyobj]: [None], an [int], or a [str].  The
      strings considered are those whose characters have code points below
      256: a character is its code point, and [str.lower] acts on these
      characters as Python does, on the letters A..Z and on the capital
      letters from 192 to 222.
    - A dictionary value is a [pyval]: a [pyobj] or a function object.  A
      function object is a Rocq function from [pyobj] to [res pyobj], so it
      is deterministic and it may raise.
    - A [dict] is an association list in insertion order, as Python keeps
      it; a [set] of [pyobj] is a [gset].
    - An exception is a value of [exn]; code that may raise returns [res].
      Methods that assign to attributes of [self] return the outcome
      together with the object as the call leaves it.
    - The [csv] module and the file system are outside the repository: a
      file is what [csv.Sniffer] and [csv.reader] report about it. *)

From Stdlib Require Import Ascii ZArith Lia.
From stdpp Require Import strings countable gmap sets base option list.

Local Open Scope string_scope.
Local Open Scope list_scope.

(** ** Python values *)

Inductive pyobj : Type :=
| PNone
| PInt (z : Z)
| PStr (s : string).

#[global] Instance pyobj_eq_dec : EqDecision pyobj.
Proof. solve_decision. Defined.

#[global] Instance pyobj_countable : Countable pyobj.
Proof.
  refine (inj_countable'
    (λ o, match o with
          | PNone => inl ()
          | PInt z => inr (inl z)
          | PStr s => inr (inr s)
          end)
    (λ t, match t with
          | inl _ => PNone
          | inr (inl z) => PInt z
          | inr (inr s) => PStr s
          end) _).
  by intros [].
Defined.

(** Exceptions: the class and, where the source gives one, the message. *)
Inductive exn : Type :=
| KeyError (msg : string)
| ValueError (msg : string)
| CSV_Error (msg : string)
| TypeError
| AttributeError
| StopIteration
| RuntimeError
| OSError
| csv_Error.

Inductive res (A : Type) : Type :=
| Ok (a : A)
| Raise (e : exn).
Arguments Ok {A} a.
Arguments Raise {A} e.

Definition res_bind {A B} (m : res A) (k : A → res B) : res B :=
  match m with
  | Ok a => k a
  | Raise e => Raise e
  end.

Declare Scope res_scope.
Delimit Scope res_scope with res.
Notation "x <- m ;; k" := (res_bind m (λ x, k))
  (at level 100, m at next level, right associativity) : res_scope.

(** [[f(x) for x in xs]]: evaluation stops at the first exception. *)
Fixpoint res_map {A B} (f : A → res B) (xs : list A) : res (list B) :=
  match xs with
  | [] => Ok []
  | x :: xs' =>
      (y <- f x ;;
       ys <- res_map f xs' ;;
       Ok (y :: ys))%res
  end.

Definition pyfun : Type := pyobj → res pyobj.

Inductive pyval : Type :=
| Lit (o : pyobj)
| Fn (f : pyfun).

(** [bool(o)] *)
Definition truthy_obj (o : pyobj) : bool :=
  match o with
  | PNone => false
  | PInt z => negb (z =? 0)%Z
  | PStr s => negb (String.eqb s "")
  end.

Definition truthy (v : pyval) : bool :=
  match v with
  | Lit o => truthy_obj o
  | Fn _ => true
  end.

Definition callable (v : pyval) : bool :=
  match v with
  | Lit _ => false
  | Fn _ => true
  end.

(** [v(x)] *)
Definition call (v : pyval) (x : pyobj) : res pyobj :=
  match v with
  | Fn f => f x
  | Lit _ => Raise TypeError
  end.

(** [a or b]; [b] is evaluated only when [a] is falsy. *)
Definition py_or (a : pyval) (b : res pyval) : res pyval :=
  if truthy a then Ok a else b.

(** ** Strings *)

(** [c.lower()] for a character of code point below 256: the capital
    letters are A..Z (65 to 90) and, among the code points from 192 to
    222, all but the multiplication sign (215); the small letter of each
    is 32 above it. *)
Definition lower_ascii (c : ascii) : ascii :=
  let n := N_of_ascii c in
  if (((65 <=? n) && (n <=? 90))
      || ((192 <=? n) && (n <=? 214))
      || ((216 <=? n) && (n <=? 222)))%N
  then ascii_of_N (n + 32) else c.

(** [s.lower()] *)
Fixpoint str_lower (s : string) : string :=
  match s with
  | EmptyString => EmptyString
  | String c s' => String (lower_ascii c) (str_lower s')
  end.

(** [s.replace(a, b)] for one-character [a] and [b] *)
Fixpoint str_replace (a b : ascii) (s : string) : string :=
  match s with
  | EmptyString => EmptyString
  | String c s' =>
      String (if Ascii.eqb c a then b else c) (str_replace a b s')
  end.

(** [snakecase] and [_to_snakecase] have the same body. *)
Definition snakecase (s : string) : string :=
  str_replace " " "_" (str_lower s).

(** [self._to_snakecase(x)]: only a [str] has [lower]. *)
Definition _to_snakecase (x : pyobj) : res pyobj :=
  match x with
  | PStr s => Ok (PStr (snakecase s))
  | _ => Raise AttributeError
  end.

(** ** Dictionaries in insertion order *)

Abbreviation dict V := (list (pyobj * V)) (only parsing).

Section dict.
Context {V : Type}.

(** [d.get(k)], with [None] for Python's [None] default *)
Fixpoint dict_get (k : pyobj) (d : dict V) : option V :=
  match d with
  | [] => None
  | (k', v) :: d' => if decide (k = k') then Some v else dict_get k d'
  end.

(** [k in d] *)
Definition dict_mem (k : pyobj) (d : dict V) : bool :=
  match dict_get k d with Some _ => true | None => false end.

(** [d[k] = v]: an existing key keeps its position. *)
Fixpoint dict_set (k : pyobj) (v : V) (d : dict V) : dict V :=
  match d with
  | [] => [(k, v)]
  | (k', v') :: d' =>
      if decide (k = k') then (k', v) :: d'
      else (k', v') :: dict_set k v d'
  end.

(** [d.update(items)], also [{**d, **items}] and a dict display *)
Definition dict_update (d : dict V) (items : list (pyobj * V)) : dict V :=
  foldl (λ acc kv, dict_set kv.1 kv.2 acc) d items.

(** [dict(items)] for a list of pairs *)
Definition dict_of_items (items : list (pyobj * V)) : dict V :=
  dict_update [] items.

Definition dict_keys (d : dict V) : list pyobj := d.*1.
End dict.

(** ** Files, as the [csv] module sees them *)

Record dialect : Type := Dialect {
  delimiter : ascii;
  quotechar : option ascii;
  skipinitialspace : bool
}.

Record csv_file : Type := CsvFile {
  (** [csv.Sniffer().sniff(f.read(1024))]; [None] when it raises [csv.Error] *)
  sniff : option dialect;
  (** the verdict of [csv.Sniffer().has_header(f.read(1024))] *)
  header_detected : bool;
  (** [list(csv.reader(f))] and [list(csv.reader(f, d))] *)
  rows : option dialect → list (list string)
}.

(** ** The object *)

(** [_field_names] holds a [str] (the default is ['header']) or a list. *)
Inductive field_names_t : Type :=
| NamesStr (s : string)
| NamesList (l : list pyobj).

Definition header : field_names_t := NamesStr "header".

(** [names == 'header'] *)
Definition is_header (names : field_names_t) : bool :=
  match names with
  | NamesStr s => String.eqb s "header"
  | NamesList _ => false
  end.

(** [bool(names)] *)
Definition names_truthy (names : field_names_t) : bool :=
  match names with
  | NamesStr s => negb (String.eqb s "")
  | NamesList l => negb (bool_decide (l = []))
  end.

Fixpoint chars (s : string) : list pyobj :=
  match s with
  | EmptyString => []
  | String c s' => PStr (String c EmptyString) :: chars s'
  end.

(** [iter(names)]: a [str] is iterated character by character. *)
Definition names_iter (names : field_names_t) : list pyobj :=
  match names with
  | NamesStr s => chars s
  | NamesList l => l
  end.

(** [len(names)] *)
Definition names_len (names : field_names_t) : nat :=
  length (names_iter names).

Record CSV_Gen : Type := Build_CSV_Gen {
  _value_transformers : dict pyval;
  _field_names : field_names_t;
  (** [None]: the attribute has not been assigned *)
  _file_path : option string;
  csv_dialect : option dialect;
  (** the empty list of [__init__] and the empty set are one value here *)
  _selected_fields : gset pyobj;
  _field_name_mappings : dict pyval;
  ignore_first_row : bool
}.

Definition with_value_transformers (d : dict pyval) (self : CSV_Gen) :=
  Build_CSV_Gen d (_field_names self) (_file_path self) (csv_dialect self)
    (_selected_fields self) (_field_name_mappings self) (ignore_first_row self).

Definition with_field_names (n : field_names_t) (self : CSV_Gen) :=
  Build_CSV_Gen (_value_transformers self) n (_file_path self)
    (csv_dialect self) (_selected_fields self) (_field_name_mappings self)
    (ignore_first_row self).

Definition with_file_path (p : string) (self : CSV_Gen) :=
  Build_CSV_Gen (_value_transformers self) (_field_names self) (Some p)
    (csv_dialect self) (_selected_fields self) (_field_name_mappings self)
    (ignore_first_row self).

Definition with_csv_dialect (d : dialect) (self : CSV_Gen) :=
  Build_CSV_Gen (_value_transformers self) (_field_names self)
    (_file_path self) (Some d) (_selected_fields self)
    (_field_name_mappings self) (ignore_first_row self).

Definition with_selected_fields (s : gset pyobj) (self : CSV_Gen) :=
  Build_CSV_Gen (_value_transformers self) (_field_names self)
    (_file_path self) (csv_dialect self) s (_field_name_mappings self)
    (ignore_first_row self).

Definition with_field_name_mappings (d : dict pyval) (self : CSV_Gen) :=
  Build_CSV_Gen (_value_transformers self) (_field_names self)
    (_file_path self) (csv_dialect self) (_selected_fields self) d
    (ignore_first_row self).

Definition with_ignore_first_row (b : bool) (self : CSV_Gen) :=
  Build_CSV_Gen (_value_transformers self) (_field_names self)
    (_file_path self) (csv_dialect self) (_selected_fields self)
    (_field_name_mappings self) b.

(** A method that may assign to [self] and may raise: the outcome and the
    object as the call leaves it. *)
Definition M (A : Type) : Type := CSV_Gen → res A * CSV_Gen.

Definition M_ret {A} (a : A) : M A := λ self, (Ok a, self).

Definition M_bind {A B} (m : M A) (k : A → M B) : M B :=
  λ self,
    match m self with
    | (Ok a, self') => k a self'
    | (Raise e, self') => (Raise e, self')
    end.

(** An expression that reads [self] and may raise *)
Definition M_read {A} (f : CSV_Gen → res A) : M A := λ self, (f self, self).

(** An assignment to an attribute of [self] *)
Definition M_assign (f : CSV_Gen → CSV_Gen) : M unit :=
  λ self, (Ok (), f self).

Definition M_raise {A} (e : exn) : M A := λ self, (Raise e, self).

Declare Scope M_scope.
Delimit Scope M_scope with M.
Notation "x <- m ;; k" := (M_bind m (λ x, k))
  (at level 100, m at next level, right associativity) : M_scope.
Notation "m ;; k" := (M_bind m (λ _, k))
  (at level 100, right associativity) : M_scope.

(** ** What the setters are handed

    The setters take any Python value.  The values considered are the
    shapes below; a tuple that holds a function object is considered as
    the second component of a pair only. *)

(** An element of a list or tuple *)
Inductive seq_item : Type :=
| ItemObj (o : pyobj)
| ItemTuple (xs : list pyobj)
| ItemPairFn (k : pyobj) (f : pyfun).

(** An argument of [field_renames] and of [value_transformers.add] *)
Inductive mapping_arg : Type :=
| MapDict (d : dict pyval)
| MapSeq (items : list seq_item)
| MapObj (o : pyobj)
| MapFun (f : pyfun).

(** An argument of [selected_fields] and of [transform_field_value] *)
Inductive fields_arg : Type :=
| FieldsList (xs : list pyobj)
| FieldsTuple (xs : list pyobj)
| FieldsSet (s : gset pyobj)
| FieldsObj (o : pyobj)
| FieldsDict (d : dict pyval)
| FieldsFun (f : pyfun).

(** [dict(x)] takes each element of a sequence as a key and a value: an
    element that is not iterable is a [TypeError], one that has not two
    components a [ValueError]. *)
Definition item_pair (x : seq_item) : res (pyobj * pyval) :=
  match x with
  | ItemObj (PStr s) =>
      match chars s with
      | [k; v] => Ok (k, Lit v)
      | _ => Raise (ValueError "dictionary update sequence element")
      end
  | ItemObj _ => Raise TypeError
  | ItemTuple [k; v] => Ok (k, Lit v)
  | ItemTuple _ => Raise (ValueError "dictionary update sequence element")
  | ItemPairFn k f => Ok (k, Fn f)
  end.

Definition py_dict (x : mapping_arg) : res (dict pyval) :=
  match x with
  | MapDict d => Ok d
  | MapSeq items =>
      (pairs <- res_map item_pair items ;; Ok (dict_of_items pairs))%res
  | MapObj (PStr s) =>
      (pairs <- res_map item_pair (ItemObj <$> chars s) ;;
       Ok (dict_of_items pairs))%res
  | MapObj _ => Raise TypeError
  | MapFun _ => Raise TypeError
  end.

(** [x.items()] *)
Definition py_items (x : mapping_arg) : res (list (pyobj * pyval)) :=
  match x with
  | MapDict d => Ok d
  | _ => Raise AttributeError
  end.

(** ** The methods of [CSV_Gen] *)

(** [next(it)] on a fresh iterator over [xs] *)
Definition next {A} (xs : list A) : res A :=
  match xs with
  | x :: _ => Ok x
  | [] => Raise StopIteration
  end.

(** [d.get(k)] as a Python value: [None] when the key is missing. *)
Definition py_get (k : pyobj) (d : dict pyval) : pyval :=
  default (Lit PNone) (dict_get k d).

(** [csv.Sniffer().has_header(sample)] sniffs the dialect of the sample
    before it looks at the rows. *)
Definition has_header (f : csv_file) : res bool :=
  match sniff f with
  | Some _ => Ok (header_detected f)
  | None => Raise csv_Error
  end.

(** A path with a NUL character in it *)
Fixpoint embedded_null (path : string) : bool :=
  match path with
  | EmptyString => false
  | String c rest => Ascii.eqb c "000" || embedded_null rest
  end.

Section methods.

(** The files on disk, by path; they do not change during a run.  The
    files considered are text files, which decode: reading one raises
    nothing. *)
Variable fs : string → option csv_file.

(** [open(path, 'r', newline='')]: a path with a NUL character is refused
    with a [ValueError] before the file system is asked; a path that names
    no file raises [FileNotFoundError], an [OSError]. *)
Definition py_open (path : string) : res csv_file :=
  if embedded_null path then Raise (ValueError "embedded null byte")
  else match fs path with
       | Some f => Ok f
       | None => Raise OSError
       end.

(** The getter of the [file_path] property *)
Definition file_path (self : CSV_Gen) : res string :=
  match _file_path self with
  | Some p => Ok p
  | None => Raise AttributeError
  end.

Definition open_file (self : CSV_Gen) : res csv_file :=
  (p <- file_path self ;; py_open p)%res.

Definition set_csv_dialect : M unit :=
  (d <- M_read (λ self,
         (f <- open_file self ;;
          match sniff f with
          | Some d => Ok d
          | None => Raise csv_Error
          end)%res) ;;
   M_assign (with_csv_dialect d))%M.

Definition get_field_names_from_csv : M unit :=
  (row <- M_read (λ self,
           (f <- open_file self ;; next (rows f None))%res) ;;
   M_assign (with_field_names (NamesList (PStr <$> row))))%M.

(** The setter of the [file_path] property *)
Definition set_file_path (path : string) : M unit :=
  (M_assign (with_file_path path) ;;
   set_csv_dialect ;;
   names <- M_read (λ self, Ok (_field_names self)) ;;
   if is_header names then get_field_names_from_csv else M_ret ())%M.

Definition __init__ (path : option string) (field_names : field_names_t)
  : res CSV_Gen :=
  let self := Build_CSV_Gen [] field_names None None ∅ [] false in
  let path_given :=
    match path with
    | Some p => negb (String.eqb p "")
    | None => false
    end in
  match (if path_given then set_file_path (default "" path) else M_ret ())
          self with
  | (Raise e, _) => Raise e
  | (Ok _, self) =>
      Ok (with_ignore_first_row (is_header field_names)
            (with_field_name_mappings []
               (with_selected_fields ∅ self)))
  end.

(** The getter of the [field_names] property *)
Definition field_names : M field_names_t :=
  (names <- M_read (λ self, Ok (_field_names self)) ;;
   (if is_header names then
      p <- M_read file_path ;;
      if negb (String.eqb p "") then get_field_names_from_csv
      else M_raise (CSV_Error "No file path to a CSV file provided.")
    else M_ret ()) ;;
   M_read (λ self, Ok (_field_names self)))%M.

(** The setter of the [field_names] property *)
Definition set_field_names (names : field_names_t) : M unit :=
  M_assign (with_field_names names).

(** The setter of the [field_renames] property: only a [ValueError] of
    [dict] is caught. *)
Definition set_field_renames (fnmap : mapping_arg) : M unit :=
  (d <- M_read (λ _,
         match py_dict fnmap with
         | Raise (ValueError _) =>
             Raise (ValueError "Provide mapping as dict or list of tuples.")
         | r => r
         end) ;;
   M_assign (with_field_name_mappings d))%M.

(** The setter of the [selected_fields] property *)
Definition set_selected_fields (fields : fields_arg) : M unit :=
  match fields with
  | FieldsList xs | FieldsTuple xs =>
      M_assign (with_selected_fields (list_to_set xs))
  | FieldsSet s => M_assign (with_selected_fields s)
  | _ => M_raise (ValueError "Selected fields must be an iterable.")
  end.

(** [self.value_transformers.add(value)]: every exception is caught. *)
Definition value_transformers_add (value : mapping_arg) : M unit :=
  match py_items value with
  | Ok items =>
      M_assign (λ self,
        with_value_transformers
          (dict_update (_value_transformers self) items) self)
  | Raise _ =>
      M_raise (ValueError
        "Value transformers must be in form of dict or list of tuples")
  end.

Definition check_file_path_and_field_names_compatible (self : CSV_Gen)
  : res unit :=
  (if is_header (_field_names self) then
     f <- open_file self ;;
     h <- has_header f ;;
     if negb h
     then Raise (KeyError
                   "Header missing from CSV file and fields not provided.")
     else Ok ()
   else if names_truthy (_field_names self) then
     f <- open_file self ;;
     row <- next (rows f None) ;;
     if bool_decide (names_len (_field_names self) ≠ length row)
     then Raise (KeyError
                   "Fields provided do not match the CSV file columns.")
     else Ok ()
   else Ok ())%res.

(** The local [fnmap] of [_change_field_name]: the mapping, updated with
    the same values under the snake-cased keys. *)
Definition fnmap_of (mappings : dict pyval) : res (dict pyval) :=
  (snaked <- res_map (λ kv, k <- _to_snakecase kv.1 ;; Ok (k, kv.2))
               mappings ;;
   Ok (dict_update mappings (dict_of_items snaked)))%res.

(** [_change_field_name] up to the wildcard: the name after the lookup in
    [fnmap]. *)
Definition rename_by_entry (self : CSV_Gen) (field_name : pyobj)
  : res pyobj :=
  (fnmap <- fnmap_of (_field_name_mappings self) ;;
   found <- (if dict_mem field_name fnmap then Ok true
             else s <- _to_snakecase field_name ;; Ok (dict_mem s fnmap)) ;;
   if (found : bool) then
     field_rename <- py_or (py_get field_name fnmap)
                       (s <- _to_snakecase field_name ;;
                        Ok (py_get s fnmap)) ;;
     match field_rename with
     | Fn f => f field_name
     | Lit o => Ok o
     end
   else Ok field_name)%res.

Definition _change_field_name (self : CSV_Gen) (field_name : pyobj)
  : res pyobj :=
  (field_name <- rename_by_entry self field_name ;;
   match py_get (PStr "^ALL") (_field_name_mappings self) with
   | Fn map_all => map_all field_name
   | Lit _ => Ok field_name
   end)%res.

(** One step of the comprehension of [to_dict]: the filter, then the key
    and its value. *)
Definition to_dict_item (self : CSV_Gen) (kv : pyobj * pyobj)
  : res (option (pyobj * pyobj)) :=
  let all_fields := bool_decide (_selected_fields self = ∅) in
  let '(k, v) := kv in
  (keep <- (if all_fields then Ok true
            else if bool_decide (k ∈ _selected_fields self) then Ok true
            else s <- _to_snakecase k ;;
                 Ok (bool_decide (s ∈ _selected_fields self))) ;;
   if (keep : bool) then
     t <- py_or (py_get k (_value_transformers self))
            (s <- _to_snakecase k ;;
             py_or (py_get s (_value_transformers self))
               (Ok (Fn (λ x, Ok x)))) ;;
     y <- call t v ;;
     Ok (Some (k, y))
   else Ok None)%res.

Definition to_dict (self : CSV_Gen) (values : list pyobj)
  : res (dict pyobj) :=
  (items <- res_map (to_dict_item self)
              (zip (names_iter (_field_names self)) values) ;;
   Ok (dict_of_items (omap id items)))%res.

Definition apply_final_config : M unit :=
  (M_read check_file_path_and_field_names_compatible ;;
   selected <- M_read (λ self,
     (renamed <- res_map (_change_field_name self)
                   (elements (_selected_fields self)) ;;
      Ok (_selected_fields self ∪ list_to_set renamed))%res) ;;
   M_assign (with_selected_fields selected) ;;
   transformers <- M_read (λ self,
     (renamed <- res_map (λ kv, k <- _change_field_name self kv.1 ;;
                                Ok (k, kv.2))
                   (_value_transformers self) ;;
      Ok (dict_update (_value_transformers self)
            (dict_of_items renamed)))%res) ;;
   M_assign (with_value_transformers transformers) ;;
   names <- M_read (λ self,
     res_map (_change_field_name self) (names_iter (_field_names self))) ;;
   M_assign (with_field_names (NamesList names)))%M.

(** *** Streaming

    A generator is described by what a consumer sees when it pulls until
    the end: the records yielded, and the exception that ended the
    iteration, if one did. *)

Definition record : Type := dict pyobj.

Definition trace : Type := list record * option exn.

(** An exception leaving a generator frame: since Python 3.7 a
    [StopIteration] raised in the body surfaces as [RuntimeError]. *)
Definition leave_generator (e : exn) : exn :=
  match e with
  | StopIteration => RuntimeError
  | _ => e
  end.

(** [for row in csv_reader: yield self.to_dict(row)] *)
Fixpoint yield_rows (self : CSV_Gen) (csv_reader : list (list string))
  : trace :=
  match csv_reader with
  | [] => ([], None)
  | row :: rest =>
      match to_dict self (PStr <$> row) with
      | Ok d => let '(ds, e) := yield_rows self rest in (d :: ds, e)
      | Raise e => ([], Some (leave_generator e))
      end
  end.

(** The rows left in [csv_reader] when the loop of [_stream] starts. *)
Definition data_rows (self : CSV_Gen) : res (list (list string)) :=
  (f <- open_file self ;;
   d <- match csv_dialect self with
        | Some d => Ok d
        | None => Raise AttributeError
        end ;;
   let csv_reader := rows f (Some d) in
   if ignore_first_row self
   then _ <- next csv_reader ;; Ok (tail csv_reader)
   else Ok csv_reader)%res.

Definition _stream (self : CSV_Gen) : trace * CSV_Gen :=
  match apply_final_config self with
  | (Raise e, self) => (([], Some (leave_generator e)), self)
  | (Ok _, self) =>
      match data_rows self with
      | Raise e => (([], Some (leave_generator e)), self)
      | Ok rest => (yield_rows self rest, self)
      end
  end.

(** [sys.maxsize], of a 64-bit CPython *)
Definition sys_maxsize : N := 9223372036854775807.

(** The exception of [itertools.islice] for a stop that it refuses *)
Definition islice_error : exn :=
  ValueError
    "Stop argument for islice() must be None or an integer: 0 <= x <= sys.maxsize.".

(** [itertools.islice(gen, n)], where [t] is what [gen] would yield.  A
    stop above [sys.maxsize] is refused when the slice is built, whatever
    [gen] is.  Otherwise, after [n] items the generator is not resumed, so
    what it would raise later is never seen. *)
Definition islice (t : trace) (n : nat) : res trace :=
  if (N.of_nat n <=? sys_maxsize)%N
  then Ok (if decide (n ≤ length t.1)%nat then (take n t.1, None) else t)
  else Raise islice_error.

(** [stream(n)].  The call [self._stream()] builds the generator and runs
    nothing of its body: when [islice] refuses [n], the object is as it
    was. *)
Definition stream (n : nat) (self : CSV_Gen) : trace * CSV_Gen :=
  match n with
  | O => _stream self
  | _ =>
      let '(t, self') := _stream self in
      match islice t n with
      | Ok t' => (t', self')
      | Raise e => (([], Some e), self)
      end
  end.

(** The loop of [real_decorator] over a list or tuple of fields: the
    fields before one that is not a [str] stay registered. *)
Fixpoint register_each (fields : list pyobj) (function : pyfun) : M unit :=
  match fields with
  | [] => M_ret ()
  | field :: rest =>
      match field with
      | PStr _ =>
          (M_assign (λ self,
             with_value_transformers
               (dict_set field (Fn function) (_value_transformers self))
               self) ;;
           register_each rest function)%M
      | _ =>
          M_raise (ValueError
            "Must provide a string or list of strings as fields to transform.")
      end
  end.

(** The inner [wrapper]: it calls [function] and returns nothing. *)
Definition wrapper (function : pyfun) : pyfun :=
  λ x, (_ <- function x ;; Ok PNone)%res.

(** [self.transform_field_value(field_to_transform)(function)] *)
Definition transform_field_value (field_to_transform : fields_arg)
    (function : pyfun) : M pyfun :=
  ((match field_to_transform with
    | FieldsList xs | FieldsTuple xs => register_each xs function
    | FieldsObj (PStr s) =>
        M_assign (λ self,
          with_value_transformers
            (dict_set (PStr s) (Fn function) (_value_transformers self))
            self)
    | _ =>
        M_raise (ValueError
          "Must provide a string or list of strings as fields to transform.")
    end) ;;
   M_ret (wrapper function))%M.

(** [__len__] drains [_stream]. *)
Definition __len__ (self : CSV_Gen) : res nat * CSV_Gen :=
  let '(t, self) := _stream self in
  (match t.2 with
   | Some e => Raise e
   | None => Ok (length t.1)
   end, self).

End methods.

(** ** [OCLC_Request.py]: the transformer of the [isbn] field *)

(** [s.startswith(p)] *)
Fixpoint starts_with (p s : string) : bool :=
  match p, s with
  | EmptyString, _ => true
  | String a p', String b s' => Ascii.eqb a b && starts_with p' s'
  | String _ _, EmptyString => false
  end.

(** [sub in s] *)
Fixpoint str_in (sub s : string) : bool :=
  starts_with sub s
  || match s with
     | EmptyString => false
     | String _ s' => str_in sub s'
     end.

(** [s.split(sep)] for a separator that is not empty.  The result of
    [split] has at least one piece: it is given as the first piece and the
    pieces that follow.  [skip] counts the characters of a separator that
    are still to be passed over. *)
Fixpoint py_split (sep : string) (skip : nat) (s : string)
  : string * list string :=
  match s with
  | EmptyString => (EmptyString, [])
  | String c s' =>
      match skip with
      | S k => py_split sep k s'
      | O =>
          if starts_with sep s
          then (EmptyString,
                let '(p, ps) := py_split sep (String.length sep - 1) s' in
                p :: ps)
          else let '(p, ps) := py_split sep 0 s' in (String c p, ps)
      end
  end.

Definition str_split (sep s : string) : string * list string :=
  py_split sep 0 s.

(** [split_isbn]: [isbn.split(' ; ')[0]]; only a [str] has [split]. *)
Definition split_isbn : pyfun :=
  λ isbn,
    match isbn with
    | PStr s => Ok (PStr (str_split " ; " s).1)
    | _ => Raise AttributeError
    end.

(** ** Notions used to state the properties *)

Definition is_str (o : pyobj) : bool :=
  match o with
  | PStr _ => true
  | _ => false
  end.

(** Every key of the dictionary is a [str]. *)
Definition str_keys {V} (d : dict V) : Prop :=
  Forall (λ k, is_str k) (dict_keys d).

(** The snake-cased form of a key; only a [str] has one. *)
Definition snake_obj (k : pyobj) : pyobj :=
  match k with
  | PStr s => PStr (snakecase s)
  | _ => k
  end.

(** The rename mapping with every key in its snake-cased form, in the
    order of the mapping. *)
Definition snaked (m : dict pyval) : dict pyval :=
  prod_map snake_obj id <$> m.

(** The entry of the first key that has the snake-cased form of [s]. *)
Definition entry_for (s : string) (m : dict pyval) : option pyval :=
  dict_get (PStr (snakecase s)) (snaked m).

(** The wildcard step: the function under ['^ALL'], if there is one. *)
Definition apply_wildcard (m : dict pyval) (name : pyobj) : res pyobj :=
  match py_get (PStr "^ALL") m with
  | Fn map_all => map_all name
  | Lit _ => Ok name
  end.

(** [resolveFieldName] as the specification words it: the name, then its
    snake-cased form, looked up in the rename mapping itself. *)
Definition resolveFieldName_spec (m : dict pyval) (name : pyobj)
  : res pyobj :=
  (entry <- match dict_get name m with
            | Some v => Ok (Some v)
            | None => s <- _to_snakecase name ;; Ok (dict_get s m)
            end ;;
   name <- match entry with
           | Some (Fn f) => f name
           | Some (Lit o) => Ok o
           | None => Ok name
           end ;;
   apply_wildcard m name)%res.

(** A field is kept when nothing is selected, or when it or its
    snake-cased form is selected. *)
Definition included (self : CSV_Gen) (k : pyobj) : bool :=
  bool_decide (_selected_fields self = ∅)
  || bool_decide (k ∈ _selected_fields self)
  || bool_decide (snake_obj k ∈ _selected_fields self).

(** The transformer registered under the field name or, failing that,
    under its snake-cased form. *)
Definition registered (self : CSV_Gen) (k : pyobj) : option pyval :=
  match dict_get k (_value_transformers self) with
  | Some t => Some t
  | None => dict_get (snake_obj k) (_value_transformers self)
  end.

(** The value of a field in the record: transformed when a transformer is
    registered, unchanged otherwise. *)
Definition transformed (self : CSV_Gen) (k v : pyobj) : res pyobj :=
  match registered self k with
  | Some t => call t v
  | None => Ok v
  end.

(** Every value of the dictionary is a function object. *)
Definition callable_values (d : dict pyval) : Prop :=
  Forall (λ kv, callable kv.2) d.

(** The value paired with the last column named [k], among the columns
    that [zip] pairs with a value. *)
Definition paired_value (self : CSV_Gen) (values : list pyobj) (k : pyobj)
  : option pyobj :=
  dict_get k (reverse (zip (names_iter (_field_names self)) values)).

(** The dialect of a comma-separated file with double quotes *)
Definition comma : dialect := Dialect "," (Some (ascii_of_nat 34)) false.

(** An object in the state that follows [CSV_Gen('books.csv', names)] and
    the setters, for the examples. *)
Definition configured (names : list pyobj) (renames : dict pyval)
    (selected : gset pyobj) (transformers : dict pyval) : CSV_Gen :=
  Build_CSV_Gen transformers (NamesList names) (Some "books.csv")
    (Some comma) selected renames false.

(** The two ways to an object that reads [path]: [CSV_Gen(path, names)],
    and [CSV_Gen(field_names=names)] followed by [gen.file_path = path]. *)
Definition constructed (fs : string → option csv_file) (path : string)
    (names : field_names_t) (self : CSV_Gen) : Prop :=
  __init__ fs (Some path) names = Ok self
  ∨ ∃ s, __init__ fs None names = Ok s
         ∧ set_file_path fs path s = (Ok (), self).

(** The object after the setters have stored a rename mapping, a
    selection and transformers. *)
Definition with_config (renames : dict pyval) (selected : gset pyobj)
    (transformers : dict pyval) (self : CSV_Gen) : CSV_Gen :=
  with_value_transformers transformers
    (with_selected_fields selected
       (with_field_name_mappings renames self)).

(** The row converts to the record. *)
Definition converts (self : CSV_Gen) (row : list string) (d : record)
  : Prop :=
  to_dict self (PStr <$> row) = Ok d.

(** A file with a header row and two data rows, and the disk that holds
    it, for the examples. *)
Definition books : csv_file :=
  CsvFile (Some comma) true
    (λ _, [["Title"; "Author"]; ["Emma"; "Austen"]; ["Ulysses"; "Joyce"]]).

(** A file without a header row: no header is detected. *)
Definition numbers : csv_file :=
  CsvFile (Some comma) false (λ _, [["1"; "2"]; ["3"; "4"]]).

Definition disk (path : string) : option csv_file :=
  if String.eqb path "books.csv" then Some books
  else if String.eqb path "numbers.csv" then Some numbers
  else None.

(** [CSV_Gen('books.csv')] *)
Definition books_gen : CSV_Gen :=
  Build_CSV_Gen [] (NamesList [PStr "Title"; PStr "Author"])
    (Some "books.csv") (Some comma) ∅ [] true.

(** The fields that an argument of [transform_field_value] names *)
Definition named_fields (arg : fields_arg) : option (list pyobj) :=
  match arg with
  | FieldsList xs | FieldsTuple xs => Some xs
  | FieldsObj (PStr s) => Some [PStr s]
  | _ => None
  end.

(** The transformers after [function] is stored under each field *)
Definition register_all (fields : list pyobj) (function : pyfun)
    (d : dict pyval) : dict pyval :=
  foldl (λ acc k, dict_set k (Fn function) acc) d fields.

(** The two exceptions of the compatibility check *)
Definition header_missing : exn :=
  KeyError "Header missing from CSV file and fields not provided.".

Definition fields_mismatch : exn :=
  KeyError "Fields provided do not match the CSV file columns.".

(** The values of [d] as the items overwrite them: each key of [d] with
    the value of its last binding in [items], if it has one. *)
Definition refreshed {V} (items d : dict V) : dict V :=
  (λ kv, (kv.1, default kv.2 (dict_get kv.1 (reverse items)))) <$> d.

(** [[(c(k), v) for k, v in d.items()]] *)
Definition rekeyed {V} (c : pyobj → pyobj) (d : dict V) : dict V :=
  (λ kv, (c kv.1, kv.2)) <$> d.

(** [{**d, **{c(k): v for k, v in d.items()}}] *)
Definition merged {V} (c : pyobj → pyobj) (d : dict V) : dict V :=
  dict_update d (dict_of_items (rekeyed c d)).

(** The resolved form of a name, where [_change_field_name] returns. *)
Definition resolved (self : CSV_Gen) (x : pyobj) : pyobj :=
  match _change_field_name self x with
  | Ok y => y
  | Raise _ => x
  end.

(** The names that [apply_final_config] resolves: the field names, the
    selected fields and the keys of the transformers. *)
Definition configured_names (self : CSV_Gen) : list pyobj :=
  names_iter (_field_names self)
  ++ elements (_selected_fields self)
  ++ dict_keys (_value_transformers self).

(** [CSV_Gen.snakecase] as a function object *)
Definition snakecase_fn : pyfun := _to_snakecase.

(** A character that [snakecase] leaves as it is: not a space and not a
    capital letter. *)
Definition snake_char_ok (c : ascii) : Prop :=
  c ≠ " "%char ∧ lower_ascii c = c.

(** [b] differs from [a] at most in the path, the dialect and the field
    names: what assigning [file_path] and reading [field_names] can
    touch. *)
Definition same_settings (a b : CSV_Gen) : Prop :=
  _value_transformers b = _value_transformers a
  ∧ _selected_fields b = _selected_fields a
  ∧ _field_name_mappings b = _field_name_mappings a
  ∧ ignore_first_row b = ignore_first_row a.

(** The object that [CSV_Gen(field_names=names)] builds. *)
Definition blank (names : field_names_t) : CSV_Gen :=
  Build_CSV_Gen [] names None None ∅ [] (is_header names).

(** The number just above [sys.maxsize] *)
Definition above_maxsize : nat := N.to_nat 9223372036854775808.

(** The exception of the decorator *)
Definition decorator_error : exn :=
  ValueError
    "Must provide a string or list of strings as fields to transform.".

(** All the pieces of a split, in order *)
Definition pieces (r : string * list string) : list string := r.1 :: r.2.

(** [sep.join(xs)] *)
Fixpoint str_join (sep : string) (xs : list string) : string :=
  match xs with
  | [] => EmptyString
  | [x] => x
  | x :: xs' => x +:+ sep +:+ str_join sep xs'
  end.

(** The configuration under which [OCLC_Request.py] streams: every name
    goes through [snakecase], nothing is selected, and the transformers
    are function objects stored under snake-cased names, [split_isbn]
    under ['isbn']. *)
Definition oclc_config (self : CSV_Gen) : Prop :=
  _field_name_mappings self = [(PStr "^ALL", Fn snakecase_fn)]
  ∧ _selected_fields self = ∅
  ∧ Forall (λ k, is_str k) (names_iter (_field_names self))
  ∧ Forall (λ k, is_str k ∧ snake_obj k = k)
      (dict_keys (_value_transformers self))
  ∧ NoDup (dict_keys (_value_transformers self))
  ∧ callable_values (_value_transformers self)
  ∧ dict_get (PStr "isbn") (_value_transformers self) = Some (Fn split_isbn).

(** A transformer that raises on one value, for the examples. *)
Definition reject (bad : string) : pyfun :=
  λ x, if decide (x = PStr bad) then Raise (ValueError "rejected") else Ok x.

(** A file with an [ISBN] column, and the disk that holds it under the
    name that [OCLC_Request.py] reads. *)
Definition bnb : csv_file :=
  CsvFile (Some comma) true
    (λ _, [["ISBN"; "Title"];
           ["0140430725 ; 0141439580"; "Emma"];
           ["0141182806"; "Ulysses"]]).

Definition bnb_disk (path : string) : option csv_file :=
  if String.eqb path "bnb_records_to_1961.csv" then Some bnb else None.

(** [csv_gen] as [OCLC_Request.py] configures it, the transformer of
    [all_names] left out: [CSV_Gen()], the decorator for ['isbn'], the
    assignment of the path and of the renames. *)
Definition csv_gen : res CSV_Gen :=
  (self <- __init__ bnb_disk None header ;;
   self <- match transform_field_value (FieldsObj (PStr "isbn")) split_isbn
                   self with
           | (Ok _, self) => Ok self
           | (Raise e, _) => Raise e
           end ;;
   self <- match set_file_path bnb_disk "bnb_records_to_1961.csv" self with
           | (Ok _, self) => Ok self
           | (Raise e, _) => Raise e
           end ;;
   match set_field_renames (MapSeq [ItemPairFn (PStr "^ALL") snakecase_fn])
           self with
   | (Ok _, self) => Ok self
   | (Raise e, _) => Raise e
   end)%res.

(** * Properties *)

(** A decidable fact about concrete data, by evaluation. *)
Ltac by_evaluation := apply (bool_decide_unpack _); vm_compute; exact I.

(** ** Snake-casing *)

Lemma snake_char_idem (c : ascii) :
  let snake c := (if Ascii.eqb (lower_ascii c) " " then "_"
                  else lower_ascii c)%char in
  snake (snake c) = snake c.
Proof. destruct c as [[] [] [] [] [] [] [] []]; reflexivity. Qed.

Lemma snakecase_idem (s : string) : snakecase (snakecase s) = snakecase s.
Proof.
  unfold snakecase. induction s as [|c s IH]; simpl; [done|].
  rewrite IH. f_equal. apply snake_char_idem.
Qed.

Lemma to_snakecase_str (k : pyobj) :
  is_str k → _to_snakecase k = Ok (snake_obj k).
Proof. by destruct k. Qed.

(** ** Dictionaries *)

Section dict_facts.
Context {V : Type}.
Implicit Types (d items : dict V) (k : pyobj) (v : V).

Lemma dict_get_set k k' v d :
  dict_get k (dict_set k' v d)
  = if decide (k = k') then Some v else dict_get k d.
Proof.
  induction d as [|[k0 v0] d IH]; simpl.
  - repeat case_decide; congruence.
  - repeat (case_decide; simpl); congruence.
Qed.

Lemma dict_keys_set k v d :
  dict_keys (dict_set k v d)
  = if dict_mem k d then dict_keys d else dict_keys d ++ [k].
Proof.
  unfold dict_mem, dict_keys.
  induction d as [|[k0 v0] d IH]; csimpl; [done|].
  case_decide; csimpl; [done|].
  rewrite IH. by destruct (dict_get k d).
Qed.

Lemma dict_get_Some_elem k v d : dict_get k d = Some v → (k, v) ∈ d.
Proof.
  induction d as [|[k0 v0] d IH]; simpl; [done|].
  case_decide; intros Hget.
  - simplify_eq. left.
  - right. auto.
Qed.

Lemma dict_get_None k d : dict_get k d = None ↔ k ∉ dict_keys d.
Proof.
  unfold dict_keys. induction d as [|[k0 v0] d IH]; simpl.
  - split; [intros _; apply not_elem_of_nil|done].
  - rewrite not_elem_of_cons. case_decide; [|tauto].
    split; [done|tauto].
Qed.

Lemma dict_mem_keys k d : dict_mem k d ↔ k ∈ dict_keys d.
Proof.
  unfold dict_mem. destruct (dict_get k d) eqn:E.
  - split; [intros _|done]. destruct (decide (k ∈ dict_keys d)); [done|].
    apply dict_get_None in n. congruence.
  - split; [done|]. by apply dict_get_None in E.
Qed.

Lemma dict_get_NoDup k v d :
  NoDup (dict_keys d) → (k, v) ∈ d → dict_get k d = Some v.
Proof.
  unfold dict_keys. induction d as [|[k0 v0] d IH]; simpl.
  - intros _ H. by apply elem_of_nil in H.
  - intros [Hk0 Hd]%NoDup_cons [H|H]%elem_of_cons.
    + simplify_eq. by rewrite decide_True.
    + rewrite decide_False; [auto|].
      intros ->. apply Hk0. apply list_elem_of_fmap. by exists (k0, v).
Qed.

Lemma dict_get_reverse k d :
  NoDup (dict_keys d) → dict_get k (reverse d) = dict_get k d.
Proof.
  intros Hd. destruct (dict_get k d) as [v|] eqn:E.
  - apply dict_get_NoDup.
    + unfold dict_keys. by rewrite fmap_reverse, reverse_Permutation.
    + apply elem_of_reverse. by apply dict_get_Some_elem.
  - apply dict_get_None. apply dict_get_None in E.
    unfold dict_keys in *. rewrite fmap_reverse. by rewrite elem_of_reverse.
Qed.

Lemma dict_keys_NoDup_set k v d :
  NoDup (dict_keys d) → NoDup (dict_keys (dict_set k v d)).
Proof.
  intros Hd. rewrite dict_keys_set.
  destruct (dict_mem k d) eqn:E; [done|].
  apply NoDup_app. split_and!; [done| |apply NoDup_singleton].
  intros x Hx ->%list_elem_of_singleton.
  apply dict_mem_keys in Hx. by rewrite E in Hx.
Qed.

Lemma dict_keys_NoDup_update d items :
  NoDup (dict_keys d) → NoDup (dict_keys (dict_update d items)).
Proof.
  unfold dict_update. revert d.
  induction items as [|[k v] items IH]; simpl; intros d Hd; [done|].
  apply IH. by apply dict_keys_NoDup_set.
Qed.

Lemma dict_keys_NoDup_of_items items :
  NoDup (dict_keys (dict_of_items items)).
Proof. apply dict_keys_NoDup_update. constructor. Qed.

(** The last binding of a key in the items wins over the dictionary. *)
Lemma dict_get_update k d items :
  dict_get k (dict_update d items)
  = match dict_get k (reverse items) with
    | Some v => Some v
    | None => dict_get k d
    end.
Proof.
  unfold dict_update. revert d.
  induction items as [|[k0 v0] items IH] using rev_ind; intros d; [done|].
  rewrite foldl_snoc, reverse_snoc. simpl.
  rewrite dict_get_set. case_decide; [done|]. apply IH.
Qed.

Lemma dict_get_of_items k items :
  dict_get k (dict_of_items items) = dict_get k (reverse items).
Proof.
  unfold dict_of_items. rewrite dict_get_update.
  by destruct (dict_get k (reverse items)).
Qed.

(** [{**d, **{k: v for (k, v) in items}}] *)
Lemma dict_get_update_of_items k d items :
  dict_get k (dict_update d (dict_of_items items))
  = match dict_get k (reverse items) with
    | Some v => Some v
    | None => dict_get k d
    end.
Proof.
  rewrite dict_get_update, dict_get_reverse, dict_get_of_items;
    [done|apply dict_keys_NoDup_of_items].
Qed.

End dict_facts.

(** ** Resolving a field name *)

Lemma res_map_Ok_fmap {A B} (f : A → res B) (g : A → B) (xs : list A) :
  Forall (λ x, f x = Ok (g x)) xs → res_map f xs = Ok (g <$> xs).
Proof.
  induction 1 as [|x xs Hx _ IH]; simpl; [done|].
  by rewrite Hx, IH.
Qed.

Lemma str_keys_elem {V} (d : dict V) (k : pyobj) (v : V) :
  str_keys d → (k, v) ∈ d → is_str k.
Proof.
  intros Hkeys Hin. eapply Forall_forall in Hkeys; [exact Hkeys|].
  apply list_elem_of_fmap. by exists (k, v).
Qed.

(** On a mapping with [str] keys the local [fnmap] is built without an
    exception. *)
Lemma fnmap_of_str_keys (m : dict pyval) :
  str_keys m →
  fnmap_of m = Ok (dict_update m (dict_of_items (snaked m))).
Proof.
  intros Hm. unfold fnmap_of.
  rewrite (res_map_Ok_fmap _ (prod_map snake_obj id)); [done|].
  unfold str_keys, dict_keys in Hm. rewrite Forall_fmap in Hm.
  eapply Forall_impl; [exact Hm|].
  intros [k v] Hk; simpl in *. by rewrite to_snakecase_str.
Qed.

(** A lookup in [fnmap]: the last key of the mapping with that snake-cased
    form, and only then the key itself. *)
Lemma fnmap_get (m : dict pyval) (x : pyobj) :
  dict_get x (dict_update m (dict_of_items (snaked m)))
  = match dict_get x (reverse (snaked m)) with
    | Some v => Some v
    | None => dict_get x m
    end.
Proof. apply dict_get_update_of_items. Qed.

Lemma snaked_elem (m : dict pyval) (k : pyobj) (v : pyval) :
  (k, v) ∈ m → (snake_obj k, v) ∈ snaked m.
Proof. intros Hin. apply list_elem_of_fmap. by exists (k, v). Qed.

Lemma snaked_get_Some (m : dict pyval) (x : pyobj) (v : pyval) :
  dict_get x (reverse (snaked m)) = Some v →
  ∃ k, (k, v) ∈ m ∧ snake_obj k = x.
Proof.
  intros H%dict_get_Some_elem. rewrite elem_of_reverse in H.
  apply list_elem_of_fmap in H as ([k v'] & [= -> ->] & Hin).
  by exists k.
Qed.

Lemma snaked_get_is_Some (m : dict pyval) (k : pyobj) (v : pyval) :
  (k, v) ∈ m → is_Some (dict_get (snake_obj k) (reverse (snaked m))).
Proof.
  intros Hin%snaked_elem.
  destruct (dict_get (snake_obj k) (reverse (snaked m))) eqn:E; [done|].
  apply dict_get_None in E. exfalso. apply E.
  unfold dict_keys. rewrite fmap_reverse, elem_of_reverse.
  apply list_elem_of_fmap. by exists (snake_obj k, v).
Qed.

Lemma fnmap_get_snake (m : dict pyval) (s : string) :
  str_keys m → NoDup (dict_keys (snaked m)) →
  dict_get (PStr (snakecase s)) (dict_update m (dict_of_items (snaked m)))
  = entry_for s m.
Proof.
  intros Hkeys Hnd. rewrite fnmap_get, dict_get_reverse by done.
  unfold entry_for.
  destruct (dict_get (PStr (snakecase s)) (snaked m)) eqn:E; [done|].
  destruct (dict_get (PStr (snakecase s)) m) as [v|] eqn:E'; [|done].
  apply dict_get_Some_elem, snaked_elem in E'. simpl in E'.
  rewrite snakecase_idem in E'.
  by rewrite (dict_get_NoDup _ _ _ Hnd E') in E.
Qed.

Lemma fnmap_get_raw (m : dict pyval) (s : string) :
  str_keys m → NoDup (dict_keys (snaked m)) →
  dict_get (PStr s) (dict_update m (dict_of_items (snaked m))) = None
  ∨ dict_get (PStr s) (dict_update m (dict_of_items (snaked m)))
    = entry_for s m.
Proof.
  intros Hkeys Hnd. rewrite fnmap_get, dict_get_reverse by done.
  unfold entry_for.
  destruct (dict_get (PStr s) (snaked m)) as [v|] eqn:E.
  - right.
    pose proof E as (k & Hin & Hk)%dict_get_Some_elem%list_elem_of_fmap.
    destruct k as [k v']. simpl in Hin. injection Hin as Hin ->.
    pose proof (str_keys_elem _ _ _ Hkeys Hk) as Hstr.
    destruct k as [| |k]; try done. simpl in Hin. injection Hin as ->.
    by rewrite snakecase_idem.
  - destruct (dict_get (PStr s) m) as [v|] eqn:E'; [|by left].
    right. apply dict_get_Some_elem, snaked_elem in E'.
    symmetry. by apply dict_get_NoDup.
Qed.

(** C2, as amended.  For a rename mapping whose keys are [str] and have
    pairwise distinct snake-cased forms, [_change_field_name] finds the
    entry of a name by the snake-cased form: the entry of the one key whose
    snake-cased form is that of the name.  A function entry is called with
    the original name, a literal entry replaces the name, and the function
    under ['^ALL'], if any, is applied to the result; a name whose
    snake-cased form is that of no key is changed by the wildcard only.
    The result is a function of the name and the mapping alone. *)
Theorem change_field_name_by_snake_form (self : CSV_Gen) (s : string) :
  str_keys (_field_name_mappings self) →
  NoDup (dict_keys (snaked (_field_name_mappings self))) →
  _change_field_name self (PStr s)
  = (name <- match entry_for s (_field_name_mappings self) with
             | Some (Fn f) => f (PStr s)
             | Some (Lit o) => Ok o
             | None => Ok (PStr s)
             end ;;
     apply_wildcard (_field_name_mappings self) name)%res.
Proof.
  intros Hkeys Hnd. unfold _change_field_name. f_equal.
  unfold rename_by_entry. rewrite fnmap_of_str_keys by done. simpl.
  unfold dict_mem, py_get, py_or.
  rewrite fnmap_get_snake by done.
  destruct (fnmap_get_raw _ s Hkeys Hnd) as [-> | ->];
    destruct (entry_for s _) as [[o|f]|]; simpl; try done.
  by destruct (truthy_obj o).
Qed.

(** The mapping [{'Title': 'name', '^ALL': snakecase}] sends the column
    ['TITLE'] to ['name']. *)
Lemma change_field_name_by_snake_form_witness :
  let self := configured []
                [(PStr "Title", Lit (PStr "Name"));
                 (PStr "^ALL", Fn snakecase_fn)] ∅ [] in
  str_keys (_field_name_mappings self)
  ∧ NoDup (dict_keys (snaked (_field_name_mappings self)))
  ∧ _change_field_name self (PStr "TITLE") = Ok (PStr "name").
Proof.
  intros self.
  assert (str_keys (_field_name_mappings self)) as Hkeys.
  { repeat constructor. }
  assert (NoDup (dict_keys (snaked (_field_name_mappings self)))) as Hnd.
  { by_evaluation. }
  split_and!; [done..|].
  exact (change_field_name_by_snake_form self "TITLE" Hkeys Hnd).
Defined.

(** C2, as stated, fails: with the mapping [{'Book Title': 'X'}] neither
    ['BOOK TITLE'] nor its snake-cased form is a key and there is no
    wildcard, so a lookup in the rename mapping itself leaves the name as
    it is, but the code renames it. *)
Lemma change_field_name_differs_from_worded_lookup :
  let m := [(PStr "Book Title", Lit (PStr "X"))] in
  dict_get (PStr "BOOK TITLE") m = None
  ∧ dict_get (PStr (snakecase "BOOK TITLE")) m = None
  ∧ resolveFieldName_spec m (PStr "BOOK TITLE") = Ok (PStr "BOOK TITLE")
  ∧ _change_field_name (configured [] m ∅ []) (PStr "BOOK TITLE")
    = Ok (PStr "X").
Proof. by vm_compute. Qed.

(** C9, as amended.  When the rename mapping maps a field to a literal,
    falsy or not, and every key with the snake-cased form of the field
    maps to that literal (so in particular when the field's key is the
    only such key), the field resolves to that literal itself before the
    wildcard is applied: after a falsy first lookup, the entry under the
    snake-cased name is used whatever its truth value. *)
Theorem literal_entry_is_used (self : CSV_Gen) (s : string) (o : pyobj) :
  str_keys (_field_name_mappings self) →
  dict_get (PStr s) (_field_name_mappings self) = Some (Lit o) →
  (∀ k v, (PStr k, v) ∈ _field_name_mappings self →
          snakecase k = snakecase s → v = Lit o) →
  rename_by_entry self (PStr s) = Ok o.
Proof.
  intros Hkeys Hs Hsame. unfold rename_by_entry.
  rewrite fnmap_of_str_keys by done. simpl.
  set (m := _field_name_mappings self) in *.
  assert (Hsnake : ∀ x v, snake_obj x = PStr (snakecase s) →
            dict_get x (reverse (snaked m)) = Some v → v = Lit o).
  { intros x v Hx (k & Hin & <-)%snaked_get_Some.
    pose proof (str_keys_elem _ _ _ Hkeys Hin) as Hk.
    destruct k as [| |k]; try done. simpl in Hx.
    rewrite snakecase_idem in Hx. injection Hx as Hx. eauto. }
  assert (Hget1 : dict_get (PStr s) (dict_update m (dict_of_items (snaked m)))
                  = Some (Lit o)).
  { rewrite fnmap_get.
    destruct (dict_get (PStr s) (reverse (snaked m))) as [v|] eqn:E; [|done].
    f_equal. by eapply (Hsnake (PStr s)). }
  assert (Hget2 : dict_get (PStr (snakecase s))
                    (dict_update m (dict_of_items (snaked m)))
                  = Some (Lit o)).
  { rewrite fnmap_get.
    destruct (snaked_get_is_Some m (PStr s) (Lit o)) as [v Hv].
    { by apply dict_get_Some_elem. }
    simpl in Hv. rewrite Hv. f_equal.
    eapply (Hsnake (PStr (snakecase s))); [|done].
    simpl. by rewrite snakecase_idem. }
  unfold dict_mem, py_get, py_or. rewrite Hget1, Hget2. simpl.
  by destruct (truthy_obj o).
Qed.

(** The mapping [{'A': ''}] sends the column ['A'] to the empty string. *)
Lemma literal_entry_is_used_witness :
  let self := configured [] [(PStr "A", Lit (PStr ""))] ∅ [] in
  str_keys (_field_name_mappings self)
  ∧ dict_get (PStr "A") (_field_name_mappings self) = Some (Lit (PStr ""))
  ∧ rename_by_entry self (PStr "A") = Ok (PStr "").
Proof.
  intros self.
  assert (str_keys (_field_name_mappings self)) as Hkeys.
  { repeat constructor. }
  split_and!; [done..|].
  apply (literal_entry_is_used self "A" (PStr "") Hkeys eq_refl).
  intros k v [Hin|Hin%elem_of_nil]%elem_of_cons _; [|done].
  by injection Hin as _ ->.
Defined.

(** C9, as stated, fails: with the mapping [{'A': ''}] the column ['A']
    resolves to the empty string, the falsy literal itself, and not to
    [None]. *)
Lemma falsy_literal_is_kept :
  let self := configured [] [(PStr "A", Lit (PStr ""))] ∅ [] in
  truthy (Lit (PStr "")) = false
  ∧ rename_by_entry self (PStr "A") = Ok (PStr "")
  ∧ rename_by_entry self (PStr "A") ≠ Ok PNone
  ∧ _change_field_name self (PStr "A") = Ok (PStr "").
Proof. by vm_compute. Qed.

(** ** Converting a row *)

Lemma callable_values_get d k t :
  callable_values d → dict_get k d = Some t → ∃ f, t = Fn f.
Proof.
  intros Hd Hin%dict_get_Some_elem.
  eapply Forall_forall in Hd; [|exact Hin]. simpl in Hd.
  destruct t; [done|eauto].
Qed.

Lemma to_dict_item_spec self k v :
  is_str k → callable_values (_value_transformers self) →
  to_dict_item self (k, v)
  = if included self k
    then (y <- transformed self k v ;; Ok (Some (k, y)))%res
    else Ok None.
Proof.
  intros Hk Hvt. unfold to_dict_item, included, transformed, registered.
  rewrite (to_snakecase_str k Hk). simpl.
  destruct (bool_decide (_selected_fields self = ∅)),
    (bool_decide (k ∈ _selected_fields self)),
    (bool_decide (snake_obj k ∈ _selected_fields self)); simpl; try done.
  all: unfold py_get, py_or;
    destruct (dict_get k (_value_transformers self)) as [t|] eqn:E;
    [destruct (callable_values_get _ _ _ Hvt E) as [f ->]; done|]; simpl;
    destruct (dict_get (snake_obj k) (_value_transformers self)) as [t|] eqn:E';
    [destruct (callable_values_get _ _ _ Hvt E') as [f ->]; done|]; done.
Qed.

Lemma res_map_app {A B} (f : A → res B) (xs ys : list A) :
  res_map f (xs ++ ys)
  = (a <- res_map f xs ;; b <- res_map f ys ;; Ok (a ++ b))%res.
Proof.
  induction xs as [|x xs IH]; simpl.
  - by destruct (res_map f ys).
  - destruct (f x); simpl; [|done]. rewrite IH.
    destruct (res_map f xs); simpl; [|done]. by destruct (res_map f ys).
Qed.

Lemma res_map_ext {A B} (f g : A → res B) (xs : list A) :
  Forall (λ x, f x = g x) xs → res_map f xs = res_map g xs.
Proof.
  induction 1 as [|x xs Hx _ IH]; simpl; [done|]. by rewrite Hx, IH.
Qed.

(** What the items of the comprehension hold under each key *)
Lemma to_dict_items_lookup self pairs items :
  Forall (λ kv, is_str kv.1) pairs →
  callable_values (_value_transformers self) →
  res_map (to_dict_item self) pairs = Ok items →
  ∀ k, dict_get k (reverse (omap id items))
       = match dict_get k (reverse pairs) with
         | Some v =>
             if included self k
             then match transformed self k v with
                  | Ok y => Some y
                  | Raise _ => None
                  end
             else None
         | None => None
         end
    ∧ (included self k → ∀ v, dict_get k (reverse pairs) = Some v →
         is_Some (dict_get k (reverse (omap id items)))).
Proof.
  intros Hstr Hvt. revert items.
  induction pairs as [|[k0 v0] pairs IH] using rev_ind; intros items Hres k.
  - injection Hres as <-. done.
  - rewrite Forall_app, Forall_singleton in Hstr.
    destruct Hstr as [Hstr Hk0]. simpl in Hk0.
    rewrite res_map_app in Hres.
    destruct (res_map (to_dict_item self) pairs) as [items1|] eqn:E1;
      [|done]. cbn [res_map res_bind] in Hres.
    rewrite to_dict_item_spec in Hres by done.
    destruct (IH Hstr items1 eq_refl k) as [IH1 IH2].
    rewrite reverse_snoc. simpl.
    destruct (included self k0) eqn:Hinc; simpl in Hres.
    + destruct (transformed self k0 v0) as [y0|] eqn:Ht; [|done].
      simpl in Hres. injection Hres as <-.
      rewrite omap_app, reverse_app. simpl.
      case_decide as Hk; [subst k0; rewrite Hinc, Ht; done|auto].
    + injection Hres as <-. rewrite omap_app, app_nil_r. simpl.
      case_decide as Hk; [subst k0|auto].
      rewrite Hinc. split; [|done]. rewrite IH1.
      destruct (dict_get k (reverse pairs)); [|done]. by rewrite Hinc.
Qed.

Lemma res_map_is_Ok {A B} (f : A → res B) (xs : list A) :
  Forall (λ x, ∃ y, f x = Ok y) xs → ∃ ys, res_map f xs = Ok ys.
Proof.
  induction 1 as [|x xs [y Hy] _ [ys IH]]; simpl; [by eexists|].
  rewrite Hy, IH. by eexists.
Qed.

Lemma zip_str_keys {B} (names : list pyobj) (values : list B) :
  Forall (λ k, is_str k) names →
  Forall (λ kv : pyobj * B, is_str kv.1) (zip names values).
Proof.
  intros Hn. apply Forall_forall. intros [k v] Hin%elem_of_zip_l.
  simpl. eapply Forall_forall in Hn; eauto.
Qed.

(** C3.  [to_dict] pairs the values with the field names by position and
    returns a dictionary keyed by the field names as stored.  With [str]
    field names and function objects as transformers: a field is in the
    record exactly when it is kept by the selection (nothing selected, or
    the name or its snake-cased form selected) and paired with a value;
    its value is the paired value passed through the transformer
    registered under the name or its snake-cased form, and the paired
    value itself when none is registered.  The conversion returns whenever
    the transformers of the kept fields return. *)
Theorem to_dict_record (self : CSV_Gen) (values : list pyobj) :
  Forall (λ k, is_str k) (names_iter (_field_names self)) →
  callable_values (_value_transformers self) →
  ((∀ k v, (k, v) ∈ zip (names_iter (_field_names self)) values →
           included self k → ∃ y, transformed self k v = Ok y) →
   ∃ d, to_dict self values = Ok d)
  ∧ ∀ d, to_dict self values = Ok d →
      ∀ k,
        (∀ v, included self k → paired_value self values k = Some v →
              ∃ y, transformed self k v = Ok y ∧ dict_get k d = Some y)
        ∧ (∀ y, dict_get k d = Some y →
                included self k
                ∧ ∃ v, paired_value self values k = Some v
                       ∧ transformed self k v = Ok y).
Proof.
  intros Hstr Hvt. pose proof (zip_str_keys _ values Hstr) as Hzip. split.
  - intros Hret. unfold to_dict.
    destruct (res_map_is_Ok (to_dict_item self)
                (zip (names_iter (_field_names self)) values))
      as [items ->]; [|by eexists].
    apply Forall_forall. intros [k v] Hin.
    pose proof (proj1 (Forall_forall _ _) Hzip _ Hin) as Hk. simpl in Hk.
    rewrite to_dict_item_spec by done.
    destruct (included self k) eqn:Hinc; [|by eexists].
    destruct (Hret k v Hin) as [y ->]; [by rewrite Hinc|]. by eexists.
  - intros d Hd k. unfold to_dict in Hd.
    destruct (res_map (to_dict_item self) _) as [items|] eqn:E; [|done].
    injection Hd as <-.
    destruct (to_dict_items_lookup self _ items Hzip Hvt E k) as [H1 H2].
    rewrite dict_get_of_items. unfold paired_value. split.
    + intros v Hinc Hv. destruct (H2 Hinc v Hv) as [y Hy].
      rewrite Hy in H1. rewrite Hv in H1.
      destruct (included self k); [|done].
      destruct (transformed self k v) as [y'|]; [|done].
      exists y'. split; [done|]. by rewrite Hy, H1.
    + intros y Hy. rewrite Hy in H1.
      destruct (dict_get k (reverse (zip _ values))) as [v|]; [|done].
      destruct (included self k); [|done]. split; [done|].
      exists v. split; [done|].
      destruct (transformed self k v); by simplify_eq.
Qed.

Lemma fst_zip_take {A B} (l : list A) (k : list B) :
  (zip l k).*1 = take (length k) l.
Proof.
  revert k. induction l as [|x l IH]; intros [|y k]; simpl; [done..|].
  by rewrite IH.
Qed.

Lemma to_dict_item_key self k v k' y :
  to_dict_item self (k, v) = Ok (Some (k', y)) → k' = k.
Proof.
  unfold to_dict_item.
  destruct (if bool_decide (_selected_fields self = ∅) then _ else _)
    as [[]|]; simpl; try done.
  destruct (py_or _ _); simpl; [|done].
  destruct (call _ _); simpl; [|done]. by intros [= -> _].
Qed.

Lemma res_map_elem {A B} (f : A → res B) (xs : list A) (ys : list B) y :
  res_map f xs = Ok ys → y ∈ ys → ∃ x, x ∈ xs ∧ f x = Ok y.
Proof.
  revert ys. induction xs as [|x xs IH]; simpl; intros ys Hres Hy.
  - injection Hres as <-. by apply elem_of_nil in Hy.
  - destruct (f x) as [y0|] eqn:E; [|done]. simpl in Hres.
    destruct (res_map f xs) as [ys0|]; [|done]. injection Hres as <-.
    apply elem_of_cons in Hy as [->|Hy].
    + exists x. split; [left|done].
    + destruct (IH ys0 eq_refl Hy) as (x' & ? & ?). exists x'.
      split; [by right|done].
Qed.

Lemma omap_id_Some {A} (l : list A) : omap id (Some <$> l) = l.
Proof. induction l as [|x l IH]; csimpl; [done|]. by rewrite IH. Qed.

(** Every key of a record is one of the field names that [zip] pairs
    with a value. *)
Lemma to_dict_keys (self : CSV_Gen) (values : list pyobj) (d : record)
    (k : pyobj) :
  to_dict self values = Ok d → k ∈ dict_keys d →
  k ∈ take (length values) (names_iter (_field_names self)).
Proof.
  intros Hd Hk. unfold to_dict in Hd.
  destruct (res_map (to_dict_item self) _) as [items|] eqn:E; [|done].
  injection Hd as <-.
  apply dict_mem_keys in Hk. unfold dict_mem in Hk.
  destruct (dict_get k (dict_of_items (omap id items))) as [y|] eqn:Hy;
    [|done].
  rewrite dict_get_of_items in Hy.
  apply dict_get_Some_elem in Hy. rewrite elem_of_reverse in Hy.
  apply list_elem_of_omap in Hy as (it & Hit & Heq). simpl in Heq. subst it.
  destruct (res_map_elem _ _ _ _ E Hit) as ([k0 v0] & Hin & Hitem).
  apply to_dict_item_key in Hitem as ->.
  rewrite <- fst_zip_take. apply list_elem_of_fmap. by exists (k0, v0).
Qed.

(** C8.  [to_dict] sees only as many field names and values as the
    shorter of the two lists has: the record of a row equals the record of
    the row cut to the number of field names under the field names cut to
    the length of the row, every key of the record is among the first
    [len(values)] field names, and with nothing selected and no transformer
    the conversion returns for a row of any length. *)
Theorem to_dict_truncates (self : CSV_Gen) (values : list pyobj) :
  let names := names_iter (_field_names self) in
  let n := min (length names) (length values) in
  to_dict self values
  = to_dict (with_field_names (NamesList (take n names)) self)
      (take n values)
  ∧ (∀ d k, to_dict self values = Ok d → k ∈ dict_keys d →
            k ∈ take (length values) names)
  ∧ (_selected_fields self = ∅ → _value_transformers self = [] →
     Forall (λ k, is_str k) names →
     to_dict self values = Ok (dict_of_items (zip names values))).
Proof.
  intros names n. split_and!.
  - unfold to_dict. simpl. fold names.
    rewrite zip_with_take_both'; [done|subst n; lia..].
  - intros d k. apply to_dict_keys.
  - intros Hsel Hvt Hstr. unfold to_dict. fold names.
    rewrite (res_map_Ok_fmap _ Some); [cbn [res_bind]; by rewrite omap_id_Some|].
    apply Forall_forall. intros [k v] Hin%elem_of_zip_l.
    pose proof (proj1 (Forall_forall _ _) Hstr _ Hin) as Hk.
    unfold to_dict_item. rewrite Hsel, Hvt. simpl.
    rewrite (to_snakecase_str k Hk). done.
Qed.

(** Field names [A, B, C] and the row [1, 2]: the record has the keys [A]
    and [B] only. *)
Lemma to_dict_truncates_witness :
  let self := configured [PStr "A"; PStr "B"; PStr "C"] [] ∅ [] in
  Forall (λ k, is_str k) (names_iter (_field_names self))
  ∧ to_dict self [PStr "1"; PStr "2"]
    = Ok [(PStr "A", PStr "1"); (PStr "B", PStr "2")].
Proof.
  intros self.
  assert (Forall (λ k, is_str k) (names_iter (_field_names self))) as Hstr.
  { repeat constructor. }
  split; [done|].
  exact (proj2 (proj2 (to_dict_truncates self [PStr "1"; PStr "2"]))
           eq_refl eq_refl Hstr).
Defined.

(** Columns [Title, Author], the selection [{'author'}] and a transformer
    under ['Author']: the record holds the transformed author only. *)
Lemma to_dict_record_witness :
  let self := configured [PStr "Title"; PStr "Author"] []
                {[ PStr "author" ]} [(PStr "Author", Fn snakecase_fn)] in
  let values := [PStr "T 1"; PStr "A 1"] in
  Forall (λ k, is_str k) (names_iter (_field_names self))
  ∧ callable_values (_value_transformers self)
  ∧ ∃ d, to_dict self values = Ok d
         ∧ dict_get (PStr "Author") d = Some (PStr "a_1")
         ∧ dict_get (PStr "Title") d = None.
Proof.
  intros self values.
  assert (Forall (λ k, is_str k) (names_iter (_field_names self))) as Hstr.
  { repeat constructor. }
  assert (callable_values (_value_transformers self)) as Hvt.
  { repeat constructor. }
  split_and!; [done..|].
  destruct (to_dict_record self values Hstr Hvt) as [_ Hrec].
  exists [(PStr "Author", PStr "a_1")].
  assert (to_dict self values = Ok [(PStr "Author", PStr "a_1")]) as Hd.
  { by vm_compute. }
  split; [done|].
  destruct (Hrec _ Hd (PStr "Author")) as [Hin _].
  destruct (Hin (PStr "A 1")) as (y & Hy & Hget); [by vm_compute..|].
  vm_compute in Hy. injection Hy as <-.
  split; [exact Hget|by vm_compute].
Defined.

(** ** Streaming *)

Lemma change_field_name_mappings (a b : CSV_Gen) (x : pyobj) :
  _field_name_mappings a = _field_name_mappings b →
  _change_field_name a x = _change_field_name b x.
Proof.
  intros H. unfold _change_field_name, rename_by_entry. by rewrite H.
Qed.

Section stream_facts.

Variable fs : string → option csv_file.

Lemma apply_final_config_Ok (self self' : CSV_Gen) (u : unit) :
  apply_final_config fs self = (Ok u, self') →
  check_file_path_and_field_names_compatible fs self = Ok ()
  ∧ ∃ selected transformers names,
      res_map (_change_field_name self) (elements (_selected_fields self))
      = Ok selected
      ∧ res_map (λ kv, (k <- _change_field_name self kv.1 ;;
                         Ok (k, kv.2))%res) (_value_transformers self)
        = Ok transformers
      ∧ res_map (_change_field_name self) (names_iter (_field_names self))
        = Ok names
      ∧ self' = Build_CSV_Gen
                  (dict_update (_value_transformers self)
                     (dict_of_items transformers))
                  (NamesList names) (_file_path self) (csv_dialect self)
                  (_selected_fields self ∪ list_to_set selected)
                  (_field_name_mappings self) (ignore_first_row self).
Proof.
  unfold apply_final_config, M_bind, M_read, M_assign.
  destruct (check_file_path_and_field_names_compatible fs self) as [[]|];
    [|done].
  destruct (res_map (_change_field_name self) _) as [selected|] eqn:E1;
    simpl; [|done].
  rewrite (res_map_ext _ (λ kv, (k <- _change_field_name self kv.1 ;;
                                  Ok (k, kv.2))%res)).
  2:{ apply Forall_forall. intros [k v] _. simpl.
      by rewrite (change_field_name_mappings _ self). }
  destruct (res_map _ (_value_transformers self)) as [transformers|] eqn:E2;
    simpl; [|done].
  rewrite (res_map_ext _ (_change_field_name self)).
  2:{ apply Forall_forall. intros k _.
      by rewrite (change_field_name_mappings _ self). }
  destruct (res_map _ (names_iter _)) as [names|] eqn:E3; simpl; [|done].
  intros [= <-]. split; [done|]. by exists selected, transformers, names.
Qed.

Lemma yield_rows_prefix (self : CSV_Gen) (csv_reader : list (list string))
    (recs : list record) (e : option exn) :
  yield_rows self csv_reader = (recs, e) →
  Forall2 (converts self) (take (length recs) csv_reader) recs
  ∧ (e = None → length recs = length csv_reader).
Proof.
  revert recs e.
  induction csv_reader as [|row rest IH]; simpl; intros recs e.
  - intros [= <- <-]. split; [constructor|done].
  - destruct (to_dict self (PStr <$> row)) as [d|] eqn:E.
    + destruct (yield_rows self rest) as [ds e'].
      intros [= <- <-]. destruct (IH ds e' eq_refl) as [IH1 IH2].
      simpl. split; [by constructor|]. intros ?. f_equal. auto.
    + intros [= <- <-]. split; [constructor|done].
Qed.

Lemma yield_rows_all (self : CSV_Gen) (csv_reader : list (list string)) :
  Forall (λ row, ∃ d, converts self row d) csv_reader →
  ∃ recs, yield_rows self csv_reader = (recs, None)
          ∧ Forall2 (converts self) csv_reader recs.
Proof.
  induction 1 as [|row rest [d Hd] _ (recs & IH & IH')]; simpl.
  - exists []. split; [done|constructor].
  - unfold converts in Hd. rewrite Hd, IH. exists (d :: recs).
    split; [done|by constructor].
Qed.

(** [stream(n)] for a limit [n > 0] that [islice] accepts. *)
Lemma stream_accepted (n : nat) (self : CSV_Gen) :
  (N.of_nat (S n) ≤ sys_maxsize)%N →
  stream fs (S n) self
  = ((if decide (S n ≤ length (_stream fs self).1.1)%nat
      then (take (S n) (_stream fs self).1.1, None)
      else (_stream fs self).1),
     (_stream fs self).2).
Proof.
  intros Hn%N.leb_le. unfold stream, islice.
  destruct (_stream fs self) as [t s]. by rewrite Hn.
Qed.

(** [stream(n)] for a limit that [islice] refuses: nothing is yielded, the
    error of [islice] is raised, and the object is as it was. *)
Lemma stream_refused (n : nat) (self : CSV_Gen) :
  (sys_maxsize < N.of_nat n)%N →
  stream fs n self = (([], Some islice_error), self).
Proof.
  intros Hn. destruct n as [|n]; [by vm_compute in Hn|].
  apply N.leb_gt in Hn. unfold stream, islice.
  destruct (_stream fs self) as [t s]. by rewrite Hn.
Qed.

(** X15.  For [0 < n <= sys.maxsize], [stream(n)] yields the first [n] of
    the records that [stream()] yields, whether [stream()] ends with an
    exception or not, and leaves the object as [stream()] leaves it.  For
    [n > sys.maxsize], [stream(n)] yields nothing, raises the [ValueError]
    of [itertools.islice] and leaves the object as it was. *)
Lemma stream_is_prefix (n : nat) (self : CSV_Gen) :
  ((N.of_nat (S n) ≤ sys_maxsize)%N →
   (stream fs (S n) self).1.1 = take (S n) (stream fs 0 self).1.1
   ∧ (stream fs (S n) self).2 = (stream fs 0 self).2)
  ∧ ((sys_maxsize < N.of_nat (S n))%N →
     stream fs (S n) self = (([], Some islice_error), self)).
Proof.
  split.
  - intros Hn. rewrite (stream_accepted _ _ Hn). unfold stream.
    destruct (_stream fs self) as [[recs e] self'].
    cbn [fst snd]. split; [|done].
    case_decide; [done|]. cbn [fst]. rewrite take_ge; [done|lia].
  - apply stream_refused.
Qed.

(** C7, as amended.  When the configuration resolves and every row converts,
    [stream()] and [stream(0)] yield one record per data row, in order, and
    [stream(n)] for [0 < n <= sys.maxsize] yields the records of the first
    [n] data rows: [n] records when there are at least [n] data rows, and
    as many as there are data rows otherwise; the iteration ends without an
    exception. *)
Theorem stream_limit (self self' : CSV_Gen) (data : list (list string))
    (n : nat) :
  apply_final_config fs self = (Ok (), self') →
  data_rows fs self' = Ok data →
  Forall (λ row, ∃ d, converts self' row d) data →
  (N.of_nat n ≤ sys_maxsize)%N →
  ∃ recs,
    stream fs n self = ((recs, None), self')
    ∧ Forall2 (converts self')
        (match n with O => data | _ => take n data end) recs
    ∧ length recs = match n with
                    | O => length data
                    | _ => min n (length data)
                    end.
Proof.
  intros Hcfg Hdata Hrows Hmax.
  destruct (yield_rows_all self' data Hrows) as (recs & Hy & Hconv).
  pose proof (Forall2_length _ _ _ Hconv) as Hlen.
  assert (_stream fs self = ((recs, None), self')) as Hs.
  { unfold _stream. by rewrite Hcfg, Hdata, Hy. }
  destruct n as [|n].
  - exists recs. simpl. by rewrite Hs.
  - rewrite (stream_accepted _ _ Hmax), Hs. cbn [fst snd].
    case_decide as Hn.
    + exists (take (S n) recs). split_and!; [done| |].
      * by apply Forall2_take.
      * by rewrite length_take, Hlen.
    + exists recs. split_and!; [done| |lia].
      rewrite take_ge by lia. done.
Qed.

Lemma set_file_path_Ok (path : string) (s self0 : CSV_Gen) :
  set_file_path fs path s = (Ok (), self0) →
  ∃ f d, embedded_null path = false
         ∧ fs path = Some f ∧ sniff f = Some d
         ∧ _file_path self0 = Some path
         ∧ csv_dialect self0 = Some d
         ∧ ignore_first_row self0 = ignore_first_row s
         ∧ (if is_header (_field_names s)
            then ∃ first, head (rows f None) = Some first
                          ∧ _field_names self0 = NamesList (PStr <$> first)
            else _field_names self0 = _field_names s).
Proof.
  unfold set_file_path, set_csv_dialect, get_field_names_from_csv,
    M_bind, M_read, M_assign, M_ret, open_file, file_path, py_open. simpl.
  destruct (embedded_null path) eqn:Hnul; simpl; [done|].
  destruct (fs path) as [f|] eqn:Hf; simpl; [|done].
  destruct (sniff f) as [d|] eqn:Hd; simpl; [|done].
  destruct (is_header (_field_names s)) eqn:Hh; simpl.
  - rewrite ?Hnul, Hf. simpl.
    destruct (rows f None) as [|first rest] eqn:Hr; simpl; [done|].
    intros [= <-]. exists f, d. split_and!; try done.
    exists first. by rewrite Hr.
  - intros [= <-]. exists f, d. split_and!; done.
Qed.

(** What both ways of construction leave in the object. *)
Lemma constructed_shape (path : string) (names0 : field_names_t)
    (self0 : CSV_Gen) :
  constructed fs path names0 self0 →
  ignore_first_row self0 = is_header names0
  ∧ (_file_path self0 = None
     ∨ ∃ f d, embedded_null path = false
              ∧ fs path = Some f ∧ sniff f = Some d
              ∧ _file_path self0 = Some path
              ∧ csv_dialect self0 = Some d
              ∧ (if is_header names0
                 then ∃ first, head (rows f None) = Some first
                               ∧ _field_names self0
                                 = NamesList (PStr <$> first)
                 else _field_names self0 = names0)).
Proof.
  intros [Hinit|(s & Hinit & Hset)].
  - unfold __init__ in Hinit. simpl in Hinit.
    destruct (negb (String.eqb path "")).
    + destruct (set_file_path fs path _) as [[[]|e] s] eqn:Hset; [|done].
      injection Hinit as <-.
      apply set_file_path_Ok in Hset
        as (f & d & Hnul & Hf & Hd & Hp & Hdia & _ & Hnames).
      simpl in *. split; [done|]. right. by exists f, d.
    + simpl in Hinit. injection Hinit as <-. simpl. auto.
  - unfold __init__ in Hinit. simpl in Hinit. injection Hinit as <-.
    apply set_file_path_Ok in Hset
      as (f & d & Hnul & Hf & Hd & Hp & Hdia & Hign & Hnames).
    simpl in *. split; [done|]. right. by exists f, d.
Qed.

Lemma stream_yields (n : nat) (self self' : CSV_Gen) (t : trace) :
  stream fs n self = (t, self') →
  t.1 = []
  ∨ ∃ data recs e,
      apply_final_config fs self = (Ok (), self')
      ∧ data_rows fs self' = Ok data
      ∧ yield_rows self' data = (recs, e)
      ∧ t.1 = match n with O => recs | _ => take n recs end.
Proof.
  assert (∀ t self', _stream fs self = (t, self') →
            t.1 = [] ∨ ∃ data, apply_final_config fs self = (Ok (), self')
                         ∧ data_rows fs self' = Ok data
                         ∧ yield_rows self' data = t) as Hs.
  { intros t0 self0. unfold _stream.
    destruct (apply_final_config fs self) as [[[]|e] s] eqn:Hcfg.
    - destruct (data_rows fs s) as [data|] eqn:Hdata.
      + intros [= <- <-]. right. by exists data.
      + intros [= <- <-]. by left.
    - intros [= <- <-]. by left. }
  destruct n as [|n].
  - unfold stream. intros H.
    destruct (Hs _ _ H) as [?|(data & ? & ? & Hy)]; [by left|].
    right. destruct t as [recs e]. by exists data, recs, e.
  - destruct (N.leb_spec (N.of_nat (S n)) sys_maxsize) as [Hn|Hn].
    2:{ rewrite (stream_refused _ _ Hn). intros [= <- <-]. by left. }
    rewrite (stream_accepted _ _ Hn).
    destruct (_stream fs self) as [t0 s] eqn:H0. cbn [fst snd].
    intros [= <- <-].
    destruct (Hs _ _ eq_refl) as [Hnil|(data & ? & ? & Hy)].
    + left. case_decide; [|done]. cbn [fst]. by rewrite Hnil.
    + right. destruct t0 as [recs e]. exists data, recs, e.
      split_and!; try done. cbn [fst snd].
      case_decide; [done|]. cbn [fst]. rewrite take_ge; [done|lia].
Qed.

Lemma Forall2_elem_r {A B} (P : A → B → Prop) (l : list A) (k : list B) y :
  Forall2 P l k → y ∈ k → ∃ x, x ∈ l ∧ P x y.
Proof.
  induction 1 as [|x y0 l k HP _ IH]; intros Hy.
  - by apply elem_of_nil in Hy.
  - apply elem_of_cons in Hy as [->|Hy].
    + exists x. split; [left|done].
    + destruct (IH Hy) as (x' & ? & ?). exists x'. split; [by right|done].
Qed.

(** C6.  After [CSV_Gen(path, names)], or [CSV_Gen(field_names=names)]
    and the assignment of the path, and any setting of renames, selection
    and transformers, the records that [stream] yields are the
    conversions, in order, of the rows that follow the first row of the
    file when [names] is ['header'], and of the rows from the first one on
    when [names] is a list; in the first case every key of a yielded
    record is the resolved form of a cell of the file's first row. *)
Theorem stream_skips_header_row (path : string) (names0 : field_names_t)
    (self0 : CSV_Gen) (renames : dict pyval) (selected : gset pyobj)
    (transformers : dict pyval) (n : nat) (t : trace) (self' : CSV_Gen)
    (f : csv_file) (d : dialect) :
  constructed fs path names0 self0 →
  stream fs n (with_config renames selected transformers self0)
  = (t, self') →
  fs path = Some f → sniff f = Some d →
  Forall2 (converts self')
    (take (length t.1)
       (if is_header names0 then tail (rows f (Some d))
        else rows f (Some d)))
    t.1
  ∧ (is_header names0 →
     ∀ rec k, rec ∈ t.1 → k ∈ dict_keys rec →
       ∃ first h, head (rows f None) = Some first ∧ h ∈ first
                  ∧ _change_field_name
                      (with_config renames selected transformers self0)
                      (PStr h) = Ok k).
Proof.
  intros Hinit Hstream Hf Hd.
  destruct (stream_yields _ _ _ _ Hstream)
    as [Hnil|(data & recs & e & Hcfg & Hdata & Hy & Ht)].
  { rewrite Hnil. split; [constructor|].
    intros _ rec k Hrec. by apply elem_of_nil in Hrec. }
  apply apply_final_config_Ok in Hcfg
    as (_ & sel' & vt' & names & _ & _ & Hnames & ->).
  destruct (constructed_shape _ _ _ Hinit)
    as (Hign & [Hnone|(f' & d' & Hnul & Hf' & Hd' & Hpath & Hdia & Hfn)]).
  { unfold data_rows, open_file, file_path in Hdata. simpl in Hdata.
    by rewrite Hnone in Hdata. }
  rewrite Hf in Hf'. injection Hf' as <-.
  rewrite Hd in Hd'. injection Hd' as <-.
  unfold data_rows, open_file, file_path, py_open in Hdata. simpl in Hdata.
  rewrite Hpath in Hdata. simpl in Hdata. rewrite Hnul, Hf in Hdata.
  simpl in Hdata. rewrite Hdia in Hdata. simpl in Hdata.
  rewrite Hign in Hdata.
  assert (data = if is_header names0 then tail (rows f (Some d))
                 else rows f (Some d)) as <-.
  { destruct (is_header names0); [|by injection Hdata].
    destruct (rows f (Some d)); [done|by injection Hdata]. }
  destruct (yield_rows_prefix _ _ _ _ Hy) as [Hconv _].
  assert (∀ rec, rec ∈ t.1 → rec ∈ recs) as Hsub.
  { intros rec. rewrite Ht. destruct n; [done|].
    intros (i & Hi & _)%elem_of_take. by eapply list_elem_of_lookup_2. }
  split.
  - rewrite Ht. destruct n as [|n]; [done|].
    rewrite length_take. rewrite <- (take_take _ (S n) (length recs)).
    by apply Forall2_take.
  - intros Hh rec k Hrec%Hsub Hk. destruct (is_header names0); [|done].
    destruct Hfn as (first & Hfirst & Hfn).
    destruct (Forall2_elem_r _ _ _ _ Hconv Hrec) as (row & _ & Hrow).
    pose proof (to_dict_keys _ _ _ _ Hrow Hk) as Hin. simpl in Hin.
    apply elem_of_take in Hin as (i & Hin%list_elem_of_lookup_2 & _).
    destruct (res_map_elem _ _ _ _ Hnames Hin) as (x & Hx & Hchange).
    simpl in Hx. rewrite Hfn in Hx. simpl in Hx.
    apply list_elem_of_fmap in Hx as (h & -> & Hh').
    by exists first, h.
Qed.
End stream_facts.

(** [CSV_Gen('books.csv')] with the rename [{'^ALL': snakecase}]: the two
    data rows are yielded under the keys [title] and [author]. *)
Lemma stream_skips_header_row_witness :
  let self := with_config [(PStr "^ALL", Fn snakecase_fn)] ∅ [] books_gen in
  constructed disk "books.csv" header books_gen
  ∧ disk "books.csv" = Some books
  ∧ sniff books = Some comma
  ∧ (stream disk 0 self).1
    = ([[(PStr "title", PStr "Emma"); (PStr "author", PStr "Austen")];
        [(PStr "title", PStr "Ulysses"); (PStr "author", PStr "Joyce")]],
       None)
  ∧ Forall2 (converts (stream disk 0 self).2)
      (take (length (stream disk 0 self).1.1) (tail (rows books (Some comma))))
      (stream disk 0 self).1.1.
Proof.
  intros self.
  assert (constructed disk "books.csv" header books_gen) as Hinit.
  { left. by vm_compute. }
  split_and!; [done|done|done|by vm_compute|].
  refine (proj1 (stream_skips_header_row disk "books.csv" header books_gen
                   [(PStr "^ALL", Fn snakecase_fn)] ∅ [] 0
                   (stream disk 0 self).1 (stream disk 0 self).2
                   books comma Hinit _ eq_refl eq_refl)).
  by destruct (stream disk 0 _).
Defined.

(** [stream(1)] on the two data rows of [books.csv] yields one record. *)
Lemma stream_limit_witness :
  let self := with_config [] ∅ [] books_gen in
  let self' := (apply_final_config disk self).2 in
  let data := [["Emma"; "Austen"]; ["Ulysses"; "Joyce"]] in
  apply_final_config disk self = (Ok (), self')
  ∧ data_rows disk self' = Ok data
  ∧ ∃ recs, stream disk 1 self = ((recs, None), self')
            ∧ Forall2 (converts self') (take 1 data) recs
            ∧ length recs = 1.
Proof.
  intros self self' data.
  assert (apply_final_config disk self = (Ok (), self')) as Hcfg.
  { by vm_compute. }
  assert (data_rows disk self' = Ok data) as Hdata.
  { by vm_compute. }
  split_and!; [done..|].
  apply (stream_limit disk self self' data 1 Hcfg Hdata).
  - repeat constructor; eexists; by vm_compute.
  - by vm_compute.
Defined.

Lemma above_maxsize_refused : (sys_maxsize < N.of_nat above_maxsize)%N.
Proof. unfold above_maxsize. rewrite N2Nat.id. by vm_compute. Qed.

(** C7, as stated, fails for a limit above [sys.maxsize]: on the two data
    rows of [books.csv], with a configuration that resolves and rows that
    convert, [stream(2**63)] yields no record and raises the [ValueError]
    of [itertools.islice], where the claim has the two records. *)
Lemma stream_limit_refused_above_maxsize :
  let self := with_config [] ∅ [] books_gen in
  let self' := (apply_final_config disk self).2 in
  let data := [["Emma"; "Austen"]; ["Ulysses"; "Joyce"]] in
  apply_final_config disk self = (Ok (), self')
  ∧ data_rows disk self' = Ok data
  ∧ Forall (λ row, ∃ d, converts self' row d) data
  ∧ N.of_nat above_maxsize = (sys_maxsize + 1)%N
  ∧ stream disk above_maxsize self = (([], Some islice_error), self)
  ∧ length (stream disk above_maxsize self).1.1
    ≠ Nat.min above_maxsize (length data).
Proof.
  intros self self' data.
  split; [by vm_compute|]. split; [by vm_compute|].
  split; [repeat constructor; eexists; by vm_compute|].
  pose proof above_maxsize_refused as Hn.
  pose proof (stream_refused disk above_maxsize self Hn) as Hs.
  split; [exact (N2Nat.id _)|]. split; [exact Hs|].
  rewrite Hs. unfold sys_maxsize in Hn. cbn [fst length].
  change (length data) with 2%nat. lia.
Qed.

(** ** The decorator *)

Lemma register_each_str (fields : list pyobj) (function : pyfun)
    (self : CSV_Gen) :
  Forall (λ k, is_str k) fields →
  register_each fields function self
  = (Ok (), with_value_transformers
              (register_all fields function (_value_transformers self)) self).
Proof.
  intros Hstr. revert self.
  induction Hstr as [|k fields Hk _ IH]; intros self.
  - by destruct self.
  - destruct k; try done. simpl. unfold M_bind, M_assign.
    rewrite IH. by destruct self.
Qed.

Lemma register_all_get (fields : list pyobj) (function : pyfun)
    (d : dict pyval) (k : pyobj) :
  dict_get k (register_all fields function d)
  = if decide (k ∈ fields) then Some (Fn function) else dict_get k d.
Proof.
  unfold register_all. revert d.
  induction fields as [|k0 fields IH]; intros d; cbn [foldl].
  - case_decide as Hin; [by apply elem_of_nil in Hin|done].
  - rewrite IH, dict_get_set.
    destruct (decide (k ∈ fields)) as [Hin|Hin].
    + rewrite decide_True; [done|by right].
    + destruct (decide (k = k0)) as [->|Hne].
      * rewrite decide_True; [done|left].
      * rewrite decide_False; [done|].
        intros [?|?]%elem_of_cons; done.
Qed.

(** C10.  Decorating [function] for a field, or for a list or tuple of
    fields, all of them [str], stores [function] itself under each field,
    so that the conversion of a row calls [function] on the value of such
    a field; the decorator returns the wrapper, and a call of the wrapper
    calls [function] and returns [None] whatever [function] returned (an
    exception of [function] passes through). *)
Theorem transform_field_value_registers_function (self : CSV_Gen)
    (field_to_transform : fields_arg) (fields : list pyobj)
    (function : pyfun) :
  named_fields field_to_transform = Some fields →
  Forall (λ k, is_str k) fields →
  ∃ self',
    transform_field_value field_to_transform function self
    = (Ok (wrapper function), self')
    ∧ (∀ k, k ∈ fields →
         dict_get k (_value_transformers self') = Some (Fn function)
         ∧ ∀ v, included self' k →
             to_dict_item self' (k, v)
             = (y <- function v ;; Ok (Some (k, y)))%res)
    ∧ (∀ x y, function x = Ok y → wrapper function x = Ok PNone)
    ∧ (∀ x e, function x = Raise e → wrapper function x = Raise e).
Proof.
  intros Hnamed Hstr.
  exists (with_value_transformers
            (register_all fields function (_value_transformers self)) self).
  split_and!.
  - unfold transform_field_value, M_bind, M_ret.
    destruct field_to_transform as [xs|xs|?|[| |s]|?|?];
      simpl in Hnamed; simplify_eq;
      [by rewrite register_each_str..|done].
  - intros k Hk. simpl. rewrite register_all_get, decide_True by done.
    split; [done|]. intros v Hinc.
    pose proof (proj1 (Forall_forall _ _) Hstr _ Hk) as Hs.
    unfold to_dict_item. simpl. rewrite (to_snakecase_str k Hs). simpl.
    unfold py_get. rewrite register_all_get, decide_True by done. simpl.
    unfold included in Hinc. simpl in Hinc.
    destruct (bool_decide (_selected_fields self = ∅)); [done|].
    destruct (bool_decide (k ∈ _selected_fields self)); [done|].
    by destruct (bool_decide (snake_obj k ∈ _selected_fields self)).
  - intros x y Hx. unfold wrapper. by rewrite Hx.
  - intros x e Hx. unfold wrapper. by rewrite Hx.
Qed.

(** [@stream.transform_field_value('isbn')] on [snakecase]: the wrapper
    returns [None] on ['A B']. *)
Lemma transform_field_value_registers_function_witness :
  let self := configured [PStr "isbn"] [] ∅ [] in
  named_fields (FieldsObj (PStr "isbn")) = Some [PStr "isbn"]
  ∧ Forall (λ k, is_str k) [PStr "isbn"]
  ∧ ∃ self',
      transform_field_value (FieldsObj (PStr "isbn")) snakecase_fn self
      = (Ok (wrapper snakecase_fn), self')
      ∧ dict_get (PStr "isbn") (_value_transformers self')
        = Some (Fn snakecase_fn)
      ∧ snakecase_fn (PStr "A B") = Ok (PStr "a_b")
      ∧ wrapper snakecase_fn (PStr "A B") = Ok PNone.
Proof.
  intros self.
  assert (Forall (λ k, is_str k) [PStr "isbn"]) as Hstr.
  { repeat constructor. }
  split_and!; [done..|].
  destruct (transform_field_value_registers_function self
              (FieldsObj (PStr "isbn")) [PStr "isbn"] snakecase_fn
              eq_refl Hstr) as (self' & Hrun & Hreg & Hnone & _).
  exists self'. split_and!; [done| |done|].
  - apply Hreg. left.
  - by apply (Hnone (PStr "A B") (PStr "a_b")).
Defined.

(** ** The setters *)

(** C5, at the inputs where the code departs from it.  Assigning [5],
    [None] or [[1, 2]] to [field_renames] raises the [TypeError] of
    [dict], which the setter does not catch, and not the [ValueError] it
    raises for a malformed mapping; the stored mapping is unchanged. *)
Theorem field_renames_setter_lets_TypeError_escape (self : CSV_Gen) :
  set_field_renames (MapObj (PInt 5)) self = (Raise TypeError, self)
  ∧ set_field_renames (MapObj PNone) self = (Raise TypeError, self)
  ∧ set_field_renames (MapSeq [ItemObj (PInt 1); ItemObj (PInt 2)]) self
    = (Raise TypeError, self).
Proof. done. Qed.

Lemma res_map_Raise {A B} (f : A → res B) (xs : list A) (e : exn) :
  res_map f xs = Raise e → ∃ x, x ∈ xs ∧ f x = Raise e.
Proof.
  induction xs as [|x xs IH]; simpl; [done|].
  destruct (f x) as [y|e0] eqn:E; simpl.
  - destruct (res_map f xs); simpl; [done|]. intros [= ->].
    destruct (IH eq_refl) as (x' & ? & ?). exists x'. split; [by right|done].
  - intros [= ->]. exists x. split; [left|done].
Qed.

Lemma item_pair_Raise (x : seq_item) (e : exn) :
  item_pair x = Raise e → e = TypeError ∨ ∃ msg, e = ValueError msg.
Proof.
  destruct x as [[| |s]|xs|]; simpl; try (intros [= <-]; by eauto).
  - destruct (chars s) as [|?[|?[|??]]]; intros [= <-]; eauto.
  - destruct xs as [|?[|?[|??]]]; intros [= <-]; eauto.
Qed.

Lemma py_dict_Raise (x : mapping_arg) (e : exn) :
  py_dict x = Raise e → e = TypeError ∨ ∃ msg, e = ValueError msg.
Proof.
  destruct x as [d|items|[| |s]|f]; simpl; try (intros [= <-]; by eauto).
  - destruct (res_map item_pair items) eqn:E; simpl; [done|].
    intros [= ->]. apply res_map_Raise in E as (x & _ & Hx).
    by eapply item_pair_Raise.
  - destruct (res_map item_pair _) eqn:E; simpl; [done|].
    intros [= ->]. apply res_map_Raise in E as (x & _ & Hx).
    by eapply item_pair_Raise.
Qed.

(** X16.  An assignment to [field_renames] that raises leaves the object
    as it was, and raises the [TypeError] of [dict] or the [ValueError] of
    the setter, nothing else. *)
Lemma set_field_renames_failure (fnmap : mapping_arg) (self self' : CSV_Gen)
    (e : exn) :
  set_field_renames fnmap self = (Raise e, self') →
  self' = self
  ∧ (e = TypeError
     ∨ e = ValueError "Provide mapping as dict or list of tuples.").
Proof.
  unfold set_field_renames, M_bind, M_read, M_assign.
  destruct (py_dict fnmap) as [d|e0] eqn:E; [done|].
  apply py_dict_Raise in E as [->|[msg ->]]; intros [= <- <-]; auto.
Qed.

Lemma set_selected_fields_failure (fields : fields_arg)
    (self self' : CSV_Gen) (e : exn) :
  set_selected_fields fields self = (Raise e, self') →
  self' = self ∧ e = ValueError "Selected fields must be an iterable.".
Proof. destruct fields; simpl; unfold M_assign, M_raise; by intros [= <- <-]. Qed.

Lemma set_selected_fields_accepts (fields : fields_arg) (self : CSV_Gen) :
  (∃ s, set_selected_fields fields self = (Ok (), with_selected_fields s self))
  ↔ match fields with
    | FieldsList _ | FieldsTuple _ | FieldsSet _ => True
    | _ => False
    end.
Proof.
  destruct fields; simpl; unfold M_assign, M_raise; split;
    try done; try (intros _; by eexists); by intros [? ?].
Qed.

Lemma value_transformers_add_failure (value : mapping_arg)
    (self self' : CSV_Gen) (e : exn) :
  value_transformers_add value self = (Raise e, self') →
  self' = self
  ∧ e = ValueError
          "Value transformers must be in form of dict or list of tuples".
Proof.
  unfold value_transformers_add.
  destruct (py_items value); unfold M_assign, M_raise; by intros [= <- <-].
Qed.

(** ** The compatibility check *)

Section check.

Variable fs : string → option csv_file.

Lemma stream_after_failed_config (self : CSV_Gen) (e : exn) (n : nat) :
  apply_final_config fs self = (Raise e, self) →
  (N.of_nat n ≤ sys_maxsize)%N →
  stream fs n self = (([], Some (leave_generator e)), self).
Proof.
  intros H Hn.
  assert (_stream fs self = (([], Some (leave_generator e)), self)) as Hs.
  { unfold _stream. by rewrite H. }
  destruct n as [|n]; [done|].
  rewrite (stream_accepted _ _ _ Hn), Hs. cbn [fst snd].
  case_decide as Hlen; [simpl in Hlen; lia|done].
Qed.

(** When the check does raise.  On a file that opens, sniffs and has a
    first row, the compatibility check raises
    - [KeyError('Header missing ...')] exactly when [_field_names] is the
      string ['header'] and no header is detected, and
    - [KeyError('Fields provided do not match ...')] exactly when
      [_field_names] is a non-empty value other than ['header'] whose
      length differs from the number of columns of the first row,
    and nothing else.  When the check raises, [apply_final_config] raises
    the same exception and assigns nothing, and [stream(n)], for a limit
    that [islice] accepts, raises it before it yields a record. *)
Lemma compatibility_check (self : CSV_Gen) (f : csv_file)
    (first : list string) :
  open_file fs self = Ok f →
  is_Some (sniff f) →
  head (rows f None) = Some first →
  (check_file_path_and_field_names_compatible fs self = Raise header_missing
   ↔ is_header (_field_names self) ∧ header_detected f = false)
  ∧ (check_file_path_and_field_names_compatible fs self
     = Raise fields_mismatch
     ↔ ¬ is_header (_field_names self)
       ∧ names_len (_field_names self) ≠ 0
       ∧ names_len (_field_names self) ≠ length first)
  ∧ (∀ e, check_file_path_and_field_names_compatible fs self = Raise e →
          (e = header_missing ∨ e = fields_mismatch)
          ∧ apply_final_config fs self = (Raise e, self)
          ∧ ∀ n, (N.of_nat n ≤ sys_maxsize)%N →
                 stream fs n self = (([], Some e), self)).
Proof.
  intros Hopen [d Hd] Hfirst.
  assert (names_truthy (_field_names self)
          = negb (bool_decide (names_len (_field_names self) = 0))) as Htr.
  { unfold names_len. destruct (_field_names self) as [s|l]; simpl.
    - by destruct s.
    - by destruct l. }
  assert (check_file_path_and_field_names_compatible fs self
          = if is_header (_field_names self)
            then if header_detected f then Ok () else Raise header_missing
            else if bool_decide (names_len (_field_names self) = 0)
                 then Ok ()
                 else if bool_decide (names_len (_field_names self)
                                      ≠ length first)
                      then Raise fields_mismatch else Ok ()) as Hcheck.
  { unfold check_file_path_and_field_names_compatible.
    rewrite Hopen, Htr. cbn [res_bind]. unfold has_header. rewrite Hd.
    simpl.
    destruct (rows f None) as [|row rest]; simplify_eq/=.
    destruct (is_header _); [by destruct (header_detected f)|].
    by destruct (bool_decide (names_len _ = 0)). }
  rewrite Hcheck. split_and!.
  - destruct (is_header _); [destruct (header_detected f)|];
      repeat case_bool_decide; split; try done; try tauto;
      intros [[]?]; done.
  - destruct (is_header _); [destruct (header_detected f)|];
      repeat case_bool_decide; split; try done; try tauto;
      intros (Hh & ? & ?); try done; by destruct Hh.
  - intros e He.
    assert (e = header_missing ∨ e = fields_mismatch) as Hor.
    { destruct (is_header _); [destruct (header_detected f)|];
        repeat case_bool_decide; simplify_eq; auto. }
    split; [done|].
    assert (apply_final_config fs self = (Raise e, self)) as Hcfg.
    { unfold apply_final_config, M_bind, M_read. by rewrite Hcheck, He. }
    split; [done|]. intros n Hn.
    rewrite (stream_after_failed_config _ _ _ Hcfg Hn).
    by destruct Hor as [-> | ->].
Qed.

(** X17.  What construction with ['header'] leaves in [_field_names]
    once the path is set: the first row of the file, so that the check
    compares the first row with itself and passes, whether a header is
    detected or not. *)
Lemma check_after_init_header (path : string) (self0 : CSV_Gen) :
  constructed fs path header self0 →
  _file_path self0 = Some path →
  is_header (_field_names self0) = false
  ∧ check_file_path_and_field_names_compatible fs self0 = Ok ().
Proof.
  intros Hinit Hpath.
  destruct (constructed_shape _ _ _ _ Hinit)
    as (_ & [Hnone|(f & d & Hnul & Hf & Hd & Hp & _ & Hfn)]);
    [by rewrite Hpath in Hnone|].
  simpl in Hfn. destruct Hfn as (first & Hfirst & Hfn).
  unfold check_file_path_and_field_names_compatible, open_file, file_path,
    py_open.
  rewrite Hfn, Hp. simpl. rewrite Hnul, Hf. simpl. split; [done|].
  destruct (rows f None) as [|row rest]; simplify_eq/=.
  destruct first; simpl; [done|].
  rewrite bool_decide_false; [done|]. unfold names_len. simpl.
  rewrite length_fmap. auto.
Qed.

End check.

(** The file [books.csv], three columns announced: the check raises, the
    configuration is left as it was and nothing is yielded. *)
Lemma compatibility_check_at_three_names :
  let self := configured [PStr "a"; PStr "b"; PStr "c"] [] ∅ [] in
  open_file disk self = Ok books
  ∧ is_Some (sniff books)
  ∧ head (rows books None) = Some ["Title"; "Author"]
  ∧ check_file_path_and_field_names_compatible disk self
    = Raise fields_mismatch
  ∧ stream disk 0 self = (([], Some fields_mismatch), self).
Proof.
  intros self.
  assert (is_Some (sniff books)) as Hsniff by (by eexists).
  destruct (compatibility_check disk self books ["Title"; "Author"]
              eq_refl Hsniff eq_refl) as (_ & Hmis & Hraise).
  assert (check_file_path_and_field_names_compatible disk self
          = Raise fields_mismatch) as Hcheck.
  { apply Hmis. split_and!; [by intros []|by vm_compute..]. }
  split_and!; [done..|].
  destruct (Hraise _ Hcheck) as (_ & _ & Hstream).
  by rewrite (Hstream 0%nat).
Qed.

(** C4, at the inputs where the code departs from it.
    - An empty list of field names is never checked, whatever the file:
      the test [elif self._field_names:] takes it for no field names.
      With [CSV_Gen('books.csv', field_names=[])] the field names are
      explicit and their count, 0, differs from the 2 columns of the first
      row; yet the check passes, [apply_final_config] succeeds and the
      stream yields an empty record for each of the three rows.
    - With [CSV_Gen('numbers.csv')] the field names are to come from the
      header and no header is detected in the file; yet the check passes:
      the setter of the path has replaced ['header'] by the first row, so
      that the test of the header is not reached.  The first row gives the
      keys and is not yielded. *)
Theorem compatibility_check_misses_mismatch :
  (∀ fs self,
     check_file_path_and_field_names_compatible fs
       (with_field_names (NamesList []) self) = Ok ())
  ∧ (let self := configured [] [] ∅ [] in
     __init__ disk (Some "books.csv") (NamesList []) = Ok self
     ∧ head (rows books None) = Some ["Title"; "Author"]
     ∧ names_len (_field_names self) ≠ length ["Title"; "Author"]
     ∧ check_file_path_and_field_names_compatible disk self = Ok ()
     ∧ apply_final_config disk self = (Ok (), self)
     ∧ stream disk 0 self = (([[]; []; []], None), self))
  ∧ (∃ self, __init__ disk (Some "numbers.csv") header = Ok self
             ∧ header_detected numbers = false
             ∧ _field_names self = NamesList [PStr "1"; PStr "2"]
             ∧ check_file_path_and_field_names_compatible disk self = Ok ()
             ∧ (apply_final_config disk self).1 = Ok ()
             ∧ (stream disk 0 self).1
               = ([[(PStr "1", PStr "3"); (PStr "2", PStr "4")]], None)).
Proof.
  split_and!.
  - done.
  - by vm_compute.
  - eexists. split; [by vm_compute|]. by vm_compute.
Qed.

(** ** Resolving the configuration twice *)

Section dict_more.

Context {V : Type}.
Implicit Types (d items : dict V) (k : pyobj) (v : V).

Lemma dict_set_same k v d : dict_get k d = Some v → dict_set k v d = d.
Proof.
  induction d as [|[k0 v0] d IH]; simpl; [done|].
  case_decide; [by intros [= ->]|]. intros Hget. by rewrite IH.
Qed.

Lemma dict_update_same d items :
  (∀ k v, (k, v) ∈ items → dict_get k d = Some v) →
  dict_update d items = d.
Proof.
  unfold dict_update. induction items as [|[k v] items IH]; simpl; [done|].
  intros Hall. rewrite dict_set_same.
  - apply IH. intros k' v' Hin. apply Hall. by right.
  - apply Hall. left.
Qed.

Lemma dict_set_fresh k v d : dict_mem k d = false → dict_set k v d = d ++ [(k, v)].
Proof.
  unfold dict_mem. induction d as [|[k0 v0] d IH]; simpl; [done|].
  case_decide; [done|]. intros Hget. by rewrite IH.
Qed.

Lemma dict_get_app k d1 d2 :
  dict_get k (d1 ++ d2)
  = match dict_get k d1 with Some v => Some v | None => dict_get k d2 end.
Proof.
  induction d1 as [|[k0 v0] d1 IH]; simpl; [done|]. by case_decide.
Qed.

Lemma dict_set_app k v d1 d2 :
  dict_set k v (d1 ++ d2)
  = if dict_mem k d1 then dict_set k v d1 ++ d2 else d1 ++ dict_set k v d2.
Proof.
  unfold dict_mem. induction d1 as [|[k0 v0] d1 IH]; simpl; [done|].
  case_decide; [done|]. rewrite IH. by destruct (dict_get k d1).
Qed.

(** A dictionary read back from its own items *)
Lemma dict_of_items_NoDup items :
  NoDup (dict_keys items) → dict_of_items items = items.
Proof.
  unfold dict_of_items, dict_update.
  induction items as [|[k v] items IH] using rev_ind; [done|].
  intros Hnd. rewrite foldl_snoc. simpl.
  unfold dict_keys in Hnd. rewrite fmap_app, NoDup_app in Hnd.
  destruct Hnd as (Hnd & Hk & _).
  rewrite IH by done. apply dict_set_fresh.
  destruct (dict_mem k items) eqn:E; [|done].
  exfalso. apply (Hk k); [by apply dict_mem_keys; rewrite E|]. simpl. left.
Qed.

Lemma dict_keys_refreshed items d : dict_keys (refreshed items d) = dict_keys d.
Proof.
  unfold dict_keys, refreshed. rewrite <- list_fmap_compose.
  by apply list_fmap_ext.
Qed.

Lemma dict_mem_refreshed k items d :
  dict_mem k (refreshed items d) = dict_mem k d.
Proof.
  apply eq_true_iff_eq. rewrite <- !Is_true_true.
  by rewrite !dict_mem_keys, dict_keys_refreshed.
Qed.

Lemma dict_set_refreshed k v items d :
  NoDup (dict_keys d) → dict_mem k d →
  dict_set k v (refreshed items d) = refreshed (items ++ [(k, v)]) d.
Proof.
  unfold refreshed, dict_keys, dict_mem.
  induction d as [|[k0 v0] d IH]; csimpl; [done|].
  intros [Hk0 Hnd]%NoDup_cons Hmem. rewrite reverse_snoc. simpl.
  destruct (decide (k = k0)) as [->|Hk].
  - rewrite decide_True by done. simpl. f_equal.
    apply list_fmap_ext. intros i [k1 v1] Hi. simpl.
    rewrite decide_False; [done|]. intros ->. apply Hk0.
    apply list_elem_of_fmap. exists (k0, v1). split; [done|].
    by eapply list_elem_of_lookup_2.
  - rewrite (decide_False (P := k0 = k)) by done. f_equal.
    rewrite IH by done. by rewrite reverse_snoc.
Qed.

Lemma refreshed_snoc_fresh k v items d :
  dict_mem k d = false →
  refreshed (items ++ [(k, v)]) d = refreshed items d.
Proof.
  intros Hk. unfold refreshed. apply list_fmap_ext. intros i [k1 v1] Hi.
  simpl. rewrite reverse_snoc. simpl. rewrite decide_False; [done|].
  intros ->. apply list_elem_of_lookup_2 in Hi.
  assert (dict_mem k d) as Hm.
  { apply dict_mem_keys. apply list_elem_of_fmap. by exists (k, v1). }
  by rewrite Hk in Hm.
Qed.

(** [d.update(items)]: the entries of [d] in place with their last values,
    then the new keys in the order they first come. *)
Lemma dict_update_split d items :
  NoDup (dict_keys d) →
  dict_update d items
  = refreshed items d
    ++ dict_of_items (filter (λ kv, negb (dict_mem kv.1 d)) items).
Proof.
  intros Hnd. induction items as [|[k v] items IH] using rev_ind.
  - unfold dict_of_items, dict_update, refreshed. simpl.
    rewrite app_nil_r. rewrite <- (list_fmap_id d) at 1.
    apply list_fmap_ext. by intros i [k v] _.
  - unfold dict_update in *. rewrite foldl_snoc, IH. simpl.
    rewrite dict_set_app, dict_mem_refreshed, filter_app.
    destruct (dict_mem k d) eqn:Hk.
    + rewrite dict_set_refreshed by (done || by rewrite Hk).
      rewrite filter_cons_False by (simpl; rewrite Hk; by intros []).
      by rewrite filter_nil, app_nil_r.
    + rewrite refreshed_snoc_fresh by done. f_equal.
      rewrite filter_cons_True by (simpl; by rewrite Hk).
      rewrite filter_nil. unfold dict_of_items, dict_update.
      by rewrite foldl_snoc.
Qed.

Lemma dict_keys_NoDup_filter (P : pyobj * V → Prop)
    `{∀ x, Decision (P x)} d :
  NoDup (dict_keys d) → NoDup (dict_keys (filter P d)).
Proof.
  unfold dict_keys. induction d as [|[k v] d IH]; [done|].
  csimpl. intros [Hk Hnd]%NoDup_cons.
  rewrite filter_cons. case_decide; [|auto]. csimpl.
  apply NoDup_cons. split; [|auto].
  intros ([k' v'] & -> & Hin%list_elem_of_filter)%list_elem_of_fmap.
  apply Hk. apply list_elem_of_fmap. exists (k', v'). tauto.
Qed.

End dict_more.

Section rename_twice.

Context {V : Type}.
Variable c : pyobj → pyobj.
Implicit Types (d : dict V) (k y : pyobj) (v : V).

Lemma rekeyed_get_Some d y v :
  dict_get y (reverse (rekeyed c d)) = Some v → ∃ k, (k, v) ∈ d ∧ c k = y.
Proof.
  intros H%dict_get_Some_elem. rewrite elem_of_reverse in H.
  apply list_elem_of_fmap in H as ([k v'] & [= -> ->] & Hin). by exists k.
Qed.

Lemma rekeyed_refreshed_get (items d : dict V) y v :
  dict_get y (reverse (rekeyed c (refreshed items d))) = Some v →
  ∃ k v0, (k, v0) ∈ d ∧ c k = y
          ∧ v = default v0 (dict_get k (reverse items))
          ∧ dict_get y (reverse (rekeyed c d)) = Some v0.
Proof.
  unfold rekeyed, refreshed.
  induction d as [|[k0 v0] d IH] using rev_ind; [done|].
  rewrite !fmap_app. csimpl. rewrite !reverse_snoc. simpl.
  case_decide as Hy.
  - intros [= <-]. exists k0, v0. split_and!; try done.
    apply elem_of_app. right. left.
  - intros (k & v1 & ? & ? & ? & ?)%IH. exists k, v1. split_and!; try done.
    apply elem_of_app. by left.
Qed.

Lemma dict_of_items_keys (items : dict V) k :
  k ∈ dict_keys (dict_of_items items) → k ∈ dict_keys items.
Proof.
  intros Hk%dict_mem_keys. unfold dict_mem in Hk.
  destruct (dict_get k (dict_of_items items)) as [v|] eqn:E; [|done].
  rewrite dict_get_of_items in E. apply dict_get_Some_elem in E.
  rewrite elem_of_reverse in E. apply list_elem_of_fmap. by exists (k, v).
Qed.

(** Merging the re-keyed entries a second time changes nothing when [c]
    fixes what it returns. *)
Lemma merged_twice d :
  NoDup (dict_keys d) →
  (∀ k, k ∈ dict_keys d → c (c k) = c k) →
  merged c (merged c d) = merged c d.
Proof.
  intros Hnd Hidem.
  assert (NoDup (dict_keys (merged c d))) as Hnd1.
  { by apply dict_keys_NoDup_update. }
  set (D := dict_of_items (rekeyed c d)).
  assert (NoDup (dict_keys D)) as HndD by apply dict_keys_NoDup_of_items.
  assert (∀ k, k ∈ dict_keys D → c k = k) as HD.
  { intros k (kv & -> & Hin)%dict_of_items_keys%list_elem_of_fmap.
    apply list_elem_of_fmap in Hin as ([k0 v0] & -> & Hin). simpl.
    apply Hidem. apply list_elem_of_fmap. by exists (k0, v0). }
  assert (∀ k w, dict_get k (reverse D) = Some w →
                 c k = k ∧ dict_get k (reverse (rekeyed c d)) = Some w) as HgetD.
  { intros k w Hw. rewrite dict_get_reverse in Hw by done. split.
    - apply HD. apply dict_mem_keys. unfold dict_mem. by rewrite Hw.
    - subst D. by rewrite dict_get_of_items in Hw. }
  set (F := filter (λ kv : pyobj * V, negb (dict_mem kv.1 d)) D).
  assert (merged c d = refreshed D d ++ F) as Hsplit.
  { unfold merged. fold D. rewrite dict_update_split by done. f_equal.
    apply dict_of_items_NoDup. by apply dict_keys_NoDup_filter. }
  unfold merged at 1. apply dict_update_same. intros y v Hin.
  apply dict_get_NoDup in Hin; [|apply dict_keys_NoDup_of_items].
  rewrite dict_get_of_items in Hin.
  rewrite Hsplit in Hin. unfold rekeyed in Hin.
  rewrite fmap_app, reverse_app, dict_get_app in Hin.
  fold (rekeyed c F) (rekeyed c (refreshed D d)) in Hin.
  destruct (dict_get y (reverse (rekeyed c F))) as [v'|] eqn:EF.
  - injection Hin as ->.
    apply rekeyed_get_Some in EF as (k & Hk & <-).
    assert (c k = k) as ->.
    { apply HD. apply list_elem_of_fmap. exists (k, v). split; [done|].
      by eapply list_elem_of_filter. }
    apply dict_get_NoDup; [done|]. rewrite Hsplit.
    apply elem_of_app. by right.
  - apply rekeyed_refreshed_get in Hin as (k & v0 & Hk & <- & -> & Hv0).
    unfold merged. rewrite dict_get_update_of_items, Hv0. f_equal.
    destruct (dict_get k (reverse D)) as [w|] eqn:Ew; [|done].
    apply HgetD in Ew as [Hck Hw]. rewrite Hck in Hv0. simpl. congruence.
Qed.
End rename_twice.

Lemma res_map_Forall2 {A B} (f : A → res B) (xs : list A) (ys : list B) :
  res_map f xs = Ok ys ↔ Forall2 (λ x y, f x = Ok y) xs ys.
Proof.
  split.
  - revert ys. induction xs as [|x xs IH]; simpl; intros ys.
    + intros [= <-]. constructor.
    + destruct (f x) as [y|] eqn:E; simpl; [|done].
      destruct (res_map f xs) as [ys'|]; simpl; [|done].
      intros [= <-]. constructor; auto.
  - induction 1 as [|x y xs ys Hx _ IH]; simpl; [done|].
    by rewrite Hx, IH.
Qed.

Lemma Forall2_elem_l {A B} (P : A → B → Prop) (l : list A) (k : list B) x :
  Forall2 P l k → x ∈ l → ∃ y, y ∈ k ∧ P x y.
Proof.
  induction 1 as [|x0 y l k HP _ IH]; intros Hx.
  - by apply elem_of_nil in Hx.
  - apply elem_of_cons in Hx as [->|Hx].
    + exists y. split; [left|done].
    + destruct (IH Hx) as (y' & ? & ?). exists y'. split; [by right|done].
Qed.

Lemma res_map_resolved (self : CSV_Gen) (xs ys : list pyobj) :
  res_map (_change_field_name self) xs = Ok ys → ys = resolved self <$> xs.
Proof.
  rewrite res_map_Forall2. induction 1 as [|x y xs ys Hx _ IH]; [done|].
  csimpl. unfold resolved at 1. rewrite Hx. by f_equal.
Qed.

Lemma res_map_rekeyed (self : CSV_Gen) (d r : dict pyval) :
  res_map (λ kv, (k <- _change_field_name self kv.1 ;; Ok (k, kv.2))%res) d
  = Ok r →
  r = rekeyed (resolved self) d.
Proof.
  rewrite res_map_Forall2. induction 1 as [|[k v] y xs ys Hx _ IH]; [done|].
  unfold rekeyed. csimpl. unfold resolved at 1. simpl in Hx.
  destruct (_change_field_name self k); simplify_eq/=. by f_equal.
Qed.

Lemma res_map_resolved_Ok (self : CSV_Gen) (xs : list pyobj) :
  Forall (λ x, ∃ y, _change_field_name self x = Ok y) xs →
  res_map (_change_field_name self) xs = Ok (resolved self <$> xs).
Proof.
  intros H. apply res_map_Ok_fmap. eapply Forall_impl; [exact H|].
  intros x [y Hy]. unfold resolved. by rewrite Hy.
Qed.

Lemma res_map_rekeyed_Ok (self : CSV_Gen) (d : dict pyval) :
  Forall (λ x, ∃ y, _change_field_name self x = Ok y) (dict_keys d) →
  res_map (λ kv, (k <- _change_field_name self kv.1 ;; Ok (k, kv.2))%res) d
  = Ok (rekeyed (resolved self) d).
Proof.
  intros H. apply res_map_Ok_fmap. unfold dict_keys in H.
  rewrite Forall_fmap in H. eapply Forall_impl; [exact H|].
  intros [k v] [y Hy]. simpl in *. unfold resolved. by rewrite Hy.
Qed.

Lemma dict_keys_update {V} (d items : dict V) (k : pyobj) :
  k ∈ dict_keys (dict_update d items) →
  k ∈ dict_keys d ∨ k ∈ dict_keys items.
Proof.
  intros Hk%dict_mem_keys. unfold dict_mem in Hk.
  destruct (dict_get k (dict_update d items)) as [v|] eqn:E; [|done].
  rewrite dict_get_update in E.
  destruct (dict_get k (reverse items)) as [w|] eqn:E'.
  - right. apply dict_get_Some_elem in E'. rewrite elem_of_reverse in E'.
    apply list_elem_of_fmap. by exists (k, w).
  - left. apply dict_mem_keys. unfold dict_mem. by rewrite E.
Qed.

Section resolve_twice.

Variable fs : string → option csv_file.

Lemma apply_final_config_intro (self : CSV_Gen)
    (selected : list pyobj) (transformers : dict pyval)
    (names : list pyobj) :
  check_file_path_and_field_names_compatible fs self = Ok () →
  res_map (_change_field_name self) (elements (_selected_fields self))
  = Ok selected →
  res_map (λ kv, (k <- _change_field_name self kv.1 ;; Ok (k, kv.2))%res)
    (_value_transformers self) = Ok transformers →
  res_map (_change_field_name self) (names_iter (_field_names self))
  = Ok names →
  apply_final_config fs self
  = (Ok (),
     Build_CSV_Gen
       (dict_update (_value_transformers self) (dict_of_items transformers))
       (NamesList names) (_file_path self) (csv_dialect self)
       (_selected_fields self ∪ list_to_set selected)
       (_field_name_mappings self) (ignore_first_row self)).
Proof.
  intros Hcheck Hsel Hvt Hnames.
  unfold apply_final_config, M_bind, M_read, M_assign.
  rewrite Hcheck, Hsel. simpl.
  rewrite (res_map_ext _ (λ kv, (k <- _change_field_name self kv.1 ;;
                                  Ok (k, kv.2))%res)).
  2:{ apply Forall_forall. intros [k v] _. simpl.
      by rewrite (change_field_name_mappings _ self). }
  rewrite Hvt. simpl.
  rewrite (res_map_ext _ (_change_field_name self)).
  2:{ apply Forall_forall. intros k _.
      by rewrite (change_field_name_mappings _ self). }
  by rewrite Hnames.
Qed.

Lemma check_same_shape (a b : CSV_Gen) :
  is_header (_field_names a) = false →
  is_header (_field_names b) = false →
  names_len (_field_names a) = names_len (_field_names b) →
  _file_path a = _file_path b →
  check_file_path_and_field_names_compatible fs a
  = check_file_path_and_field_names_compatible fs b.
Proof.
  intros Ha Hb Hlen Hpath.
  assert (∀ n, names_truthy n = negb (bool_decide (names_len n = 0))) as Htr.
  { intros [s|l]; unfold names_len; simpl; [by destruct s|by destruct l]. }
  unfold check_file_path_and_field_names_compatible, open_file, file_path.
  by rewrite Ha, Hb, !Htr, Hlen, Hpath.
Qed.

(** C1, as amended.  Let the stored field names be other than the string
    ['header'], and let every resolved name be a fixed point of
    [_change_field_name]: resolving what a field name, a selected field or
    a transformer key resolved to returns it unchanged.  Then a second
    [apply_final_config] after a successful first one succeeds and leaves
    the object as the first call left it, field names, selection and
    transformers alike, and a later [stream] yields what the first
    yields: [stream(n)] ends the same way on both objects for every [n],
    and leaves the same object behind for every [n] that [islice]
    accepts. *)
Theorem finalize_twice (self self1 : CSV_Gen) :
  is_header (_field_names self) = false →
  NoDup (dict_keys (_value_transformers self)) →
  (∀ x y, x ∈ configured_names self →
          _change_field_name self x = Ok y →
          _change_field_name self y = Ok y) →
  apply_final_config fs self = (Ok (), self1) →
  apply_final_config fs self1 = (Ok (), self1)
  ∧ ∀ n, (stream fs n self1).1 = (stream fs n self).1
         ∧ ((N.of_nat n ≤ sys_maxsize)%N →
            stream fs n self1 = stream fs n self).
Proof.
  intros Hh Hnd Hfix Hcfg.
  assert (apply_final_config fs self1 = (Ok (), self1)) as Hcfg1.
  2:{ split; [done|]. intros n.
      assert (_stream fs self1 = _stream fs self) as Hs.
      { unfold _stream. by rewrite Hcfg, Hcfg1. }
      destruct n as [|n]; [unfold stream; by rewrite Hs|].
      destruct (N.leb_spec (N.of_nat (S n)) sys_maxsize) as [Hn|Hn].
      - rewrite !(stream_accepted _ _ _ Hn). by rewrite Hs.
      - rewrite !(stream_refused _ _ _ Hn). split; [done|]. intros ?. lia. }
  pose proof Hcfg as (Hcheck & selected & transformers & names & Hsel & Hvt
                      & Hnames & Hself1)%apply_final_config_Ok.
  pose proof (res_map_resolved _ _ _ Hsel) as ->.
  pose proof (res_map_rekeyed _ _ _ Hvt) as ->.
  pose proof (res_map_resolved _ _ _ Hnames) as ->.
  apply res_map_Forall2 in Hsel, Hvt, Hnames.
  set (c := resolved self) in *.
  assert (∀ x, x ∈ configured_names self →
               _change_field_name self x = Ok (c x)
               ∧ _change_field_name self (c x) = Ok (c x)) as Hc.
  { intros x Hx.
    assert (∃ y, _change_field_name self x = Ok y) as [y Hy].
    { unfold configured_names in Hx.
      apply elem_of_app in Hx as [Hx|Hx%elem_of_app].
      - apply (Forall2_elem_l _ _ _ _ Hnames) in Hx as (y & _ & ?). eauto.
      - destruct Hx as [Hx|Hx].
        + apply (Forall2_elem_l _ _ _ _ Hsel) in Hx as (y & _ & ?). eauto.
        + apply list_elem_of_fmap in Hx as ([k v] & -> & Hx).
          apply (Forall2_elem_l _ _ _ _ Hvt) in Hx as (y & _ & Hy).
          simpl in *.
          destruct (_change_field_name self k) as [y'|]; [by exists y'|done]. }
    assert (c x = y) as ->. { subst c. unfold resolved. by rewrite Hy. }
    eauto. }
  assert (∀ x, x ∈ configured_names self → c (c x) = c x) as Hcc.
  { intros x [_ Hx]%Hc. subst c. unfold resolved at 1. by rewrite Hx. }
  assert (∀ x, _change_field_name self1 x = _change_field_name self x)
    as Hsame.
  { intros x. apply change_field_name_mappings. by rewrite Hself1. }
  set (vt1 := merged c (_value_transformers self)).
  set (names1 := c <$> names_iter (_field_names self)).
  set (sel1 := _selected_fields self
               ∪ list_to_set (c <$> elements (_selected_fields self))).
  assert (merged c vt1 = vt1) as Hvt2.
  { apply merged_twice; [done|]. intros k Hk. apply Hcc.
    unfold configured_names. rewrite !elem_of_app. auto. }
  assert (c <$> names1 = names1) as Hnames2.
  { subst names1. rewrite <- list_fmap_compose. apply list_fmap_ext.
    intros i x Hx%list_elem_of_lookup_2. simpl. apply Hcc.
    unfold configured_names. rewrite !elem_of_app. auto. }
  assert (sel1 ∪ list_to_set (c <$> elements sel1) = sel1) as Hsel2.
  { rewrite (comm_L (∪)). apply subseteq_union_1_L. intros y.
    rewrite elem_of_list_to_set, list_elem_of_fmap.
    intros (x & -> & Hx%elem_of_elements).
    apply elem_of_union in Hx as [Hx|Hx].
    - apply elem_of_union_r, elem_of_list_to_set, list_elem_of_fmap.
      exists x. by rewrite elem_of_elements.
    - apply elem_of_list_to_set, list_elem_of_fmap in Hx
        as (x0 & -> & Hx0).
      rewrite Hcc.
      + apply elem_of_union_r, elem_of_list_to_set, list_elem_of_fmap.
        by exists x0.
      + unfold configured_names. rewrite !elem_of_app. auto. }
  fold (merged c (_value_transformers self)) in Hself1.
  fold vt1 names1 sel1 in Hself1.
  rewrite (apply_final_config_intro self1 (c <$> elements sel1)
             (rekeyed c vt1) (c <$> names1)).
  - rewrite Hself1. simpl. fold (merged c vt1).
    by rewrite Hvt2, Hnames2, Hsel2.
  - rewrite <- Hcheck.
    apply check_same_shape; [by rewrite Hself1|done| |by rewrite Hself1].
    rewrite Hself1. unfold names_len, names1. simpl.
    by rewrite length_fmap.
  - rewrite (res_map_ext _ (_change_field_name self))
      by (apply Forall_forall; intros; apply Hsame).
    rewrite Hself1. simpl. apply res_map_resolved_Ok.
    apply Forall_forall. intros x Hx%elem_of_elements.
    apply elem_of_union in Hx as [Hx|Hx].
    + exists (c x). apply Hc. unfold configured_names.
      rewrite !elem_of_app, elem_of_elements. auto.
    + apply elem_of_list_to_set, list_elem_of_fmap in Hx
        as (x0 & -> & Hx0).
      exists (c x0). apply Hc. unfold configured_names.
      rewrite !elem_of_app. auto.
  - rewrite (res_map_ext _ (λ kv, (k <- _change_field_name self kv.1 ;;
                                    Ok (k, kv.2))%res))
      by (apply Forall_forall; intros [??] _; simpl; by rewrite Hsame).
    rewrite Hself1. simpl. apply res_map_rekeyed_Ok.
    apply Forall_forall. intros k Hk. subst vt1. unfold merged in Hk.
    apply dict_keys_update in Hk as [Hk|Hk].
    + exists (c k). apply Hc. unfold configured_names.
      rewrite !elem_of_app. auto.
    + apply dict_of_items_keys in Hk. unfold rekeyed, dict_keys in Hk.
      rewrite <- list_fmap_compose in Hk.
      apply list_elem_of_fmap in Hk as ([k0 v0] & -> & Hk0). simpl.
      exists (c k0). apply Hc. unfold configured_names.
      rewrite !elem_of_app. right. right.
      apply list_elem_of_fmap. by exists (k0, v0).
  - rewrite (res_map_ext _ (_change_field_name self))
      by (apply Forall_forall; intros; apply Hsame).
    rewrite Hself1. simpl. apply res_map_resolved_Ok.
    apply Forall_forall. intros x Hx. subst names1.
    apply list_elem_of_fmap in Hx as (x0 & -> & Hx0).
    exists (c x0). apply Hc. unfold configured_names.
    rewrite !elem_of_app. auto.
Qed.
End resolve_twice.

(** [CSV_Gen('books.csv')] with the renames
    [{'Title': 'name', '^ALL': snakecase}], the selection [{'title'}] and a
    transformer under ['Title']. *)
Lemma finalize_twice_witness :
  let self := with_config
                [(PStr "Title", Lit (PStr "name"));
                 (PStr "^ALL", Fn snakecase_fn)]
                {[ PStr "title" ]} [(PStr "Title", Fn snakecase_fn)]
                books_gen in
  let self1 := (apply_final_config disk self).2 in
  is_header (_field_names self) = false
  ∧ NoDup (dict_keys (_value_transformers self))
  ∧ apply_final_config disk self = (Ok (), self1)
  ∧ _field_names self1 = NamesList [PStr "name"; PStr "author"]
  ∧ apply_final_config disk self1 = (Ok (), self1)
  ∧ ∀ n, (stream disk n self1).1 = (stream disk n self).1
         ∧ ((N.of_nat n ≤ sys_maxsize)%N →
            stream disk n self1 = stream disk n self).
Proof.
  intros self self1.
  assert (NoDup (dict_keys (_value_transformers self))) as Hnd.
  { by_evaluation. }
  assert (apply_final_config disk self = (Ok (), self1)) as Hcfg.
  { vm_compute. reflexivity. }
  assert (∀ x y, x ∈ configured_names self →
                 _change_field_name self x = Ok y →
                 _change_field_name self y = Ok y) as Hfix.
  { assert (configured_names self
            = [PStr "Title"; PStr "Author"; PStr "title"; PStr "Title"])
      as Hl.
    { vm_compute. reflexivity. }
    assert (Forall (λ x, ∀ y, _change_field_name self x = Ok y →
                              _change_field_name self y = Ok y)
              (configured_names self)) as HF.
    { rewrite Hl.
      repeat apply Forall_cons_2; [..|apply Forall_nil_2];
        intros y Hy; vm_compute in Hy; injection Hy as <-;
        vm_compute; reflexivity. }
    intros x y Hx. exact (proj1 (Forall_forall _ _) HF x Hx y). }
  destruct (finalize_twice disk self self1 eq_refl Hnd Hfix Hcfg)
    as [Hagain Hstream].
  split_and!; [reflexivity|exact Hnd|exact Hcfg| |exact Hagain|exact Hstream].
  vm_compute. reflexivity.
Defined.

(** C1, as stated, fails: with the renames
    [{'Title': 'Author', 'Author': 'Name'}] the second call renames what
    the first call produced.  The field names go from [Author, Name] to
    [Name, Name], the selection and the transformer keys gain ['Name'], and
    the second stream yields other records than the first. *)
Lemma finalize_twice_renames_again :
  let self := with_config
                [(PStr "Title", Lit (PStr "Author"));
                 (PStr "Author", Lit (PStr "Name"))]
                {[ PStr "Title" ]} [(PStr "Title", Fn snakecase_fn)]
                books_gen in
  let self1 := (apply_final_config disk self).2 in
  let self2 := (apply_final_config disk self1).2 in
  (apply_final_config disk self).1 = Ok ()
  ∧ (apply_final_config disk self1).1 = Ok ()
  ∧ _field_names self1 = NamesList [PStr "Author"; PStr "Name"]
  ∧ _field_names self2 = NamesList [PStr "Name"; PStr "Name"]
  ∧ (PStr "Name" ∉ _selected_fields self1)
  ∧ PStr "Name" ∈ _selected_fields self2
  ∧ dict_keys (_value_transformers self1) = [PStr "Title"; PStr "Author"]
  ∧ dict_keys (_value_transformers self2)
    = [PStr "Title"; PStr "Author"; PStr "Name"]
  ∧ (stream disk 0 self).1
    = ([[(PStr "Author", PStr "emma")]; [(PStr "Author", PStr "ulysses")]],
       None)
  ∧ (stream disk 0 self1).1
    = ([[(PStr "Name", PStr "austen")]; [(PStr "Name", PStr "joyce")]],
       None).
Proof.
  intros self self1 self2.
  repeat match goal with |- _ ∧ _ => split end;
    try (vm_compute; reflexivity);
    by_evaluation.
Qed.

(** * Further properties of the code *)

(** ** Snake-casing as a normal form *)

Lemma snake_char_ok_image (c : ascii) :
  snake_char_ok (if Ascii.eqb (lower_ascii c) " " then "_"
                 else lower_ascii c)%char.
Proof. destruct c as [[] [] [] [] [] [] [] []]; by vm_compute. Qed.

Lemma snake_char_fixed (c : ascii) :
  (if Ascii.eqb (lower_ascii c) " " then "_" else lower_ascii c)%char = c
  ↔ snake_char_ok c.
Proof.
  unfold snake_char_ok.
  destruct c as [[] [] [] [] [] [] [] []]; vm_compute; split;
    try done; try (by intros [??]); by split.
Qed.

(** X1.  On a string whose characters have code points below 256, as all
    strings of the embedding have, [snakecase] and [_to_snakecase] keep
    the length; the result holds no space and no capital letter, the
    capital letters being A..Z and the code points from 192 to 222 but
    215; snake-casing a second time changes nothing; and a string is its
    own snake-cased form exactly when it holds no space and no capital
    letter. *)
Theorem snakecase_normal_form (s : string) :
  String.length (snakecase s) = String.length s
  ∧ Forall snake_char_ok (String.list_ascii_of_string (snakecase s))
  ∧ snakecase (snakecase s) = snakecase s
  ∧ (snakecase s = s ↔ Forall snake_char_ok (String.list_ascii_of_string s)).
Proof.
  split_and!.
  - unfold snakecase. induction s as [|c s IH]; simpl; [done|]. by f_equal.
  - unfold snakecase. induction s as [|c s IH]; simpl; [constructor|].
    constructor; [apply snake_char_ok_image|done].
  - apply snakecase_idem.
  - unfold snakecase. induction s as [|c s IH]; simpl.
    + split; [constructor|done].
    + rewrite Forall_cons, <- IH, <- snake_char_fixed. split.
      * by intros [= -> ->].
      * by intros [-> ->].
Qed.

(** ** Names that are not strings *)

Lemma res_map_Raise_all {A B} (f : A → res B) (xs : list A) (e0 : exn) :
  (∀ x e, f x = Raise e → e = e0) →
  Exists (λ x, ∃ e, f x = Raise e) xs →
  res_map f xs = Raise e0.
Proof.
  intros Hf. induction 1 as [x xs [e He]|x xs _ IH]; simpl.
  - by rewrite He, (Hf _ _ He).
  - destruct (f x) as [y|e] eqn:E; simpl; [by rewrite IH|].
    by rewrite (Hf _ _ E).
Qed.

Lemma to_snakecase_Raise (x : pyobj) (e : exn) :
  _to_snakecase x = Raise e → e = AttributeError.
Proof. destruct x; simpl; congruence. Qed.

Lemma fnmap_of_non_str_key (m : dict pyval) :
  ¬ str_keys m → fnmap_of m = Raise AttributeError.
Proof.
  intros Hm. unfold fnmap_of.
  rewrite (res_map_Raise_all _ _ AttributeError); [done| |].
  - intros [k v] e. simpl. destruct (_to_snakecase k) eqn:E; simpl; [done|].
    intros [= <-]. by eapply to_snakecase_Raise.
  - unfold str_keys, dict_keys in Hm. rewrite Forall_fmap in Hm.
    apply not_Forall_Exists in Hm; [|solve_decision].
    eapply Exists_impl; [exact Hm|]. intros [k v]. simpl.
    destruct k; simpl; try done; intros _; by eexists.
Qed.

(** X2.  When a key of the rename mapping is not a [str],
    [_change_field_name] raises [AttributeError] for every name, whether
    the name has an entry or not: the local [fnmap] snake-cases every key
    before any lookup. *)
Theorem change_field_name_non_str_key (self : CSV_Gen) (x : pyobj) :
  ¬ str_keys (_field_name_mappings self) →
  _change_field_name self x = Raise AttributeError.
Proof.
  intros Hm. unfold _change_field_name, rename_by_entry.
  by rewrite fnmap_of_non_str_key.
Qed.

(** The mapping [{1: 'x'}]: the name ['Title'], which has no entry, cannot
    be resolved. *)
Lemma change_field_name_non_str_key_witness :
  let self := configured [PStr "Title"] [(PInt 1, Lit (PStr "x"))] ∅ [] in
  ¬ str_keys (_field_name_mappings self)
  ∧ _change_field_name self (PStr "Title") = Raise AttributeError.
Proof.
  intros self.
  assert (¬ str_keys (_field_name_mappings self)) as H.
  { unfold str_keys. by_evaluation. }
  split; [exact H|].
  exact (change_field_name_non_str_key self (PStr "Title") H).
Defined.

Lemma fnmap_str_keys (m : dict pyval) :
  str_keys m → str_keys (dict_update m (dict_of_items (snaked m))).
Proof.
  intros Hm. apply Forall_forall. intros k Hk.
  apply dict_keys_update in Hk as [Hk|Hk].
  - by eapply Forall_forall in Hm.
  - apply dict_of_items_keys in Hk. unfold snaked, dict_keys in Hk.
    rewrite <- list_fmap_compose in Hk.
    apply list_elem_of_fmap in Hk as ([k0 v0] & -> & Hk0). simpl.
    pose proof (str_keys_elem _ _ _ Hm Hk0) as Hs. by destruct k0.
Qed.

Lemma change_field_name_raises_on_non_str (self : CSV_Gen) (x : pyobj) :
  is_str x = false →
  _change_field_name self x = Raise AttributeError.
Proof.
  intros Hx. unfold _change_field_name, rename_by_entry.
  destruct (decide (str_keys (_field_name_mappings self))) as [Hm|Hm];
    [|by rewrite fnmap_of_non_str_key].
  rewrite fnmap_of_str_keys by done. simpl.
  assert (dict_mem x (dict_update (_field_name_mappings self)
                        (dict_of_items (snaked (_field_name_mappings self))))
          = false) as ->.
  { destruct (dict_mem x _) eqn:E; [|done].
    assert (is_str x) as Hs; [|by rewrite Hx in Hs].
    pose proof (fnmap_str_keys _ Hm) as Hkeys.
    eapply Forall_forall in Hkeys; [exact Hkeys|].
    apply dict_mem_keys. by rewrite E. }
  by destruct x.
Qed.

Lemma change_field_name_Ok_str (self : CSV_Gen) (x y : pyobj) :
  _change_field_name self x = Ok y → is_str x.
Proof.
  intros H. destruct (is_str x) eqn:E; [done|].
  by rewrite change_field_name_raises_on_non_str in H.
Qed.

Section non_str_names.

Variable fs : string → option csv_file.

(** X3.  A name that is not a [str] among the field names, the selected
    fields or the keys of the transformers cannot be resolved:
    [_change_field_name] raises [AttributeError] for it, whatever the
    rename mapping, so that [apply_final_config] raises and [stream]
    yields no record and ends with an exception. *)
Theorem finalize_non_str_name (self : CSV_Gen) (k : pyobj) :
  k ∈ configured_names self → is_str k = false →
  _change_field_name self k = Raise AttributeError
  ∧ (∃ e, (apply_final_config fs self).1 = Raise e)
  ∧ ∀ n, ∃ e, (stream fs n self).1 = ([], Some e).
Proof.
  intros Hk Hstr.
  split; [by apply change_field_name_raises_on_non_str|].
  assert (∃ e, (apply_final_config fs self).1 = Raise e) as [e He].
  { destruct (apply_final_config fs self) as [[[]|e] s] eqn:Hcfg;
      [|by exists e].
    exfalso.
    apply apply_final_config_Ok in Hcfg
      as (_ & sel' & vt' & names & Hsel & Hvt & Hnames & _).
    unfold configured_names in Hk. rewrite !elem_of_app in Hk.
    assert (∃ y, _change_field_name self k = Ok y) as [y Hy].
    { destruct Hk as [Hk|[Hk|Hk]].
      - apply res_map_Forall2 in Hnames.
        destruct (Forall2_elem_l _ _ _ _ Hnames Hk) as (y & _ & Hy).
        by exists y.
      - apply res_map_Forall2 in Hsel.
        destruct (Forall2_elem_l _ _ _ _ Hsel Hk) as (y & _ & Hy).
        by exists y.
      - apply list_elem_of_fmap in Hk as ([k0 v0] & -> & Hk0).
        apply res_map_Forall2 in Hvt.
        destruct (Forall2_elem_l _ _ _ _ Hvt Hk0) as ([y v] & _ & Hy).
        simpl in *. destruct (_change_field_name self k0) as [y0|]; [|done].
        by exists y0. }
    apply change_field_name_Ok_str in Hy. by rewrite Hstr in Hy. }
  split; [by exists e|]. intros n.
  assert ((_stream fs self).1 = ([], Some (leave_generator e))) as Hs.
  { unfold _stream.
    by destruct (apply_final_config fs self) as [[[]|e'] s]; simplify_eq/=. }
  destruct n as [|n]; [by exists (leave_generator e)|].
  destruct (N.leb_spec (N.of_nat (S n)) sys_maxsize) as [Hn|Hn].
  - exists (leave_generator e). rewrite (stream_accepted _ _ _ Hn), Hs.
    cbn [fst snd]. by rewrite decide_False by (simpl; lia).
  - exists islice_error. by rewrite (stream_refused _ _ _ Hn).
Qed.

End non_str_names.

(** [CSV_Gen('books.csv', field_names=[1, 'b'])] cannot stream. *)
Lemma finalize_non_str_name_witness :
  let self := configured [PInt 1; PStr "b"] [] ∅ [] in
  PInt 1 ∈ configured_names self
  ∧ _change_field_name self (PInt 1) = Raise AttributeError
  ∧ ∃ e, (stream disk 0 self).1 = ([], Some e).
Proof.
  intros self.
  assert (PInt 1 ∈ configured_names self) as H by by_evaluation.
  destruct (finalize_non_str_name disk self (PInt 1) H eq_refl)
    as (Hc & _ & Hs).
  split_and!; [exact H|exact Hc|exact (Hs 0%nat)].
Defined.

(** X4.  [to_dict] raises when a field name that is paired with a value is
    not a [str] and has no transformer under it: the lookup of the
    transformer, or the filter of the selection, snake-cases the name. *)
Theorem to_dict_non_str_field (self : CSV_Gen) (values : list pyobj)
    (i : nat) (k : pyobj) :
  names_iter (_field_names self) !! i = Some k →
  (i < length values)%nat →
  is_str k = false →
  dict_get k (_value_transformers self) = None →
  ∃ e, to_dict self values = Raise e.
Proof.
  intros Hi Hlt Hstr Hget.
  destruct (to_dict self values) as [d|e] eqn:E; [|by exists e].
  exfalso. unfold to_dict in E.
  destruct (res_map _ _) as [items|] eqn:Hitems; [|done].
  destruct (lookup_lt_is_Some_2 values i Hlt) as [v Hv].
  assert ((k, v) ∈ zip (names_iter (_field_names self)) values) as Hin.
  { apply list_elem_of_lookup. exists i.
    apply lookup_zip_with_Some. by exists k, v. }
  apply res_map_Forall2 in Hitems.
  destruct (Forall2_elem_l _ _ _ _ Hitems Hin) as (it & _ & Hit).
  unfold to_dict_item, py_get, py_or in Hit. rewrite Hget in Hit.
  simpl in Hit.
  destruct (bool_decide (_selected_fields self = ∅));
    [by destruct k|].
  destruct (bool_decide (k ∈ _selected_fields self)); by destruct k.
Qed.

(** The field names [['a', 1]] and a row of two cells. *)
Lemma to_dict_non_str_field_witness :
  let self := configured [PStr "a"; PInt 1] [] ∅ [] in
  ∃ e, to_dict self [PStr "x"; PStr "y"] = Raise e.
Proof.
  intros self.
  refine (to_dict_non_str_field self [PStr "x"; PStr "y"] 1 (PInt 1)
            eq_refl _ eq_refl eq_refl).
  simpl. lia.
Defined.

(** ** Resolution without renames, and under the wildcard *)

Lemma change_field_name_no_renames (self : CSV_Gen) (x : pyobj) :
  _field_name_mappings self = [] → is_str x →
  _change_field_name self x = Ok x.
Proof.
  intros Hm Hx. unfold _change_field_name, rename_by_entry.
  rewrite Hm. by destruct x.
Qed.

Lemma res_map_id {A} (f : A → res A) (xs : list A) :
  Forall (λ x, f x = Ok x) xs → res_map f xs = Ok xs.
Proof.
  intros H. rewrite (res_map_Ok_fmap f id); [by rewrite list_fmap_id|done].
Qed.

Lemma dict_update_self {V} (d : dict V) :
  NoDup (dict_keys d) → dict_update d (dict_of_items d) = d.
Proof.
  intros Hnd. rewrite dict_of_items_NoDup by done.
  apply dict_update_same. intros k v. by apply dict_get_NoDup.
Qed.

(** [field_renames = {'^ALL': f}]: the wildcard is also an entry of the
    mapping, under its own name and under ['^all']. *)
Lemma change_field_name_wildcard_only (self : CSV_Gen) (f : pyfun)
    (s : string) :
  _field_name_mappings self = [(PStr "^ALL", Fn f)] →
  _change_field_name self (PStr s)
  = if String.eqb (snakecase s) "^all"
    then (name <- f (PStr s) ;; f name)%res
    else f (PStr s).
Proof.
  intros Hm. unfold _change_field_name, rename_by_entry. rewrite Hm.
  unfold py_get at 3. cbn [dict_get]. rewrite decide_True by done.
  cbn [default fnmap_of res_map res_bind _to_snakecase fst snd].
  change (snakecase "^ALL") with "^all".
  unfold dict_of_items, dict_update. cbn [foldl dict_set fst snd].
  rewrite decide_False by done. cbn [dict_set].
  unfold dict_mem, py_get, py_or. cbn [dict_get].
  destruct (decide (PStr s = PStr "^ALL")) as [[= ->]|Hne1];
    [by vm_compute|].
  destruct (decide (PStr s = PStr "^all")) as [[= ->]|Hne2];
    [by vm_compute|].
  cbn [_to_snakecase res_bind default truthy truthy_obj].
  destruct (String.eqb_spec (snakecase s) "^all") as [->|Hne3].
  - simpl. by destruct (f (PStr s)).
  - rewrite decide_False.
    2:{ intros [= E]. pose proof (snakecase_idem s) as Hi.
        rewrite E in Hi. by vm_compute in Hi. }
    rewrite decide_False by congruence. simpl. by destruct (f (PStr s)).
Qed.

Lemma change_field_name_wildcard_snakecase (self : CSV_Gen) (s : string) :
  _field_name_mappings self = [(PStr "^ALL", Fn snakecase_fn)] →
  _change_field_name self (PStr s) = Ok (PStr (snakecase s)).
Proof.
  intros Hm.
  rewrite (change_field_name_wildcard_only self snakecase_fn) by done.
  destruct (String.eqb _ _); simpl; by rewrite ?snakecase_idem.
Qed.

Lemma res_map_snakecase (self : CSV_Gen) (xs : list pyobj) :
  _field_name_mappings self = [(PStr "^ALL", Fn snakecase_fn)] →
  Forall (λ k, is_str k) xs →
  res_map (_change_field_name self) xs = Ok (snake_obj <$> xs).
Proof.
  intros Hm Hstr. apply res_map_Ok_fmap.
  eapply Forall_impl; [exact Hstr|]. intros x Hx.
  destruct x; try done. by apply change_field_name_wildcard_snakecase.
Qed.

Lemma dict_keys_update_mono {V} (d items : dict V) (k : pyobj) :
  k ∈ dict_keys d → k ∈ dict_keys (dict_update d items).
Proof.
  intros Hk%dict_mem_keys. apply dict_mem_keys. unfold dict_mem in *.
  rewrite dict_get_update. destruct (dict_get k (reverse items)); [done|].
  by destruct (dict_get k d).
Qed.

Lemma res_map_length {A B} (f : A → res B) (xs : list A) (ys : list B) :
  res_map f xs = Ok ys → length ys = length xs.
Proof.
  intros H%res_map_Forall2. symmetry. by eapply Forall2_length.
Qed.

Section resolution_facts.

Variable fs : string → option csv_file.

(** X5.  With an empty rename mapping, [str] names and a passing check,
    [apply_final_config] returns and changes nothing but the type of the
    field names, which become a list: the selection and the transformers
    are merged with themselves. *)
Theorem finalize_without_renames (self : CSV_Gen) :
  _field_name_mappings self = [] →
  Forall (λ k, is_str k) (configured_names self) →
  NoDup (dict_keys (_value_transformers self)) →
  check_file_path_and_field_names_compatible fs self = Ok () →
  apply_final_config fs self
  = (Ok (),
     with_field_names (NamesList (names_iter (_field_names self))) self).
Proof.
  intros Hm Hstr Hnd Hcheck.
  unfold configured_names in Hstr. rewrite !Forall_app in Hstr.
  destruct Hstr as (Hnames & Hsel & Hvt).
  assert (∀ xs, Forall (λ k, is_str k) xs →
                Forall (λ x, _change_field_name self x = Ok x) xs) as Hid.
  { intros xs Hxs. eapply Forall_impl; [exact Hxs|]. intros x.
    by apply change_field_name_no_renames. }
  rewrite (apply_final_config_intro fs self
             (elements (_selected_fields self)) (_value_transformers self)
             (names_iter (_field_names self))); [|done|..].
  - unfold with_field_names.
    rewrite dict_update_self, list_to_set_elements_L by done.
    by rewrite (idemp_L (∪)).
  - by apply res_map_id, Hid.
  - apply res_map_id. unfold dict_keys in Hvt. rewrite Forall_fmap in Hvt.
    eapply Forall_impl; [exact Hvt|]. intros [k v] Hk. simpl in *.
    by rewrite change_field_name_no_renames.
  - by apply res_map_id, Hid.
Qed.

(** X6.  Under [field_renames = [('^ALL', snakecase)]], the mapping that
    [OCLC_Request.py] assigns, [_change_field_name] returns the snake-cased
    form of every [str] name, also of ['^ALL'] and ['^all'] themselves, and
    a finalize that returns leaves the snake-cased forms of the field
    names, in order. *)
Theorem wildcard_snakecase_resolves (self self' : CSV_Gen) :
  _field_name_mappings self = [(PStr "^ALL", Fn snakecase_fn)] →
  (∀ s, _change_field_name self (PStr s) = Ok (PStr (snakecase s)))
  ∧ (apply_final_config fs self = (Ok (), self') →
     Forall (λ k, is_str k) (names_iter (_field_names self)) →
     _field_names self'
     = NamesList (snake_obj <$> names_iter (_field_names self))).
Proof.
  intros Hm.
  split; [intros s; by apply change_field_name_wildcard_snakecase|].
  intros Hcfg Hstr.
  apply apply_final_config_Ok in Hcfg
    as (_ & sel' & vt' & names & _ & _ & Hnames & ->). simpl. f_equal.
  rewrite (res_map_snakecase self) in Hnames by done. by injection Hnames.
Qed.

(** X7.  [apply_final_config], whether it returns or raises, leaves the
    path, the dialect, the flag of the first row and the rename mapping as
    they were; the selected fields and the keys of the transformers only
    grow; and when it raises the field names are as they were. *)
Theorem apply_final_config_frame (self : CSV_Gen) :
  let out := apply_final_config fs self in
  _file_path out.2 = _file_path self
  ∧ csv_dialect out.2 = csv_dialect self
  ∧ ignore_first_row out.2 = ignore_first_row self
  ∧ _field_name_mappings out.2 = _field_name_mappings self
  ∧ _selected_fields self ⊆ _selected_fields out.2
  ∧ (∀ k, k ∈ dict_keys (_value_transformers self) →
          k ∈ dict_keys (_value_transformers out.2))
  ∧ (∀ e, out.1 = Raise e → _field_names out.2 = _field_names self).
Proof.
  unfold apply_final_config, M_bind, M_read, M_assign. simpl.
  destruct (check_file_path_and_field_names_compatible fs self) as [[]|];
    [|by split_and!].
  destruct (res_map _ (elements _)) as [selected|]; simpl; [|by split_and!].
  destruct (res_map _ (_value_transformers self)) as [transformers|]; simpl.
  2:{ split_and!; try done. apply union_subseteq_l. }
  destruct (res_map _ (names_iter _)) as [names|]; simpl.
  - split_and!; try done; [apply union_subseteq_l|].
    intros k. apply dict_keys_update_mono.
  - split_and!; try done; [apply union_subseteq_l|].
    intros k. apply dict_keys_update_mono.
Qed.

(** X8.  A finalize that returns keeps the number of field names, also
    when renames make two of them equal, and when the field names were
    not the ['header'] sentinel the compatibility check passes again on
    the object it leaves. *)
Theorem apply_final_config_keeps_count (self self' : CSV_Gen) :
  apply_final_config fs self = (Ok (), self') →
  names_len (_field_names self') = names_len (_field_names self)
  ∧ (is_header (_field_names self) = false →
     check_file_path_and_field_names_compatible fs self' = Ok ()).
Proof.
  intros (Hcheck & sel' & vt' & names & _ & _ & Hnames & ->)
    %apply_final_config_Ok.
  apply res_map_length in Hnames.
  split; [done|]. intros Hh. rewrite <- Hcheck.
  by apply check_same_shape.
Qed.

End resolution_facts.

(** Field names [Title, Author], [Title] selected, a transformer under
    [Author], no renames: finalize leaves the object as it was. *)
Lemma finalize_without_renames_witness :
  let self := configured [PStr "Title"; PStr "Author"] [] {[PStr "Title"]}
                [(PStr "Author", Fn snakecase_fn)] in
  check_file_path_and_field_names_compatible disk self = Ok ()
  ∧ apply_final_config disk self = (Ok (), self).
Proof.
  intros self.
  assert (Forall (λ k, is_str k) (configured_names self)) as Hstr
    by by_evaluation.
  assert (NoDup (dict_keys (_value_transformers self))) as Hnd
    by by_evaluation.
  split; [reflexivity|].
  exact (finalize_without_renames disk self eq_refl Hstr Hnd eq_refl).
Defined.

(** [CSV_Gen('books.csv')] under the wildcard. *)
Lemma wildcard_snakecase_resolves_witness :
  let self := with_config [(PStr "^ALL", Fn snakecase_fn)] ∅ [] books_gen in
  _change_field_name self (PStr "Book Title") = Ok (PStr "book_title")
  ∧ _field_names (apply_final_config disk self).2
    = NamesList [PStr "title"; PStr "author"].
Proof.
  intros self.
  assert (apply_final_config disk self
          = (Ok (), (apply_final_config disk self).2)) as Hcfg
    by (by vm_compute).
  assert (Forall (λ k, is_str k) (names_iter (_field_names self))) as Hstr
    by by_evaluation.
  destruct (wildcard_snakecase_resolves disk self
              (apply_final_config disk self).2 eq_refl) as [H1 H2].
  split; [exact (H1 "Book Title")|exact (H2 Hcfg Hstr)].
Defined.

(** [CSV_Gen('books.csv')] with the rename [{'Title': 'Author'}]: two field
    names, both [Author]. *)
Lemma apply_final_config_keeps_count_witness :
  let self := with_config [(PStr "Title", Lit (PStr "Author"))] ∅ []
                books_gen in
  let self' := (apply_final_config disk self).2 in
  apply_final_config disk self = (Ok (), self')
  ∧ _field_names self' = NamesList [PStr "Author"; PStr "Author"]
  ∧ names_len (_field_names self') = 2%nat
  ∧ check_file_path_and_field_names_compatible disk self' = Ok ().
Proof.
  intros self self'.
  assert (apply_final_config disk self = (Ok (), self')) as Hcfg
    by (by vm_compute).
  destruct (apply_final_config_keeps_count disk self self' Hcfg) as [H1 H2].
  split_and!; [exact Hcfg|by vm_compute|exact H1|exact (H2 eq_refl)].
Defined.

(** ** The path, the constructor and the getter of the field names *)

Section path_facts.

Variable fs : string → option csv_file.

(** What an assignment to [file_path] does, by the path and the file
    found. *)
Lemma set_file_path_run (path : string) (s : CSV_Gen) :
  let out := set_file_path fs path s in
  _file_path out.2 = Some path
  ∧ same_settings s out.2
  ∧ if embedded_null path then
      out.1 = Raise (ValueError "embedded null byte")
      ∧ csv_dialect out.2 = csv_dialect s
      ∧ _field_names out.2 = _field_names s
    else
      match fs path with
      | None =>
          out.1 = Raise OSError
          ∧ csv_dialect out.2 = csv_dialect s
          ∧ _field_names out.2 = _field_names s
      | Some f =>
          match sniff f with
          | None =>
              out.1 = Raise csv_Error
              ∧ csv_dialect out.2 = csv_dialect s
              ∧ _field_names out.2 = _field_names s
          | Some d =>
              csv_dialect out.2 = Some d
              ∧ if is_header (_field_names s) then
                  match rows f None with
                  | [] =>
                      out.1 = Raise StopIteration
                      ∧ _field_names out.2 = _field_names s
                  | first :: _ =>
                      out.1 = Ok ()
                      ∧ _field_names out.2 = NamesList (PStr <$> first)
                  end
                else out.1 = Ok () ∧ _field_names out.2 = _field_names s
          end
      end.
Proof.
  unfold set_file_path, set_csv_dialect, get_field_names_from_csv,
    M_bind, M_read, M_assign, M_ret, open_file, file_path, py_open,
    same_settings.
  simpl.
  destruct (embedded_null path) eqn:Hnul; simpl; [done|].
  destruct (fs path) as [f|] eqn:Hf; simpl; [|done].
  destruct (sniff f) as [d|] eqn:Hd; simpl; [|done].
  destruct (is_header (_field_names s)) eqn:Hh; simpl; [|done].
  rewrite ?Hnul, Hf. simpl. by destruct (rows f None) as [|first rest].
Qed.

(** The outcome of an assignment to [file_path] depends on the object
    through its field names only. *)
Lemma set_file_path_outcome (path : string) (a b : CSV_Gen) :
  _field_names a = _field_names b →
  (set_file_path fs path a).1 = (set_file_path fs path b).1.
Proof.
  intros Hn.
  pose proof (set_file_path_run path a) as (_ & _ & Ha).
  pose proof (set_file_path_run path b) as (_ & _ & Hb).
  rewrite Hn in Ha. simpl in *.
  destruct (embedded_null path).
  { destruct Ha as [-> _], Hb as [-> _]. done. }
  destruct (fs path) as [f|].
  2:{ destruct Ha as [-> _], Hb as [-> _]. done. }
  destruct (sniff f).
  2:{ destruct Ha as [-> _], Hb as [-> _]. done. }
  destruct Ha as [_ Ha], Hb as [_ Hb].
  destruct (is_header (_field_names b)).
  2:{ destruct Ha as [-> _], Hb as [-> _]. done. }
  destruct (rows f None); destruct Ha as [-> _], Hb as [-> _]; done.
Qed.

(** X9.  An assignment to [file_path] that raises has stored the path all
    the same, and has left the field names, the renames, the selection,
    the transformers and the flag of the first row as they were.  The
    dialect is as it was, unless the dialect of the file is found, the
    field names are ['header'] and the file has no row: the dialect of the
    file is then stored and the exception is [StopIteration].  A path with
    a NUL character raises the [ValueError] of [open]; any other path that
    names no file raises [OSError]; a file in which no dialect is found
    raises [csv.Error]. *)
Theorem set_file_path_failure (path : string) (s self' : CSV_Gen)
    (e : exn) :
  set_file_path fs path s = (Raise e, self') →
  _file_path self' = Some path
  ∧ same_settings s self'
  ∧ _field_names self' = _field_names s
  ∧ (csv_dialect self' = csv_dialect s
     ∨ is_header (_field_names s)
       ∧ ∃ f d, fs path = Some f ∧ sniff f = Some d ∧ rows f None = []
                ∧ csv_dialect self' = Some d ∧ e = StopIteration)
  ∧ (embedded_null path → e = ValueError "embedded null byte")
  ∧ (embedded_null path = false → fs path = None → e = OSError)
  ∧ (∀ f, embedded_null path = false → fs path = Some f →
          sniff f = None → e = csv_Error).
Proof.
  intros Hrun.
  pose proof (set_file_path_run path s) as (Hpath & Hsame & Hout).
  rewrite Hrun in Hpath, Hsame, Hout. simpl in *.
  split_and!; [done..| | | | |].
  - destruct (embedded_null path); [by destruct Hout as (_ & _ & ?)|].
    destruct (fs path) as [f|]; [|by destruct Hout as (_ & _ & ?)].
    destruct (sniff f); [|by destruct Hout as (_ & _ & ?)].
    destruct Hout as [_ Hout].
    destruct (is_header (_field_names s)); [|by destruct Hout].
    by destruct (rows f None); destruct Hout.
  - destruct (embedded_null path); [left; by destruct Hout as (_ & ? & _)|].
    destruct (fs path) as [f|] eqn:Hf;
      [|left; by destruct Hout as (_ & ? & _)].
    destruct (sniff f) as [d|] eqn:Hd;
      [|left; by destruct Hout as (_ & ? & _)].
    destruct Hout as [Hdia Hout].
    destruct (is_header (_field_names s)); [|by destruct Hout].
    destruct (rows f None) eqn:Hr; destruct Hout as [[= ->] _].
    right. split; [done|]. by exists f, d.
  - intros Hnul. destruct (embedded_null path); [|done].
    by destruct Hout as ([= ->] & _).
  - intros Hnul Hf. rewrite Hnul, Hf in Hout.
    by destruct Hout as ([= ->] & _).
  - intros f Hnul Hf Hd. rewrite Hnul, Hf, Hd in Hout.
    by destruct Hout as ([= ->] & _).
Qed.

(** X10.  [CSV_Gen(path, names)].  With no path, or the empty path, the
    file system is not touched and [_file_path] is not assigned.  An
    object that is built has no transformer, no selected field and no
    rename, its flag of the first row tells whether [names] was
    ['header'], its path is unassigned exactly when none was given, and
    its field names are still ['header'] only when no path was given.  The
    constructor raises only for a path that is not empty, and then what
    the assignment of that path raises after [CSV_Gen(field_names=names)]. *)
Theorem init_outcome (path : option string) (names : field_names_t) :
  (path = None ∨ path = Some "" → __init__ fs path names = Ok (blank names))
  ∧ (∀ self, __init__ fs path names = Ok self →
       _value_transformers self = []
       ∧ _selected_fields self = ∅
       ∧ _field_name_mappings self = []
       ∧ ignore_first_row self = is_header names
       ∧ (_file_path self = None ↔ path = None ∨ path = Some "")
       ∧ (is_header (_field_names self) → _file_path self = None))
  ∧ (∀ e, __init__ fs path names = Raise e ↔
       ∃ p, path = Some p ∧ p ≠ ""
            ∧ (set_file_path fs p (blank names)).1 = Raise e).
Proof.
  split_and!.
  - by intros [-> | ->].
  - intros self. unfold __init__.
    destruct path as [p|]; simpl.
    2:{ intros [= <-]. simpl. split_and!; try done. split; auto. }
    destruct (String.eqb_spec p "") as [->|Hp]; simpl.
    { intros [= <-]. simpl. split_and!; try done. split; auto. }
    pose proof (set_file_path_run p
                  (Build_CSV_Gen [] names None None ∅ [] false))
      as (Hpath & (Hvt & _) & Hout).
    destruct (set_file_path fs p _) as [[[]|e] s]; [|done].
    intros [= <-]. simpl in *. rewrite Hpath.
    split_and!; try done.
    + split; [done|]. intros [?|[= ->]]; done.
    + intros Hh. exfalso.
      destruct (embedded_null p); [by destruct Hout|].
      destruct (fs p) as [f|]; [|by destruct Hout].
      destruct (sniff f); [|by destruct Hout].
      destruct Hout as [_ Hout].
      destruct (is_header names) eqn:E.
      * destruct (rows f None); destruct Hout as [? Hn]; [done|].
        by rewrite Hn in Hh.
      * destruct Hout as [_ Hn]. rewrite Hn in Hh. simpl in E.
        by rewrite E in Hh.
  - intros e. unfold __init__.
    destruct path as [p|]; simpl.
    2:{ split; [done|]. by intros (p & ? & _). }
    destruct (String.eqb_spec p "") as [->|Hp]; simpl.
    { split; [done|]. by intros (p & [= <-] & ? & _). }
    pose proof (set_file_path_outcome p
                  (Build_CSV_Gen [] names None None ∅ [] false)
                  (blank names) eq_refl) as Hout.
    destruct (set_file_path fs p (Build_CSV_Gen _ _ _ _ _ _ _))
      as [[[]|e'] s]; simpl in Hout.
    + split; [done|]. intros (p' & [= <-] & _ & He).
      by rewrite <- Hout in He.
    + split.
      * intros [= ->]. by exists p.
      * intros (p' & [= <-] & _ & He). rewrite <- Hout in He.
        by injection He as ->.
Qed.

(** X11.  The getter of [field_names].  Field names other than ['header']
    are returned and the object is unchanged.  What the getter returns is
    never ['header'], and it is stored in the object, whose other settings
    stay.  When the getter raises, the object is unchanged and the field
    names are ['header']; the exception is [CSV_Error('No file path ...')]
    exactly when the stored path is the empty string and [AttributeError]
    exactly when no path was ever assigned, as after [CSV_Gen()]. *)
Theorem field_names_getter (self : CSV_Gen) :
  let out := field_names fs self in
  (is_header (_field_names self) = false →
   out = (Ok (_field_names self), self))
  ∧ (∀ names, out.1 = Ok names →
       is_header names = false ∧ _field_names out.2 = names
       ∧ _file_path out.2 = _file_path self ∧ same_settings self out.2)
  ∧ (∀ e, out.1 = Raise e →
       out.2 = self ∧ is_header (_field_names self)
       ∧ (e = CSV_Error "No file path to a CSV file provided."
          ↔ _file_path self = Some "")
       ∧ (e = AttributeError ↔ _file_path self = None)).
Proof.
  unfold field_names, get_field_names_from_csv, M_bind, M_read, M_assign,
    M_ret, M_raise, open_file, file_path, py_open, same_settings.
  simpl.
  destruct (is_header (_field_names self)) eqn:Hh; simpl.
  2:{ split_and!; [done| |done]. intros names [= <-]. by rewrite Hh. }
  split_and!; [done| |].
  - intros names. destruct (_file_path self) as [p|] eqn:Hpath; simpl;
      [|done].
    destruct (String.eqb_spec p "") as [->|Hp]; simpl; [done|].
    rewrite ?Hpath. simpl.
    destruct (embedded_null p); simpl; [done|].
    destruct (fs p) as [f|]; simpl; [|done].
    destruct (rows f None) as [|first rest]; simpl; [done|].
    by intros [= <-].
  - intros e. destruct (_file_path self) as [p|] eqn:Hpath; simpl.
    2:{ intros [= <-]. split_and!; try done. }
    destruct (String.eqb_spec p "") as [->|Hp]; simpl.
    { intros [= <-]. split_and!; try done. }
    rewrite ?Hpath. simpl.
    destruct (embedded_null p); simpl.
    { intros [= <-]. split_and!; try done. split; [done|]. by intros [= ->]. }
    destruct (fs p) as [f|]; simpl.
    + destruct (rows f None) as [|first rest]; simpl; [|done].
      intros [= <-]. split_and!; try done. split; [done|]. by intros [= ->].
    + intros [= <-]. split_and!; try done. split; [done|]. by intros [= ->].
Qed.

End path_facts.

(** [CSV_Gen().file_path = 'missing.csv'] *)
Lemma set_file_path_failure_witness :
  let s := blank header in
  let self' := (set_file_path disk "missing.csv" s).2 in
  set_file_path disk "missing.csv" s = (Raise OSError, self')
  ∧ _file_path self' = Some "missing.csv"
  ∧ _field_names self' = header
  ∧ csv_dialect self' = None.
Proof.
  intros s self'.
  assert (set_file_path disk "missing.csv" s = (Raise OSError, self')) as H
    by (by vm_compute).
  destruct (set_file_path_failure disk "missing.csv" s self' OSError H)
    as (Hp & _ & Hn & Hd & _).
  split_and!; [exact H|exact Hp|exact Hn|].
  by destruct Hd as [Hd|(_ & f & d & _ & _ & _ & _ & ?)].
Defined.

(** ** Rows that do not convert, and the length *)

Lemma yield_rows_app (self : CSV_Gen) (pre rest : list (list string))
    (recs : list record) :
  Forall2 (converts self) pre recs →
  yield_rows self (pre ++ rest)
  = (recs ++ (yield_rows self rest).1, (yield_rows self rest).2).
Proof.
  induction 1 as [|row d pre recs Hd _ IH]; simpl.
  - by destruct (yield_rows self rest).
  - unfold converts in Hd. by rewrite Hd, IH.
Qed.

Section failing_rows.

Variable fs : string → option csv_file.

(** X12.  When the configuration resolves and the first row that does not
    convert comes after the rows [pre]: [stream()] yields the records of
    [pre] and ends with the exception of that row; [stream(n)] for
    [0 < n <= len(pre)] yields [n] records and ends without the exception,
    which it never reaches; [stream(n)] for a larger [n], up to
    [sys.maxsize], is as [stream()]; [stream(n)] for [n > sys.maxsize]
    yields nothing, raises the [ValueError] of [itertools.islice] and
    leaves the configuration unresolved; and [len] raises the exception
    of the row. *)
Theorem stream_stops_at_failing_row (self self' : CSV_Gen)
    (pre post : list (list string)) (row : list string)
    (recs : list record) (e : exn) :
  apply_final_config fs self = (Ok (), self') →
  data_rows fs self' = Ok (pre ++ row :: post) →
  Forall2 (converts self') pre recs →
  to_dict self' (PStr <$> row) = Raise e →
  stream fs 0 self = ((recs, Some (leave_generator e)), self')
  ∧ (∀ n, (0 < n ≤ length pre)%nat → (N.of_nat n ≤ sys_maxsize)%N →
          stream fs n self = ((take n recs, None), self'))
  ∧ (∀ n, (length pre < n)%nat → (N.of_nat n ≤ sys_maxsize)%N →
          stream fs n self = ((recs, Some (leave_generator e)), self'))
  ∧ (∀ n, (sys_maxsize < N.of_nat n)%N →
          stream fs n self = (([], Some islice_error), self))
  ∧ __len__ fs self = (Raise (leave_generator e), self').
Proof.
  intros Hcfg Hdata Hpre Hrow.
  pose proof (Forall2_length _ _ _ Hpre) as Hlen.
  assert (_stream fs self = ((recs, Some (leave_generator e)), self')) as Hs.
  { unfold _stream. rewrite Hcfg, Hdata, (yield_rows_app _ _ _ recs Hpre).
    simpl. rewrite Hrow. simpl. by rewrite app_nil_r. }
  split_and!.
  - done.
  - intros [|n] [? ?] Hn; [lia|].
    rewrite (stream_accepted _ _ _ Hn), Hs. cbn [fst snd].
    by rewrite decide_True by lia.
  - intros [|n] ? Hn; [lia|].
    rewrite (stream_accepted _ _ _ Hn), Hs. cbn [fst snd].
    by rewrite decide_False by lia.
  - intros n Hn. by apply stream_refused.
  - unfold __len__. by rewrite Hs.
Qed.

(** X13.  When the configuration resolves and every row converts, [len]
    returns the number of data rows and leaves the configuration
    resolved, and no [stream(n)] yields more records than [len]
    returns. *)
Theorem len_counts_data_rows (self self' : CSV_Gen)
    (data : list (list string)) :
  apply_final_config fs self = (Ok (), self') →
  data_rows fs self' = Ok data →
  Forall (λ row, ∃ d, converts self' row d) data →
  __len__ fs self = (Ok (length data), self')
  ∧ ∀ n, (length (stream fs n self).1.1 ≤ length data)%nat.
Proof.
  intros Hcfg Hdata Hrows.
  destruct (yield_rows_all self' data Hrows) as (recs & Hy & Hconv).
  pose proof (Forall2_length _ _ _ Hconv) as Hlen.
  assert (_stream fs self = ((recs, None), self')) as Hs.
  { unfold _stream. by rewrite Hcfg, Hdata, Hy. }
  split.
  - unfold __len__. rewrite Hs. simpl. by rewrite Hlen.
  - intros [|n]; [unfold stream; rewrite Hs; simpl; lia|].
    destruct (N.leb_spec (N.of_nat (S n)) sys_maxsize) as [Hn|Hn].
    + rewrite (stream_accepted _ _ _ Hn), Hs. cbn [fst snd].
      case_decide; cbn [fst].
      * rewrite length_take. lia.
      * lia.
    + rewrite (stream_refused _ _ _ Hn). cbn [fst length]. lia.
Qed.

End failing_rows.

(** [books.csv] with a transformer of [Title] that rejects ['Ulysses']. *)
Lemma stream_stops_at_failing_row_witness :
  let self := with_config [] ∅ [(PStr "Title", Fn (reject "Ulysses"))]
                books_gen in
  let self' := (apply_final_config disk self).2 in
  let emma := [(PStr "Title", PStr "Emma"); (PStr "Author", PStr "Austen")] in
  to_dict self' [PStr "Ulysses"; PStr "Joyce"]
  = Raise (ValueError "rejected")
  ∧ stream disk 0 self = (([emma], Some (ValueError "rejected")), self')
  ∧ stream disk 1 self = (([emma], None), self')
  ∧ stream disk 2 self = (([emma], Some (ValueError "rejected")), self')
  ∧ __len__ disk self = (Raise (ValueError "rejected"), self').
Proof.
  intros self self' emma.
  assert (apply_final_config disk self = (Ok (), self')) as Hcfg
    by (by vm_compute).
  assert (data_rows disk self'
          = Ok ([["Emma"; "Austen"]] ++ ["Ulysses"; "Joyce"] :: [])) as Hdata
    by (by vm_compute).
  assert (Forall2 (converts self') [["Emma"; "Austen"]] [emma]) as Hpre.
  { repeat constructor. }
  assert (to_dict self' (PStr <$> ["Ulysses"; "Joyce"])
          = Raise (ValueError "rejected")) as Hrow
    by (by vm_compute).
  destruct (stream_stops_at_failing_row disk self self' _ _ _ _ _
              Hcfg Hdata Hpre Hrow) as (H0 & H1 & H2 & _ & Hlen).
  split_and!; [exact Hrow|exact H0| | |exact Hlen].
  - apply (H1 1%nat); [simpl; lia|by vm_compute].
  - apply (H2 2%nat); [simpl; lia|by vm_compute].
Defined.

(** [len(CSV_Gen('books.csv'))] is 2. *)
Lemma len_counts_data_rows_witness :
  let self := with_config [] ∅ [] books_gen in
  let self' := (apply_final_config disk self).2 in
  __len__ disk self = (Ok 2%nat, self').
Proof.
  intros self self'.
  assert (apply_final_config disk self = (Ok (), self')) as Hcfg
    by (by vm_compute).
  assert (data_rows disk self'
          = Ok [["Emma"; "Austen"]; ["Ulysses"; "Joyce"]]) as Hdata
    by (by vm_compute).
  refine (proj1 (len_counts_data_rows disk self self' _ Hcfg Hdata _)).
  repeat constructor; eexists; by vm_compute.
Defined.

(** ** The decorator, when it raises *)

Lemma register_each_Raise (fields : list pyobj) (function : pyfun)
    (self self' : CSV_Gen) (e : exn) :
  register_each fields function self = (Raise e, self') →
  e = decorator_error
  ∧ ∃ pre bad post,
      fields = pre ++ bad :: post
      ∧ Forall (λ k, is_str k) pre
      ∧ is_str bad = false
      ∧ self' = with_value_transformers
                  (register_all pre function (_value_transformers self)) self.
Proof.
  revert self. induction fields as [|k fields IH]; intros self; simpl.
  - done.
  - destruct k as [|z|s].
    + intros [= <- <-]. split; [done|]. exists [], PNone, fields.
      split_and!; try done. by destruct self.
    + intros [= <- <-]. split; [done|]. exists [], (PInt z), fields.
      split_and!; try done. by destruct self.
    + unfold M_bind, M_assign. intros H.
      apply IH in H as (-> & pre & bad & post & -> & Hpre & Hbad & ->).
      split; [done|]. exists (PStr s :: pre), bad, post.
      split_and!; try done. by constructor.
Qed.

(** X14.  A decoration that raises raises the [ValueError] of the
    decorator.  For a field argument that is no [str], list or tuple the
    object is unchanged; for a list or tuple the fields before the first
    one that is not a [str] have been registered, and no other. *)
Theorem transform_field_value_failure (field_to_transform : fields_arg)
    (function : pyfun) (self self' : CSV_Gen) (e : exn) :
  transform_field_value field_to_transform function self = (Raise e, self') →
  e = decorator_error
  ∧ match named_fields field_to_transform with
    | None => self' = self
    | Some fields =>
        ∃ pre bad post,
          fields = pre ++ bad :: post
          ∧ Forall (λ k, is_str k) pre
          ∧ is_str bad = false
          ∧ self' = with_value_transformers
                      (register_all pre function (_value_transformers self))
                      self
    end.
Proof.
  unfold transform_field_value, M_bind, M_ret, M_raise, M_assign.
  destruct field_to_transform as [xs|xs|?|[| |s]|?|?]; simpl;
    try (by intros [= <- <-]).
  - destruct (register_each xs function self) as [[[]|e0] s0] eqn:E; [done|].
    intros [= <- <-]. by apply register_each_Raise in E.
  - destruct (register_each xs function self) as [[[]|e0] s0] eqn:E; [done|].
    intros [= <- <-]. by apply register_each_Raise in E.
Qed.

(** The fields [['a', 1, 'b']]: ['a'] is registered, ['b'] is not. *)
Lemma transform_field_value_failure_witness :
  let self := configured [PStr "a"; PStr "b"] [] ∅ [] in
  let self' := with_value_transformers [(PStr "a", Fn snakecase_fn)] self in
  transform_field_value (FieldsList [PStr "a"; PInt 1; PStr "b"])
    snakecase_fn self
  = (Raise decorator_error, self')
  ∧ ∃ pre bad post,
      [PStr "a"; PInt 1; PStr "b"] = pre ++ bad :: post
      ∧ is_str bad = false
      ∧ self' = with_value_transformers
                  (register_all pre snakecase_fn (_value_transformers self))
                  self.
Proof.
  intros self self'.
  assert (transform_field_value (FieldsList [PStr "a"; PInt 1; PStr "b"])
            snakecase_fn self = (Raise decorator_error, self')) as H
    by reflexivity.
  destruct (transform_field_value_failure _ _ _ _ _ H)
    as (_ & pre & bad & post & H1 & _ & H2 & H3).
  split; [exact H|]. by exists pre, bad, post.
Defined.

(** ** The setter of the renames and the check after construction, at an input *)

(** The list [[('a',)]] is refused by [dict] with a [ValueError]. *)
Lemma set_field_renames_failure_witness :
  let self := configured [PStr "a"] [(PStr "a", Lit (PStr "b"))] ∅ [] in
  let e := ValueError "Provide mapping as dict or list of tuples." in
  set_field_renames (MapSeq [ItemTuple [PStr "a"]]) self = (Raise e, self)
  ∧ self = self
  ∧ (e = TypeError
     ∨ e = ValueError "Provide mapping as dict or list of tuples.").
Proof.
  intros self e. split; [reflexivity|].
  exact (set_field_renames_failure (MapSeq [ItemTuple [PStr "a"]])
           self self e eq_refl).
Defined.

(** [CSV_Gen('numbers.csv')], a file in which no header is detected. *)
Lemma check_after_init_header_witness :
  ∃ self, __init__ disk (Some "numbers.csv") header = Ok self
          ∧ header_detected numbers = false
          ∧ is_header (_field_names self) = false
          ∧ check_file_path_and_field_names_compatible disk self = Ok ().
Proof.
  destruct (__init__ disk (Some "numbers.csv") header) as [self|] eqn:E;
    [|by vm_compute in E].
  exists self.
  assert (_file_path self = Some "numbers.csv") as Hp.
  { vm_compute in E. by injection E as <-. }
  destruct (check_after_init_header disk "numbers.csv" self (or_introl E) Hp)
    as [H1 H2].
  split_and!; [reflexivity|reflexivity|exact H1|exact H2].
Defined.

(** ** The transformer of the [isbn] field *)

Lemma prefix_app (p s : string) :
  starts_with p s = true ↔ ∃ rest, s = p +:+ rest.
Proof.
  revert s. induction p as [|c p IH]; intros s; simpl.
  - split; [intros _; by exists s|by destruct s].
  - destruct s as [|c' s]; [split; [done|by intros [? ?]]|].
    destruct (Ascii.eqb_spec c c') as [->|Hne]; simpl.
    + rewrite IH. split; intros [rest Hr]; exists rest.
      * by rewrite Hr.
      * by injection Hr.
    + split; [done|]. intros [rest [= ? _]]. done.
Qed.

Lemma py_split_skip (sep a rest : string) :
  py_split sep (String.length a) (a +:+ rest) = py_split sep 0 rest.
Proof.
  induction a as [|c a IH]; simpl; [|done].
  by destruct rest.
Qed.

Lemma str_in_app (sub s : string) :
  str_in sub s = true ↔ ∃ a b, s = a +:+ sub +:+ b.
Proof.
  induction s as [|c s IH]; simpl.
  - rewrite orb_false_r, prefix_app. split.
    + intros [rest Hr]. by exists "", rest.
    + intros (a & b & Hab). destruct a; [by exists b|done].
  - rewrite orb_true_iff, prefix_app, IH. split.
    + intros [[rest Hr]|(a & b & ->)].
      * by exists "", rest.
      * by exists (String c a), b.
    + intros (a & b & Hab). destruct a as [|c' a].
      * left. by exists b.
      * right. injection Hab as -> ->. by exists a, b.
Qed.

Lemma str_in_cons_false (sub : string) (c : ascii) (s : string) :
  str_in sub (String c s) = false
  ↔ starts_with sub (String c s) = false ∧ str_in sub s = false.
Proof. simpl. by rewrite orb_false_iff. Qed.

Lemma str_app_cons (x : ascii) (a b : string) :
  String x a +:+ b = String x (a +:+ b).
Proof. done. Qed.

Lemma app_assoc_str (a b c : string) : (a +:+ b) +:+ c = a +:+ b +:+ c.
Proof.
  induction a as [|x a IH]; [done|]. by rewrite !str_app_cons, IH.
Qed.

(** The first piece of a split *)
Lemma split_first_piece (sep s : string) :
  sep ≠ "" →
  let p := (str_split sep s).1 in
  str_in sep p = false
  ∧ (if str_in sep s then ∃ rest, s = p +:+ sep +:+ rest else p = s).
Proof.
  intros Hsep. unfold str_split.
  induction s as [|c s IH].
  - simpl. destruct sep; [done|]. done.
  - cbn [py_split].
    destruct (starts_with sep (String c s)) eqn:Hpre.
    + cbn [fst]. split.
      * destruct sep; [done|]. done.
      * assert (str_in sep (String c s) = true) as ->.
        { simpl. simpl in Hpre. by rewrite Hpre. }
        apply prefix_app in Hpre as [rest Hr]. by exists rest.
    + destruct (py_split sep 0 s) as [p ps] eqn:Hp. cbn [fst] in *.
      destruct IH as [IH1 IH2].
      assert (str_in sep (String c s) = str_in sep s) as Hin.
      { simpl. simpl in Hpre. by rewrite Hpre. }
      rewrite Hin. destruct (str_in sep s) eqn:Hs.
      * destruct IH2 as [rest ->]. split; [|by exists rest].
        apply str_in_cons_false. split; [|done].
        destruct (starts_with sep (String c p)) eqn:Hpre'; [|done].
        apply prefix_app in Hpre' as [r Hr].
        assert (starts_with sep (String c (p +:+ sep +:+ rest)) = true)
          as Hc; [|by rewrite Hc in Hpre].
        apply prefix_app. exists (r +:+ sep +:+ rest).
        change (String c (p +:+ sep +:+ rest))
          with (String c p +:+ sep +:+ rest).
        by rewrite Hr, app_assoc_str.
      * subst p. split; [|done]. by rewrite <- Hin in Hs.
Qed.

(** X18.  [split_isbn] returns, for every [str], the part of it before the
    first [' ; ']: the result holds no [' ; '], it is the argument itself
    when the argument holds none, and otherwise the argument is the
    result, [' ; '] and a rest; applied to its own result, [split_isbn]
    returns it. *)
Theorem split_isbn_first (s : string) :
  ∃ p, split_isbn (PStr s) = Ok (PStr p)
       ∧ str_in " ; " p = false
       ∧ (if str_in " ; " s then ∃ rest, s = p +:+ " ; " +:+ rest
          else p = s)
       ∧ split_isbn (PStr p) = Ok (PStr p).
Proof.
  exists (str_split " ; " s).1.
  destruct (split_first_piece " ; " s) as [H1 H2]; [done|].
  split_and!; [done..|].
  unfold split_isbn. do 2 f_equal.
  destruct (split_first_piece " ; " (str_split " ; " s).1) as [_ H3];
    [done|].
  by rewrite H1 in H3.
Qed.

Lemma str_length_app (a b : string) :
  String.length (a +:+ b) = (String.length a + String.length b)%nat.
Proof.
  induction a as [|x a IH]; [done|]. rewrite str_app_cons. simpl. by rewrite IH.
Qed.

Lemma str_join_cons (sep x y : string) (l : list string) :
  str_join sep (x :: y :: l) = x +:+ sep +:+ str_join sep (y :: l).
Proof. done. Qed.

(** [sep.join(s.split(sep)) == s] *)
Lemma py_split_join (sep s : string) :
  sep ≠ "" → str_join sep (pieces (str_split sep s)) = s.
Proof.
  intros Hsep. unfold str_split.
  remember (String.length s) as n eqn:Hn.
  revert s Hn. induction (lt_wf n) as [n _ IH]. intros s ->.
  destruct s as [|c s]; [done|].
  cbn [py_split].
  destruct (starts_with sep (String c s)) eqn:Hpre.
  - apply prefix_app in Hpre as [rest Hr].
    destruct sep as [|c0 sep]; [done|]. injection Hr as <- ->.
    cbn [String.length].
    replace (S (String.length sep) - 1)%nat with (String.length sep) by lia.
    rewrite py_split_skip.
    specialize (IH (String.length rest)).
    assert (String.length rest < String.length (String c (sep +:+ rest)))%nat
      as Hlt.
    { simpl. rewrite str_length_app. lia. }
    specialize (IH Hlt rest eq_refl).
    destruct (py_split (String c sep) 0 rest) as [p ps].
    unfold pieces in *. cbn [fst snd] in *.
    rewrite str_join_cons, IH. done.
  - specialize (IH (String.length s)).
    assert (String.length s < String.length (String c s))%nat as Hlt
      by (simpl; lia).
    specialize (IH Hlt s eq_refl).
    destruct (py_split sep 0 s) as [p ps].
    unfold pieces in *. cbn [fst snd] in *.
    destruct ps as [|q ps]; [simpl in *; by rewrite IH|].
    rewrite str_join_cons in *. by rewrite str_app_cons, IH.
Qed.

(** ** The records of [OCLC_Request.py] *)

Section oclc.

Variable fs : string → option csv_file.

Lemma oclc_config_resolved (self self' : CSV_Gen) :
  oclc_config self →
  apply_final_config fs self = (Ok (), self') →
  self' = with_field_names
            (NamesList (snake_obj <$> names_iter (_field_names self))) self.
Proof.
  intros (Hm & Hsel & Hnames & Hkeys & Hnd & _ & _) Hcfg.
  apply apply_final_config_Ok in Hcfg
    as (_ & sel' & vt' & names & Hs & Hvt & Hn & ->).
  rewrite (res_map_snakecase self) in Hn by done. injection Hn as <-.
  rewrite Hsel, elements_empty in Hs. injection Hs as <-.
  rewrite (res_map_id _ (_value_transformers self)) in Hvt.
  2:{ unfold dict_keys in Hkeys. rewrite Forall_fmap in Hkeys.
      eapply Forall_impl; [exact Hkeys|]. intros [k v] [Hk Hsn].
      simpl in *. destruct k as [| |s]; try done.
      rewrite (change_field_name_wildcard_snakecase self s Hm). simpl.
      simpl in Hsn. by rewrite Hsn. }
  injection Hvt as <-. unfold with_field_names.
  rewrite dict_update_self by done. rewrite Hsel.
  by rewrite list_to_set_nil, (idemp_L (∪)).
Qed.

(** X19.  Under the configuration of [OCLC_Request.py], a record has the
    key ['isbn'] exactly when a column whose header has the snake-cased
    form ['isbn'] is paired with a cell of the row, and the value under
    the key is the part of such a cell before the first [' ; ']. *)
Theorem isbn_column_first_piece (self self' : CSV_Gen) (row : list string)
    (d : record) :
  oclc_config self →
  apply_final_config fs self = (Ok (), self') →
  to_dict self' (PStr <$> row) = Ok d →
  (∀ y, dict_get (PStr "isbn") d = Some y →
     ∃ i h cell,
       names_iter (_field_names self) !! i = Some (PStr h)
       ∧ snakecase h = "isbn"
       ∧ row !! i = Some cell
       ∧ y = PStr (str_split " ; " cell).1)
  ∧ (∀ i h cell,
       names_iter (_field_names self) !! i = Some (PStr h) →
       snakecase h = "isbn" →
       row !! i = Some cell →
       is_Some (dict_get (PStr "isbn") d)).
Proof.
  intros Hoclc Hcfg Hd.
  pose proof (oclc_config_resolved _ _ Hoclc Hcfg) as ->.
  destruct Hoclc as (Hm & Hsel & Hnames & Hkeys & Hnd & Hcall & Hisbn).
  unfold to_dict in Hd. simpl in Hd.
  set (names := names_iter (_field_names self)) in *.
  set (self' := with_field_names (NamesList (snake_obj <$> names)) self) in *.
  destruct (res_map (to_dict_item self') _) as [items|] eqn:E; [|done].
  injection Hd as <-.
  assert (Forall (λ kv : pyobj * pyobj, is_str kv.1)
            (zip (snake_obj <$> names) (PStr <$> row))) as Hzip.
  { apply zip_str_keys. rewrite Forall_fmap.
    eapply Forall_impl; [exact Hnames|]. by intros [| |s]. }
  destruct (to_dict_items_lookup self' _ items Hzip Hcall E (PStr "isbn"))
    as [H1 H2].
  assert (included self' (PStr "isbn") = true) as Hinc.
  { unfold included. simpl. by rewrite bool_decide_true. }
  assert (∀ v, transformed self' (PStr "isbn") v = split_isbn v) as Htr.
  { intros v. unfold transformed, registered. simpl. by rewrite Hisbn. }
  rewrite dict_get_of_items. split.
  - intros y Hy. rewrite Hy in H1.
    destruct (dict_get (PStr "isbn") (reverse _)) as [v|] eqn:Hv; [|done].
    rewrite Hinc, Htr in H1.
    apply dict_get_Some_elem in Hv. rewrite elem_of_reverse in Hv.
    apply list_elem_of_lookup in Hv as [i Hi].
    apply lookup_zip_with_Some in Hi as (k & v' & [= <- <-] & Hk & Hv').
    rewrite list_lookup_fmap in Hk. rewrite list_lookup_fmap in Hv'.
    destruct (names !! i) as [k0|] eqn:Hk0; [|done].
    destruct (row !! i) as [cell|] eqn:Hcell; [|done].
    simpl in *. injection Hk as Hk. injection Hv' as <-.
    pose proof (proj1 (Forall_lookup _ _) Hnames _ _ Hk0) as Hs.
    destruct k0 as [| |h]; try done. simpl in Hk. injection Hk as Hk.
    exists i, h, cell. split_and!; try done.
    simpl in H1. by injection H1.
  - intros i h cell Hh Hsn Hcell.
    assert ((PStr "isbn", PStr cell)
            ∈ zip (snake_obj <$> names) (PStr <$> row)) as Hin.
    { apply list_elem_of_lookup. exists i.
      apply lookup_zip_with_Some. exists (PStr "isbn"), (PStr cell).
      split_and!; [done| |].
      - rewrite list_lookup_fmap, Hh. simpl. by rewrite Hsn.
      - by rewrite list_lookup_fmap, Hcell. }
    destruct (dict_get (PStr "isbn") (reverse (zip _ _))) as [v|] eqn:Hv.
    + apply (H2 (Is_true_true_2 _ Hinc) v). done.
    + apply dict_get_None in Hv. exfalso. apply Hv.
      apply list_elem_of_fmap. exists (PStr "isbn", PStr cell).
      split; [done|]. by rewrite elem_of_reverse.
Qed.

End oclc.

(** The file of the example, read as [OCLC_Request.py] reads it: the
    column [ISBN] gives the key ['isbn'], with the first of the two
    numbers of the cell. *)
Lemma isbn_column_first_piece_witness :
  ∃ self self' d,
    csv_gen = Ok self
    ∧ oclc_config self
    ∧ apply_final_config bnb_disk self = (Ok (), self')
    ∧ to_dict self' (PStr <$> ["0140430725 ; 0141439580"; "Emma"]) = Ok d
    ∧ dict_get (PStr "isbn") d = Some (PStr "0140430725")
    ∧ ∃ i h cell,
        names_iter (_field_names self) !! i = Some (PStr h)
        ∧ snakecase h = "isbn"
        ∧ ["0140430725 ; 0141439580"; "Emma"] !! i = Some cell
        ∧ PStr "0140430725" = PStr (str_split " ; " cell).1.
Proof.
  destruct csv_gen as [self|] eqn:E; [|by vm_compute in E].
  vm_compute in E. injection E as E.
  exists self, (apply_final_config bnb_disk self).2.
  destruct (to_dict (apply_final_config bnb_disk self).2
              (PStr <$> ["0140430725 ; 0141439580"; "Emma"]))
    as [d|] eqn:Hd; [|subst self; by vm_compute in Hd].
  exists d.
  assert (oclc_config self) as Hoclc.
  { subst self. unfold oclc_config. simpl.
    split_and!; try reflexivity; try by_evaluation; repeat constructor. }
  assert (apply_final_config bnb_disk self
          = (Ok (), (apply_final_config bnb_disk self).2)) as Hcfg.
  { subst self. by vm_compute. }
  assert (dict_get (PStr "isbn") d = Some (PStr "0140430725")) as Hget.
  { subst self. vm_compute in Hd. injection Hd as <-. reflexivity. }
  split_and!; [reflexivity|exact Hoclc|exact Hcfg|reflexivity|exact Hget|].
  exact (proj1 (isbn_column_first_piece bnb_disk self _ _ d Hoclc Hcfg Hd)
           _ Hget).
Defined.

(** ** Settings made under the names of the file *)

Section follow.

Variable fs : string → option csv_file.

(** X20.  Settings made under an original field name follow the rename.
    When finalize returns, the field name at each position is the
    resolved form of the name that was there; if the original name was
    selected, the resolved name is selected too and the column is kept; and
    a transformer stored under the original name is the one registered
    for the resolved name, provided no other key of the transformers
    resolves to the same name. *)
Theorem configuration_follows_renames (self self' : CSV_Gen) (i : nat)
    (k : pyobj) :
  apply_final_config fs self = (Ok (), self') →
  names_iter (_field_names self) !! i = Some k →
  ∃ k', _change_field_name self k = Ok k'
        ∧ names_iter (_field_names self') !! i = Some k'
        ∧ (k ∈ _selected_fields self →
           k ∈ _selected_fields self' ∧ k' ∈ _selected_fields self'
           ∧ included self' k' = true)
        ∧ (∀ t, dict_get k (_value_transformers self) = Some t →
             NoDup (dict_keys (_value_transformers self)) →
             (∀ k2, k2 ∈ dict_keys (_value_transformers self) →
                    _change_field_name self k2 = Ok k' → k2 = k) →
             dict_get k' (_value_transformers self') = Some t
             ∧ registered self' k' = Some t).
Proof.
  intros Hcfg Hi.
  apply apply_final_config_Ok in Hcfg
    as (_ & sel' & vt' & names & Hsel & Hvt & Hnames & ->).
  pose proof (proj1 (res_map_Forall2 _ _ _) Hnames) as Hn2.
  destruct (Forall2_lookup_l _ _ _ _ _ Hn2 Hi) as (k' & Hk' & Hch).
  exists k'. simpl. split_and!; [done..| |].
  - intros Hk.
    assert (k' ∈ sel') as Hin.
    { apply res_map_Forall2 in Hsel.
      destruct (Forall2_elem_l _ _ _ k Hsel) as (y & Hy & Hy').
      - by apply elem_of_elements.
      - rewrite Hch in Hy'. by injection Hy' as <-. }
    assert (k' ∈ _selected_fields self ∪ list_to_set sel') as Hin'.
    { apply elem_of_union. right. by apply elem_of_list_to_set. }
    split_and!; [by apply elem_of_union; left|done|].
    unfold included. simpl. rewrite (bool_decide_true (k' ∈ _)) by done.
    by rewrite orb_true_r.
  - intros t Ht Hnd Huniq.
    pose proof (res_map_rekeyed _ _ _ Hvt) as ->.
    assert (dict_get k' (dict_update (_value_transformers self)
                           (dict_of_items
                              (rekeyed (resolved self)
                                 (_value_transformers self))))
            = Some t) as Hget.
    { rewrite dict_get_update_of_items.
      destruct (dict_get k' (reverse _)) as [v|] eqn:E.
      - apply rekeyed_get_Some in E as (k2 & Hin & Hres).
        assert (_change_field_name self k2 = Ok k') as Hk2.
        { apply res_map_Forall2 in Hvt.
          destruct (Forall2_elem_l _ _ _ _ Hvt Hin) as ([y v'] & _ & Hy).
          simpl in Hy. unfold resolved in Hres.
          destruct (_change_field_name self k2); simplify_eq/=. done. }
        assert (k2 = k) as ->.
        { apply Huniq; [|done]. apply list_elem_of_fmap. by exists (k2, v). }
        rewrite (dict_get_NoDup _ _ _ Hnd Hin) in Ht. done.
      - exfalso. apply dict_get_None in E. apply E.
        unfold dict_keys. rewrite fmap_reverse, elem_of_reverse.
        apply list_elem_of_fmap. exists (k', t). split; [done|].
        apply list_elem_of_fmap. exists (k, t).
        split; [|by apply dict_get_Some_elem].
        unfold resolved. simpl. by rewrite Hch. }
    split; [done|]. unfold registered. simpl. by rewrite Hget.
Qed.

End follow.

(** [books.csv] with the rename [{'Title': 'Name'}], [Title] selected and
    a transformer stored under [Title]: the first column is renamed, kept
    and transformed. *)
Lemma configuration_follows_renames_witness :
  let self := with_config [(PStr "Title", Lit (PStr "Name"))]
                {[PStr "Title"]} [(PStr "Title", Fn snakecase_fn)]
                books_gen in
  let self' := (apply_final_config disk self).2 in
  apply_final_config disk self = (Ok (), self')
  ∧ (stream disk 0 self).1
    = ([[(PStr "Name", PStr "emma")]; [(PStr "Name", PStr "ulysses")]],
       None)
  ∧ ∃ k', _change_field_name self (PStr "Title") = Ok k'
          ∧ names_iter (_field_names self') !! 0%nat = Some k'
          ∧ included self' k' = true
          ∧ registered self' k' = Some (Fn snakecase_fn).
Proof.
  intros self self'.
  assert (apply_final_config disk self = (Ok (), self')) as Hcfg
    by (by vm_compute).
  split; [exact Hcfg|]. split; [by vm_compute|].
  destruct (configuration_follows_renames disk self self' 0 (PStr "Title")
              Hcfg eq_refl) as (k' & Hch & Hname & Hsel & Hvt).
  exists k'.
  assert (PStr "Title" ∈ _selected_fields self) as Hin by by_evaluation.
  assert (NoDup (dict_keys (_value_transformers self))) as Hnd
    by by_evaluation.
  destruct (Hsel Hin) as (_ & _ & Hinc).
  destruct (Hvt (Fn snakecase_fn) eq_refl Hnd) as [_ Hreg].
  { intros k2 Hk2 _. apply list_elem_of_singleton in Hk2. exact Hk2. }
  split_and!; [exact Hch|exact Hname|exact Hinc|exact Hreg].
Defined.
